(** * LlamaStackDistribution controller: the reconciliation pass

    A shallow embedding of [controllers/llamastackdistribution_controller.go].
    The cluster resource store is a record of finite maps keyed by
    (namespace, name); every client call of the controller is a step of a
    small state monad over that store and a log of the calls made.  What the
    outside world answers within one pass (API failures, HTTP responses,
    process environment) is read from an [Oracle]. *)

From Stdlib Require Import ZArith String List Lia Bool DecimalString.
From stdpp Require Import gmap strings.
Import ListNotations.
Open Scope string_scope.
Open Scope Z_scope.
Open Scope list_scope.

(** ** Errors *)

(** Go [error] values.  [Errorf p e] is [fmt.Errorf("p: %w", e)]; [NotFound]
    is the class recognised by [k8serrors.IsNotFound]. *)
Inductive error : Type :=
| NotFound (what : string)
| AlreadyExists (what : string)
| ApiFailure (msg : string)
| ErrorsNew (msg : string)
| Errorf (prefix : string) (cause : error).

Definition IsNotFound (e : error) : bool :=
  match e with NotFound _ => true | _ => false end.

(** [err.Error()], as used by the [%v] verbs of the status messages. *)
Fixpoint Error (e : error) : string :=
  match e with
  | NotFound what => what +:+ " not found"
  | AlreadyExists what => what +:+ " already exists"
  | ApiFailure msg => msg
  | ErrorsNew msg => msg
  | Errorf prefix cause => prefix +:+ ": " +:+ Error cause
  end.

(** The [%d] verb on an [int32]. *)
Definition fmt_d (n : Z) : string := NilZero.string_of_int (Z.to_int n).

(** ** The distribution resource *)

Abbreviation Key := (string * string)%type.   (* namespace, name *)
Definition Quantity : Type := string.              (* resource.Quantity *)

Record DistributionType := {
  dist_Name : string;
  dist_Image : string }.

Record StorageSpec := {
  Size : option Quantity;
  MountPath : string }.

Record PodOverrides := {
  ServiceAccountName : string }.

Record ServerSpec := {
  Distribution : DistributionType;
  Ports : list Z;
  Overrides : option PodOverrides;
  Storage : option StorageSpec }.

Record LlamaStackDistributionSpec := {
  Replicas : Z;
  Server : ServerSpec }.

Inductive DistributionPhase :=
| PhaseUnset | PhasePending | PhaseInitializing | PhaseReady | PhaseFailed.

Inductive Aspect :=
| DeploymentReady | StorageReady | ServiceReady | HealthCheck.

Record Condition := {
  cond_Type : Aspect;
  cond_Status : bool;
  cond_Reason : string;
  cond_Message : string }.

Record ProviderInfo := {
  prov_Name : string;
  prov_Type : string;
  prov_Status : string }.

Record DistributionConfig := {
  ActiveDistribution : string;
  Providers : list ProviderInfo;
  AvailableDistributions : gmap string string }.

Record VersionInfo := {
  OperatorVersion : string;
  LlamaStackVersion : string;
  LastUpdated : Z }.

Record LlamaStackDistributionStatus := {
  Phase : DistributionPhase;
  Conditions : list Condition;
  AvailableReplicas : Z;
  DistConfig : DistributionConfig;
  Version : VersionInfo }.

Record LlamaStackDistribution := {
  Name : string;
  Namespace : string;
  Spec : LlamaStackDistributionSpec;
  Status : LlamaStackDistributionStatus }.

Definition objKey (i : LlamaStackDistribution) : Key := (Namespace i, Name i).

(** Field updates of the status, one per assignment form of the source. *)
Definition setPhase (p : DistributionPhase) (st : LlamaStackDistributionStatus) :=
  {| Phase := p; Conditions := Conditions st;
     AvailableReplicas := AvailableReplicas st;
     DistConfig := DistConfig st; Version := Version st |}.

Definition setConditions (cs : list Condition) (st : LlamaStackDistributionStatus) :=
  {| Phase := Phase st; Conditions := cs;
     AvailableReplicas := AvailableReplicas st;
     DistConfig := DistConfig st; Version := Version st |}.

Definition setAvailableReplicas (n : Z) (st : LlamaStackDistributionStatus) :=
  {| Phase := Phase st; Conditions := Conditions st;
     AvailableReplicas := n;
     DistConfig := DistConfig st; Version := Version st |}.

Definition setDistConfig (d : DistributionConfig) (st : LlamaStackDistributionStatus) :=
  {| Phase := Phase st; Conditions := Conditions st;
     AvailableReplicas := AvailableReplicas st;
     DistConfig := d; Version := Version st |}.

Definition setVersion (v : VersionInfo) (st : LlamaStackDistributionStatus) :=
  {| Phase := Phase st; Conditions := Conditions st;
     AvailableReplicas := AvailableReplicas st;
     DistConfig := DistConfig st; Version := v |}.

Definition setProviders (ps : list ProviderInfo) (st : LlamaStackDistributionStatus) :=
  setDistConfig {| ActiveDistribution := ActiveDistribution (DistConfig st);
                   Providers := ps;
                   AvailableDistributions := AvailableDistributions (DistConfig st) |} st.

Definition withStatus (st : LlamaStackDistributionStatus) (i : LlamaStackDistribution) :=
  {| Name := Name i; Namespace := Namespace i; Spec := Spec i; Status := st |}.

Definition mapStatus (f : LlamaStackDistributionStatus -> LlamaStackDistributionStatus)
    (i : LlamaStackDistribution) : LlamaStackDistribution :=
  withStatus (f (Status i)) i.

(** ** Child resources *)

Definition Labels : Type := list (string * string).

Inductive AccessMode := ReadWriteOnce | ReadOnlyMany | ReadWriteMany.
Inductive ClaimPhase := ClaimNoPhase | ClaimPending | ClaimBound | ClaimLost.

Record PersistentVolumeClaim := {
  pvc_Name : string;
  pvc_Namespace : string;
  pvc_Owner : option Key;
  pvc_AccessModes : list AccessMode;
  pvc_Request : Quantity;
  pvc_Phase : ClaimPhase }.

Record PodSpec := {
  pod_Image : string;
  pod_Port : Z;
  pod_ClaimName : option string;
  pod_ServiceAccountName : string }.

Record Deployment := {
  dep_Name : string;
  dep_Namespace : string;
  dep_Owner : option Key;
  dep_Replicas : Z;
  dep_Selector : Labels;
  dep_TemplateLabels : Labels;
  dep_PodSpec : PodSpec;
  dep_ReadyReplicas : Z }.

Inductive ServiceType := ClusterIP | NodePort | LoadBalancer.

Record Service := {
  svc_Name : string;
  svc_Namespace : string;
  svc_Owner : option Key;
  svc_Selector : Labels;
  svc_PortName : string;
  svc_Port : Z;
  svc_TargetPort : Z;
  svc_Type : ServiceType }.

Record NetworkPolicyPeer := {
  peer_PodSelector : Labels;
  peer_NamespaceSelector : Labels }.

Record NetworkPolicyIngressRule := {
  rule_From : list NetworkPolicyPeer;
  rule_Protocol : string;
  rule_Port : Z }.

Inductive PolicyType := PolicyTypeIngress | PolicyTypeEgress.

Record NetworkPolicy := {
  np_Name : string;
  np_Namespace : string;
  np_Owner : option Key;
  np_PodSelector : Labels;
  np_PolicyTypes : list PolicyType;
  np_Ingress : list NetworkPolicyIngressRule }.

(** The zero value [&appsv1.Deployment{}] that [updateDeploymentStatus] reads
    from when the workload is not found. *)
Definition emptyDeployment : Deployment :=
  {| dep_Name := ""; dep_Namespace := ""; dep_Owner := None; dep_Replicas := 0;
     dep_Selector := []; dep_TemplateLabels := [];
     dep_PodSpec := {| pod_Image := ""; pod_Port := 0; pod_ClaimName := None;
                       pod_ServiceAccountName := "" |};
     dep_ReadyReplicas := 0 |}.

(** ** The cluster store and the call log *)

Record Cluster := {
  distributions : gmap Key LlamaStackDistribution;
  pvcs : gmap Key PersistentVolumeClaim;
  deployments : gmap Key Deployment;
  services : gmap Key Service;
  networkPolicies : gmap Key NetworkPolicy }.

Inductive Kind := KDistribution | KPVC | KDeployment | KService | KNetworkPolicy.
Inductive Verb := VGet | VCreate | VUpdate | VDelete | VStatusUpdate.

Inductive Call :=
| ApiCall (v : Verb) (k : Kind) (key : Key)
| HttpGet (url : string).

Record Sys := {
  cluster : Cluster;
  calls : list Call }.

(** ** What the outside answers during one pass *)

Inductive Body :=
| BodyUnreadable (e : error)                 (* io.ReadAll failed *)
| BodyMalformed (e : error)                  (* json.Unmarshal failed *)
| BodyData (data : list ProviderInfo).       (* the decoded [data] array *)

Inductive HttpOutcome :=
| RequestRejected (e : error)                (* http.NewRequestWithContext failed *)
| TransportFailed (e : error)                (* client.Do failed: refused, timeout *)
| Responded (statusCode : Z) (body : Body).

(** One field per call site of a pass.  A fault carries the message of an API
    failure that is not a not-found: whether an object is found is decided by
    the store. *)
Record Oracle := {
  o_getInstance : option string;
  o_setControllerReference : option error;
  o_getPVC : option string;
  o_createPVC : option string;
  o_operatorNamespace : string + error;
  o_networkPolicy : option string;
  o_applyDeployment : option string;
  o_applyService : option string;
  o_statusGetDeployment : option string;
  o_statusGetPVC : option string;
  o_statusGetService : option string;
  o_health : HttpOutcome;
  o_providers : HttpOutcome;
  o_statusUpdate : option string;
  o_OPERATOR_VERSION : string;
  o_LLAMA_STACK_VERSION : string;
  o_now : Z }.

(** Package constants of [api/v1alpha1] and of the status helpers, and the
    fields of the reconciler. *)
Record Constants := {
  DefaultStorageSize : Quantity;
  DefaultLabelKey : string;
  DefaultLabelValue : string;
  DefaultServicePortName : string;
  DefaultContainerName : string;
  DefaultServerPort : Z;
  MessageDeploymentPending : string;
  MessageDeploymentReady : string;
  MessageStorageReady : string;
  MessageServiceReady : string;
  MessageHealthCheckFailed : string;
  MessageHealthCheckPassed : string;
  Reason : Aspect -> bool -> string }.

Record Reconciler := {
  EnableNetworkPolicy : bool;
  DistributionImages : gmap string string }.

Record Result := {
  Requeue : bool;
  RequeueAfter : Z }.                          (* time.Duration, nanoseconds *)

Definition emptyResult : Result := {| Requeue := false; RequeueAfter := 0 |}.
Definition Second : Z := 1000000000.

(** ** The monad of client calls *)

Definition M (A : Type) : Type := Sys -> A * Sys.

Definition ret {A} (a : A) : M A := fun s => (a, s).

Definition bind {A B} (m : M A) (f : A -> M B) : M B :=
  fun s => let (a, s') := m s in f a s'.

Notation "'do' x <- m ; k" := (bind m (fun x => k))
  (at level 10, x name, m at level 100, k at level 200).
Notation "'do' ' p <- m ; k" := (bind m (fun x => let 'p := x in k))
  (at level 10, p pattern, m at level 100, k at level 200).

Definition record (c : Call) : M unit :=
  fun s => (tt, {| cluster := cluster s; calls := calls s ++ [c] |}).

Definition readCluster : M Cluster := fun s => (cluster s, s).

Definition writeCluster (c : Cluster) : M unit :=
  fun s => (tt, {| cluster := c; calls := calls s |}).

(** ** The client *)

(** One typed store per resource kind: [client.Client] is generic in the
    object it is handed. *)
Record Store (A : Type) := {
  kindOf : Kind;
  objects : Cluster -> gmap Key A;
  setObjects : gmap Key A -> Cluster -> Cluster }.
Arguments kindOf {A} _.
Arguments objects {A} _ _.
Arguments setObjects {A} _ _ _.

Definition distributionStore : Store LlamaStackDistribution :=
  {| kindOf := KDistribution; objects := distributions;
     setObjects := fun m c =>
       {| distributions := m; pvcs := pvcs c; deployments := deployments c;
          services := services c; networkPolicies := networkPolicies c |} |}.

Definition pvcStore : Store PersistentVolumeClaim :=
  {| kindOf := KPVC; objects := pvcs;
     setObjects := fun m c =>
       {| distributions := distributions c; pvcs := m; deployments := deployments c;
          services := services c; networkPolicies := networkPolicies c |} |}.

Definition deploymentStore : Store Deployment :=
  {| kindOf := KDeployment; objects := deployments;
     setObjects := fun m c =>
       {| distributions := distributions c; pvcs := pvcs c; deployments := m;
          services := services c; networkPolicies := networkPolicies c |} |}.

Definition serviceStore : Store Service :=
  {| kindOf := KService; objects := services;
     setObjects := fun m c =>
       {| distributions := distributions c; pvcs := pvcs c; deployments := deployments c;
          services := m; networkPolicies := networkPolicies c |} |}.

Definition networkPolicyStore : Store NetworkPolicy :=
  {| kindOf := KNetworkPolicy; objects := networkPolicies;
     setObjects := fun m c =>
       {| distributions := distributions c; pvcs := pvcs c; deployments := deployments c;
          services := services c; networkPolicies := m |} |}.

Definition failure (fault : option string) : option error :=
  match fault with Some msg => Some (ApiFailure msg) | None => None end.

(** [r.Get(ctx, key, obj)]. *)
Definition clientGet {A} (st : Store A) (fault : option string) (key : Key) : M (A + error) :=
  do _ <- record (ApiCall VGet (kindOf st) key);
  do c <- readCluster;
  ret (match fault with
       | Some msg => inr (ApiFailure msg)
       | None =>
         match objects st c !! key with
         | Some x => inl x
         | None => inr (NotFound (snd key))
         end
       end).

(** [r.Create(ctx, obj)]. *)
Definition clientCreate {A} (st : Store A) (fault : option string) (key : Key) (obj : A)
    : M (option error) :=
  do _ <- record (ApiCall VCreate (kindOf st) key);
  do c <- readCluster;
  match fault with
  | Some msg => ret (Some (ApiFailure msg))
  | None =>
    match objects st c !! key with
    | Some _ => ret (Some (AlreadyExists (snd key)))
    | None => do _ <- writeCluster (setObjects st (<[key := obj]> (objects st c)) c); ret None
    end
  end.

(** [r.Update(ctx, obj)]. *)
Definition clientUpdate {A} (st : Store A) (key : Key) (obj : A) : M (option error) :=
  do _ <- record (ApiCall VUpdate (kindOf st) key);
  do c <- readCluster;
  match objects st c !! key with
  | None => ret (Some (NotFound (snd key)))
  | Some _ => do _ <- writeCluster (setObjects st (<[key := obj]> (objects st c)) c); ret None
  end.

(** [r.Delete(ctx, obj)]. *)
Definition clientDelete {A} (st : Store A) (key : Key) : M (option error) :=
  do _ <- record (ApiCall VDelete (kindOf st) key);
  do c <- readCluster;
  match objects st c !! key with
  | None => ret (Some (NotFound (snd key)))
  | Some _ => do _ <- writeCluster (setObjects st (delete key (objects st c)) c); ret None
  end.

#[global] Instance AccessMode_eq_dec : EqDecision AccessMode.
Proof. solve_decision. Defined.
#[global] Instance ClaimPhase_eq_dec : EqDecision ClaimPhase.
Proof. solve_decision. Defined.
#[global] Instance DistributionPhase_eq_dec : EqDecision DistributionPhase.
Proof. solve_decision. Defined.
#[global] Instance Aspect_eq_dec : EqDecision Aspect.
Proof. solve_decision. Defined.
#[global] Instance PodSpec_eq_dec : EqDecision PodSpec.
Proof. solve_decision. Defined.
#[global] Instance Deployment_eq_dec : EqDecision Deployment.
Proof. solve_decision. Defined.
#[global] Instance ServiceType_eq_dec : EqDecision ServiceType.
Proof. solve_decision. Defined.
#[global] Instance Service_eq_dec : EqDecision Service.
Proof. solve_decision. Defined.
#[global] Instance NetworkPolicyPeer_eq_dec : EqDecision NetworkPolicyPeer.
Proof. solve_decision. Defined.
#[global] Instance NetworkPolicyIngressRule_eq_dec : EqDecision NetworkPolicyIngressRule.
Proof. solve_decision. Defined.
#[global] Instance PolicyType_eq_dec : EqDecision PolicyType.
Proof. solve_decision. Defined.
#[global] Instance NetworkPolicy_eq_dec : EqDecision NetworkPolicy.
Proof. solve_decision. Defined.

(** ** Conditions *)

Fixpoint upsertCondition (c : Condition) (cs : list Condition) : list Condition :=
  match cs with
  | [] => [c]
  | d :: ds =>
    if decide (cond_Type d = cond_Type c) then c :: ds else d :: upsertCondition c ds
  end.

Fixpoint findCondition (a : Aspect) (cs : list Condition) : option Condition :=
  match cs with
  | [] => None
  | d :: ds => if decide (cond_Type d = a) then Some d else findCondition a ds
  end.

Definition conditionOf (a : Aspect) (i : LlamaStackDistribution) : option Condition :=
  findCondition a (Conditions (Status i)).

Section Controller.

Variable K : Constants.
Variable r : Reconciler.
Variable o : Oracle.

(** Modelled from the spec: the condition setters of the controllers package,
    [SetDeploymentReadyCondition], [SetStorageReadyCondition],
    [SetServiceReadyCondition] and [SetHealthCheckCondition], are defined
    outside the controller file.  A condition is keyed by its aspect and holds
    a readiness flag, a short reason and a message; setting it replaces the
    one of that aspect. *)
Definition mkCondition (a : Aspect) (ready : bool) (message : string) : Condition :=
  {| cond_Type := a; cond_Status := ready;
     cond_Reason := Reason K a ready; cond_Message := message |}.

Definition setCondition (a : Aspect) (ready : bool) (message : string)
    (st : LlamaStackDistributionStatus) : LlamaStackDistributionStatus :=
  setConditions (upsertCondition (mkCondition a ready message) (Conditions st)) st.

Definition SetDeploymentReadyCondition := setCondition DeploymentReady.
Definition SetStorageReadyCondition := setCondition StorageReady.
Definition SetServiceReadyCondition := setCondition ServiceReady.
Definition SetHealthCheckCondition := setCondition HealthCheck.

(** Modelled from the spec: [HasPorts], a method of the resource type, is
    defined outside the controller file; the spec declares an optional port
    list. *)
Definition HasPorts (instance : LlamaStackDistribution) : bool :=
  match Ports (Server (Spec instance)) with [] => false | _ => true end.

(** Modelled from the spec: [deploy.GetServicePort] is defined outside the
    controller file: the declared port, or the single well-known default port
    when none is. *)
Definition GetServicePort (instance : LlamaStackDistribution) : Z :=
  match Ports (Server (Spec instance)) with
  | [] => DefaultServerPort K
  | p :: _ => p
  end.

(** Modelled from the spec: [deploy.GetServiceName] is defined outside the
    controller file; the name is the deterministic one [updateServiceStatus]
    looks up. *)
Definition GetServiceName (instance : LlamaStackDistribution) : string :=
  Name instance +:+ "-service".

(** Modelled from the spec: [validateDistribution] is defined outside the
    controller file.  The reference must resolve to exactly one of a named
    known distribution or an explicit image; the two are mutually exclusive;
    it fails if neither resolves. *)
Definition validateDistribution (instance : LlamaStackDistribution) : option error :=
  let d := Distribution (Server (Spec instance)) in
  match dist_Name d, dist_Image d with
  | "", "" => Some (ErrorsNew "failed to validate distribution: either distribution.name or distribution.image must be set")
  | "", _ => None
  | name, "" =>
    match DistributionImages r !! name with
    | Some _ => None
    | None => Some (ErrorsNew ("failed to validate distribution: invalid distribution name: " +:+ name))
    end
  | _, _ => Some (ErrorsNew "failed to validate distribution: only one of distribution.name or distribution.image can be set")
  end.

(** Modelled from the spec: [resolveImage] is defined outside the controller
    file.  Lookup by name in the distribution-to-image map, or pass an
    explicit image through; a "distribution not found" error if the name is
    unknown. *)
Definition resolveImage (d : DistributionType) : string + error :=
  match dist_Name d with
  | "" =>
    match dist_Image d with
    | "" => inr (ErrorsNew "failed to resolve image: distribution not found")
    | image => inl image
    end
  | name =>
    match DistributionImages r !! name with
    | Some image => inl image
    | None => inr (ErrorsNew ("failed to resolve image: distribution not found: " +:+ name))
    end
  end.

(** Modelled from the spec: [buildContainerSpec] and [configurePodStorage] are
    defined outside the controller file.  The pod template is built
    deterministically from the resolved image, the resolved port and the
    storage request. *)
Definition buildContainerSpec (instance : LlamaStackDistribution) (image : string) : PodSpec :=
  {| pod_Image := image; pod_Port := GetServicePort instance;
     pod_ClaimName := None; pod_ServiceAccountName := "" |}.

Definition configurePodStorage (instance : LlamaStackDistribution) (container : PodSpec) : PodSpec :=
  {| pod_Image := pod_Image container; pod_Port := pod_Port container;
     pod_ClaimName := match Storage (Server (Spec instance)) with
                      | Some _ => Some (Name instance +:+ "-pvc")
                      | None => None
                      end;
     pod_ServiceAccountName := pod_ServiceAccountName container |}.

(** [ctrl.SetControllerReference(instance, obj, r.Scheme)]: the owner
    back-reference, or the error the scheme answers. *)
Definition SetControllerReference (instance : LlamaStackDistribution) : Key + error :=
  match o_setControllerReference o with
  | Some e => inr e
  | None => inl (objKey instance)
  end.

(** Modelled from the spec: the apply operations of package [deploy] are
    defined outside the controller file.  Each is an idempotent
    create-if-absent, update-if-changed against the store, carrying the owner
    reference, and returns success or a wrapped error. *)
Definition applyObject {A} `{EqDecision A} (st : Store A) (fault : option string)
    (key : Key) (what : string) (desired : A) (keepStatus : A -> A -> A) : M (option error) :=
  do found <- clientGet st fault key;
  match found with
  | inr err =>
    if IsNotFound err then
      do res <- clientCreate st None key desired;
      ret (match res with
           | Some e => Some (Errorf ("failed to create " +:+ what) e)
           | None => None
           end)
    else ret (Some (Errorf ("failed to fetch " +:+ what) err))
  | inl existing =>
    let target := keepStatus existing desired in
    if decide (target = existing) then ret None
    else
      do res <- clientUpdate st key target;
      ret (match res with
           | Some e => Some (Errorf ("failed to update " +:+ what) e)
           | None => None
           end)
  end.

Definition withDeploymentOwner (owner : Key) (d : Deployment) : Deployment :=
  {| dep_Name := dep_Name d; dep_Namespace := dep_Namespace d; dep_Owner := Some owner;
     dep_Replicas := dep_Replicas d; dep_Selector := dep_Selector d;
     dep_TemplateLabels := dep_TemplateLabels d; dep_PodSpec := dep_PodSpec d;
     dep_ReadyReplicas := dep_ReadyReplicas d |}.

Definition keepReadyReplicas (existing desired : Deployment) : Deployment :=
  {| dep_Name := dep_Name desired; dep_Namespace := dep_Namespace desired;
     dep_Owner := dep_Owner desired;
     dep_Replicas := dep_Replicas desired; dep_Selector := dep_Selector desired;
     dep_TemplateLabels := dep_TemplateLabels desired; dep_PodSpec := dep_PodSpec desired;
     dep_ReadyReplicas := dep_ReadyReplicas existing |}.

Definition ApplyDeployment (instance : LlamaStackDistribution) (deployment : Deployment)
    : M (option error) :=
  match SetControllerReference instance with
  | inr err => ret (Some (Errorf "failed to set controller reference" err))
  | inl owner =>
    applyObject deploymentStore (o_applyDeployment o)
      (dep_Namespace deployment, dep_Name deployment) "deployment"
      (withDeploymentOwner owner deployment) keepReadyReplicas
  end.

Definition withServiceOwner (owner : Key) (s : Service) : Service :=
  {| svc_Name := svc_Name s; svc_Namespace := svc_Namespace s; svc_Owner := Some owner;
     svc_Selector := svc_Selector s; svc_PortName := svc_PortName s; svc_Port := svc_Port s;
     svc_TargetPort := svc_TargetPort s; svc_Type := svc_Type s |}.

Definition ApplyService (instance : LlamaStackDistribution) (service : Service)
    : M (option error) :=
  match SetControllerReference instance with
  | inr err => ret (Some (Errorf "failed to set controller reference" err))
  | inl owner =>
    applyObject serviceStore (o_applyService o)
      (svc_Namespace service, svc_Name service) "service"
      (withServiceOwner owner service) (fun _ desired => desired)
  end.

Definition withNetworkPolicyOwner (owner : Key) (p : NetworkPolicy) : NetworkPolicy :=
  {| np_Name := np_Name p; np_Namespace := np_Namespace p; np_Owner := Some owner;
     np_PodSelector := np_PodSelector p; np_PolicyTypes := np_PolicyTypes p;
     np_Ingress := np_Ingress p |}.

Definition ApplyNetworkPolicy (instance : LlamaStackDistribution) (networkPolicy : NetworkPolicy)
    : M (option error) :=
  match SetControllerReference instance with
  | inr err => ret (Some (Errorf "failed to set controller reference" err))
  | inl owner =>
    applyObject networkPolicyStore (o_networkPolicy o)
      (np_Namespace networkPolicy, np_Name networkPolicy) "NetworkPolicy"
      (withNetworkPolicyOwner owner networkPolicy) (fun _ desired => desired)
  end.

(** Modelled from the spec: [deploy.HandleDisabledNetworkPolicy] is defined
    outside the controller file.  If a policy of the deterministic name exists
    it is deleted, otherwise nothing is done; not-found is tolerated as
    success. *)
Definition HandleDisabledNetworkPolicy (networkPolicy : NetworkPolicy) : M (option error) :=
  let key := (np_Namespace networkPolicy, np_Name networkPolicy) in
  do found <- clientGet networkPolicyStore (o_networkPolicy o) key;
  match found with
  | inr err =>
    if IsNotFound err then ret None
    else ret (Some (Errorf "failed to get NetworkPolicy" err))
  | inl _ =>
    do res <- clientDelete networkPolicyStore key;
    ret (match res with
         | Some e => if IsNotFound e then None
                     else Some (Errorf "failed to delete NetworkPolicy" e)
         | None => None
         end)
  end.

(** ** The controller, function by function *)

(** [fetchInstance]: not-found is answered as [(nil, nil)]. *)
Definition fetchInstance (namespacedName : Key)
    : M (option LlamaStackDistribution * option error) :=
  do res <- clientGet distributionStore (o_getInstance o) namespacedName;
  match res with
  | inr err =>
    if IsNotFound err then ret (None, None)
    else ret (None, Some (Errorf "failed to fetch LlamaStackDistribution" err))
  | inl instance => ret (Some instance, None)
  end.

(** [reconcilePVC]; [storage] is the non-nil [instance.Spec.Server.Storage]
    the caller has checked. *)
Definition reconcilePVC (instance : LlamaStackDistribution) (storage : StorageSpec)
    : M (option error) :=
  let size := match Size storage with
              | None => DefaultStorageSize K
              | Some q => q
              end in
  match SetControllerReference instance with
  | inr err => ret (Some (Errorf "failed to set controller reference" err))
  | inl owner =>
    let pvc := {| pvc_Name := Name instance +:+ "-pvc";
                  pvc_Namespace := Namespace instance;
                  pvc_Owner := Some owner;
                  pvc_AccessModes := [ReadWriteOnce];
                  pvc_Request := size;
                  pvc_Phase := ClaimNoPhase |} in
    let key := (pvc_Namespace pvc, pvc_Name pvc) in
    do found <- clientGet pvcStore (o_getPVC o) key;
    match found with
    | inr err =>
      if IsNotFound err then clientCreate pvcStore (o_createPVC o) key pvc
      else ret (Some (Errorf "failed to fetch PVC" err))
    | inl _ => ret None
    end
  end.

Definition instanceLabels (instance : LlamaStackDistribution) : Labels :=
  [(DefaultLabelKey K, DefaultLabelValue K);
   ("app.kubernetes.io/instance", Name instance)].

(** [reconcileDeployment]. *)
Definition reconcileDeployment (instance : LlamaStackDistribution) : M (option error) :=
  match validateDistribution instance with
  | Some err => ret (Some err)
  | None =>
    match resolveImage (Distribution (Server (Spec instance))) with
    | inr err => ret (Some err)
    | inl resolvedImage =>
      let container := buildContainerSpec instance resolvedImage in
      let podSpec := configurePodStorage instance container in
      let podSpec :=
        match Overrides (Server (Spec instance)) with
        | Some ov =>
          if decide (ServiceAccountName ov = "") then podSpec
          else {| pod_Image := pod_Image podSpec; pod_Port := pod_Port podSpec;
                  pod_ClaimName := pod_ClaimName podSpec;
                  pod_ServiceAccountName := ServiceAccountName ov |}
        | None => podSpec
        end in
      let deployment :=
        {| dep_Name := Name instance; dep_Namespace := Namespace instance;
           dep_Owner := None;
           dep_Replicas := Replicas (Spec instance);
           dep_Selector := instanceLabels instance;
           dep_TemplateLabels := instanceLabels instance;
           dep_PodSpec := podSpec;
           dep_ReadyReplicas := 0 |} in
      ApplyDeployment instance deployment
    end
  end.

(** [reconcileService]. *)
Definition reconcileService (instance : LlamaStackDistribution) : M (option error) :=
  let port := GetServicePort instance in
  let service :=
    {| svc_Name := GetServiceName instance; svc_Namespace := Namespace instance;
       svc_Owner := None;
       svc_Selector := instanceLabels instance;
       svc_PortName := DefaultServicePortName K;
       svc_Port := port; svc_TargetPort := port;
       svc_Type := ClusterIP |} in
  ApplyService instance service.

(** [reconcileNetworkPolicy]. *)
Definition reconcileNetworkPolicy (instance : LlamaStackDistribution) : M (option error) :=
  let networkPolicy :=
    {| np_Name := Name instance +:+ "-network-policy";
       np_Namespace := Namespace instance; np_Owner := None;
       np_PodSelector := []; np_PolicyTypes := []; np_Ingress := [] |} in
  if negb (EnableNetworkPolicy r) then HandleDisabledNetworkPolicy networkPolicy
  else
    let port := GetServicePort instance in
    match o_operatorNamespace o with
    | inr err => ret (Some (Errorf "failed to get operator namespace" err))
    | inl operatorNamespace =>
      let networkPolicy :=
        {| np_Name := np_Name networkPolicy; np_Namespace := np_Namespace networkPolicy;
           np_Owner := None;
           np_PodSelector := instanceLabels instance;
           np_PolicyTypes := [PolicyTypeIngress];
           np_Ingress :=
             [ {| rule_From :=
                    [ {| peer_PodSelector :=
                           [("app.kubernetes.io/part-of", DefaultContainerName K)];
                         peer_NamespaceSelector := [] |} ];
                  rule_Protocol := "TCP"; rule_Port := port |};
               {| rule_From :=
                    [ {| peer_PodSelector := [];
                         peer_NamespaceSelector :=
                           [("kubernetes.io/metadata.name", operatorNamespace)] |} ];
                  rule_Protocol := "TCP"; rule_Port := port |} ] |} in
      ApplyNetworkPolicy instance networkPolicy
    end.

(** [reconcileResources]: storage, ingress policy, workload, endpoint, in that
    order; the first error ends the synchronization. *)
Definition reconcileResources (instance : LlamaStackDistribution) : M (option error) :=
  do pvcErr <-
    match Storage (Server (Spec instance)) with
    | Some storage => reconcilePVC instance storage
    | None => ret None
    end;
  match pvcErr with
  | Some err => ret (Some (Errorf "failed to reconcile PVC" err))
  | None =>
    do npErr <- reconcileNetworkPolicy instance;
    match npErr with
    | Some err => ret (Some (Errorf "failed to reconcile NetworkPolicy" err))
    | None =>
      do depErr <- reconcileDeployment instance;
      match depErr with
      | Some err => ret (Some (Errorf "failed to reconcile Deployment" err))
      | None =>
        if HasPorts instance then
          do svcErr <- reconcileService instance;
          match svcErr with
          | Some err => ret (Some (Errorf "failed to reconcile service" err))
          | None => ret None
          end
        else ret None
      end
    end
  end.

(** [getServerURL(instance, path).String()]. *)
Definition getServerURL (instance : LlamaStackDistribution) (path : string) : string :=
  "http://" +:+ GetServiceName instance +:+ "." +:+ Namespace instance
    +:+ ".svc.cluster.local:" +:+ fmt_d (GetServicePort instance) +:+ path.

Definition StatusOK : Z := 200.

(** [checkHealth]. *)
Definition checkHealth (instance : LlamaStackDistribution) : M (bool * option error) :=
  let u := getServerURL instance "/v1/health" in
  match o_health o with
  | RequestRejected err =>
    ret (false, Some (Errorf "failed to create health check request" err))
  | TransportFailed err =>
    do _ <- record (HttpGet u);
    ret (false, Some (Errorf "failed to make health check request" err))
  | Responded statusCode _ =>
    do _ <- record (HttpGet u);
    ret ((statusCode =? StatusOK)%Z, None)
  end.

(** [getProviderInfo]. *)
Definition getProviderInfo (instance : LlamaStackDistribution)
    : M (list ProviderInfo + error) :=
  let u := getServerURL instance "/v1/providers" in
  match o_providers o with
  | RequestRejected err =>
    ret (inr (Errorf "failed to create providers request" err))
  | TransportFailed err =>
    do _ <- record (HttpGet u);
    ret (inr (Errorf "failed to make providers request" err))
  | Responded statusCode body =>
    do _ <- record (HttpGet u);
    if negb (statusCode =? StatusOK)%Z then
      ret (inr (ErrorsNew ("failed to query providers endpoint: returned status code "
                           +:+ fmt_d statusCode)))
    else
      match body with
      | BodyUnreadable err => ret (inr (Errorf "failed to read providers response" err))
      | BodyMalformed err => ret (inr (Errorf "failed to unmarshal providers response" err))
      | BodyData data => ret (inl data)
      end
  end.

(** [updateDeploymentStatus]: the readiness flag, the error, and the instance
    as mutated. *)
Definition updateDeploymentStatus (instance : LlamaStackDistribution)
    : M (LlamaStackDistribution * bool * option error) :=
  do res <- clientGet deploymentStore (o_statusGetDeployment o)
              (Namespace instance, Name instance);
  let deployment := match res with inl d => d | inr _ => emptyDeployment end in
  let deploymentErr := match res with inl _ => None | inr e => Some e end in
  match deploymentErr with
  | Some e =>
    if negb (IsNotFound e) then
      ret (instance, false, Some (Errorf "failed to fetch deployment for status" e))
    else
      ret (mapStatus (fun st =>
             setAvailableReplicas (dep_ReadyReplicas deployment)
               (SetDeploymentReadyCondition false (MessageDeploymentPending K)
                  (setPhase PhasePending st))) instance, false, None)
  | None =>
    let ready := dep_ReadyReplicas deployment in
    let desired := Replicas (Spec instance) in
    if (ready =? 0)%Z then
      ret (mapStatus (fun st =>
             setAvailableReplicas ready
               (SetDeploymentReadyCondition false (MessageDeploymentPending K)
                  (setPhase PhaseInitializing st))) instance, false, None)
    else if (ready <? desired)%Z then
      let deploymentMessage :=
        "Deployment is scaling: " +:+ fmt_d ready +:+ "/" +:+ fmt_d desired
          +:+ " replicas ready" in
      ret (mapStatus (fun st =>
             setAvailableReplicas ready
               (SetDeploymentReadyCondition false deploymentMessage
                  (setPhase PhaseInitializing st))) instance, false, None)
    else if (ready >? desired)%Z then
      let deploymentMessage :=
        "Deployment is scaling down: " +:+ fmt_d ready +:+ "/" +:+ fmt_d desired
          +:+ " replicas ready" in
      ret (mapStatus (fun st =>
             setAvailableReplicas ready
               (SetDeploymentReadyCondition false deploymentMessage
                  (setPhase PhaseInitializing st))) instance, false, None)
    else
      ret (mapStatus (fun st =>
             let st := SetDeploymentReadyCondition true (MessageDeploymentReady K)
                         (setPhase PhaseReady st) in
             let st :=
               if decide (LlamaStackVersion (Version st) = "") then
                 setVersion {| OperatorVersion := OperatorVersion (Version st);
                               LlamaStackVersion := o_LLAMA_STACK_VERSION o;
                               LastUpdated := LastUpdated (Version st) |} st
               else st in
             setAvailableReplicas ready st) instance, true, None)
  end.

Definition claimPhaseString (p : ClaimPhase) : string :=
  match p with
  | ClaimNoPhase => ""
  | ClaimPending => "Pending"
  | ClaimBound => "Bound"
  | ClaimLost => "Lost"
  end.

(** [updateStorageStatus]. *)
Definition updateStorageStatus (instance : LlamaStackDistribution) : M LlamaStackDistribution :=
  match Storage (Server (Spec instance)) with
  | None => ret instance
  | Some _ =>
    do res <- clientGet pvcStore (o_statusGetPVC o)
                (Namespace instance, Name instance +:+ "-pvc");
    match res with
    | inr err =>
      ret (mapStatus (SetStorageReadyCondition false ("Failed to get PVC: " +:+ Error err))
             instance)
    | inl pvc =>
      let ready := bool_decide (pvc_Phase pvc = ClaimBound) in
      let message :=
        if ready then MessageStorageReady K
        else "PVC is not bound: " +:+ claimPhaseString (pvc_Phase pvc) in
      ret (mapStatus (SetStorageReadyCondition ready message) instance)
    end
  end.

(** [updateServiceStatus]. *)
Definition updateServiceStatus (instance : LlamaStackDistribution) : M LlamaStackDistribution :=
  if negb (HasPorts instance) then ret instance
  else
    do res <- clientGet serviceStore (o_statusGetService o)
                (Namespace instance, Name instance +:+ "-service");
    match res with
    | inr err =>
      ret (mapStatus (SetServiceReadyCondition false ("Failed to get Service: " +:+ Error err))
             instance)
    | inl _ =>
      ret (mapStatus (SetServiceReadyCondition true (MessageServiceReady K)) instance)
    end.

(** [updateDistributionConfig]. *)
Definition updateDistributionConfig (instance : LlamaStackDistribution) : LlamaStackDistribution :=
  let d := Distribution (Server (Spec instance)) in
  let activeDistribution :=
    if decide (dist_Name d = "") then
      if decide (dist_Image d = "") then "" else "custom"
    else dist_Name d in
  mapStatus (fun st =>
    setDistConfig {| ActiveDistribution := activeDistribution;
                     Providers := Providers (DistConfig st);
                     AvailableDistributions := DistributionImages r |} st) instance.

(** [performHealthChecks]: the health probe decides the phase; the provider
    listing is then attempted whatever the probe answered. *)
Definition performHealthChecks (instance : LlamaStackDistribution) : M LlamaStackDistribution :=
  do '(healthy, err) <- checkHealth instance;
  let instance :=
    match err with
    | Some e =>
      mapStatus (fun st =>
        SetHealthCheckCondition false ("Health check failed: " +:+ Error e)
          (setPhase PhaseInitializing st)) instance
    | None =>
      if negb healthy then
        mapStatus (fun st =>
          SetHealthCheckCondition false (MessageHealthCheckFailed K)
            (setPhase PhaseFailed st)) instance
      else
        mapStatus (fun st =>
          SetHealthCheckCondition true (MessageHealthCheckPassed K)
            (setPhase PhaseReady st)) instance
    end in
  do res <- getProviderInfo instance;
  match res with
  | inr _ => ret (mapStatus (setProviders []) instance)
  | inl providers => ret (mapStatus (setProviders providers) instance)
  end.

(** [r.Status().Update(ctx, instance)]: the status sub-object of the stored
    resource is replaced by the one in hand. *)
Definition statusUpdate (instance : LlamaStackDistribution) : M (option error) :=
  let key := objKey instance in
  do _ <- record (ApiCall VStatusUpdate KDistribution key);
  do c <- readCluster;
  match o_statusUpdate o with
  | Some msg => ret (Some (ApiFailure msg))
  | None =>
    match distributions c !! key with
    | None => ret (Some (NotFound (snd key)))
    | Some stored =>
      do _ <- writeCluster
                (setObjects distributionStore
                   (<[key := withStatus (Status instance) stored]> (distributions c)) c);
      ret None
    end
  end.

(** The first statement of [updateStatus]: the operator version is set from the
    process environment while it is empty. *)
Definition initOperatorVersion (instance : LlamaStackDistribution) : LlamaStackDistribution :=
  if decide (OperatorVersion (Version (Status instance)) = "") then
    mapStatus (fun st =>
      setVersion {| OperatorVersion := o_OPERATOR_VERSION o;
                    LlamaStackVersion := LlamaStackVersion (Version st);
                    LastUpdated := LastUpdated (Version st) |} st) instance
  else instance.

(** The part of [updateStatus] before the final write: the status as
    recomputed, and the error of the early exit when the workload could not be
    read. *)
Definition evaluateStatus (instance : LlamaStackDistribution) (reconcileErr : option error)
    : M (LlamaStackDistribution * option error) :=
  let instance := initOperatorVersion instance in
  match reconcileErr with
  | Some e =>
    ret (mapStatus (fun st =>
           SetDeploymentReadyCondition false
             ("Resource reconciliation failed: " +:+ Error e)
             (setPhase PhaseFailed st)) instance, None)
  | None =>
    do '(instance, deploymentReady, err) <- updateDeploymentStatus instance;
    match err with
    | Some e => ret (instance, Some e)
    | None =>
      do instance <- updateStorageStatus instance;
      do instance <- updateServiceStatus instance;
      let instance := updateDistributionConfig instance in
      if deploymentReady then
        do instance <- performHealthChecks instance;
        ret (instance, None)
      else
        ret (mapStatus (fun st =>
               setProviders [] (SetHealthCheckCondition false "Deployment not ready" st))
               instance, None)
    end
  end.

(** [instance.Status.Version.LastUpdated = metav1.NewTime(metav1.Now().UTC())]. *)
Definition touchLastUpdated (instance : LlamaStackDistribution) : LlamaStackDistribution :=
  mapStatus (fun st =>
    setVersion {| OperatorVersion := OperatorVersion (Version st);
                  LlamaStackVersion := LlamaStackVersion (Version st);
                  LastUpdated := o_now o |} st) instance.

(** [updateStatus]. *)
Definition updateStatus (instance : LlamaStackDistribution) (reconcileErr : option error)
    : M (LlamaStackDistribution * option error) :=
  do '(instance, early) <- evaluateStatus instance reconcileErr;
  match early with
  | Some e => ret (instance, Some e)
  | None =>
    let instance := touchLastUpdated instance in
    do res <- statusUpdate instance;
    match res with
    | Some err => ret (instance, Some (Errorf "failed to update status" err))
    | None => ret (instance, None)
    end
  end.

(** [Reconcile]. *)
Definition Reconcile (req : Key) : M (Result * option error) :=
  do '(fetched, err) <- fetchInstance req;
  match err with
  | Some e => ret (emptyResult, Some e)
  | None =>
    match fetched with
    | None => ret (emptyResult, None)
    | Some instance =>
      do reconcileErr <- reconcileResources instance;
      do '(instance, statusUpdateErr) <- updateStatus instance reconcileErr;
      match statusUpdateErr with
      | Some sue =>
        match reconcileErr with
        | Some re => ret (emptyResult, Some re)
        | None => ret (emptyResult, Some sue)
        end
      | None =>
        match reconcileErr with
        | Some re => ret (emptyResult, Some re)
        | None =>
          if decide (Phase (Status instance) = PhaseInitializing) then
            ret ({| Requeue := false; RequeueAfter := 10 * Second |}, None)
          else ret (emptyResult, None)
        end
      end
    end
  end.

End Controller.

(** ** The change predicate *)

(** The objects of an update event are [client.Object]s; the predicate of
    [SetupWithManager] type-asserts them. *)
Inductive Object :=
| DistributionObject (obj : LlamaStackDistribution)
| OtherObject (kind : string).

(** What the predicate writes: a line of the logger, a text on standard
    output. *)
Inductive Output :=
| LoggedInfo (namespace name message : string)
| Printed (text : string).

#[global] Instance DistributionType_eq_dec : EqDecision DistributionType.
Proof. solve_decision. Defined.
#[global] Instance StorageSpec_eq_dec : EqDecision StorageSpec.
Proof. unfold Quantity. solve_decision. Defined.
#[global] Instance PodOverrides_eq_dec : EqDecision PodOverrides.
Proof. solve_decision. Defined.
#[global] Instance ServerSpec_eq_dec : EqDecision ServerSpec.
Proof. solve_decision. Defined.
#[global] Instance LlamaStackDistributionSpec_eq_dec : EqDecision LlamaStackDistributionSpec.
Proof. solve_decision. Defined.

Definition newline : string := String (Ascii.ascii_of_nat 10) EmptyString.

Section ChangePredicate.

(** [cmp.Diff] on two specs. *)
Variable Diff : LlamaStackDistributionSpec -> LlamaStackDistributionSpec -> string.

(** The [UpdateFunc] of the predicate given to [For] in [SetupWithManager]:
    its answer and what it writes. *)
Definition UpdateFunc (ObjectOld ObjectNew : Object) : bool * list Output :=
  match ObjectOld with
  | OtherObject _ => (false, [])
  | DistributionObject oldObj =>
    match ObjectNew with
    | OtherObject _ => (false, [])
    | DistributionObject newObj =>
      let diff := Diff (Spec oldObj) (Spec newObj) in
      if decide (diff = "") then (true, [])
      else (true, [LoggedInfo (Namespace newObj) (Name newObj)
                     "LlamaStackDistribution CR spec changed";
                   Printed (diff +:+ newline)])
    end
  end.

End ChangePredicate.

(** ** Feature flags and the constructor *)

Record FeatureFlag := {
  Enabled : bool }.

Record FeatureFlags := {
  FlagEnableNetworkPolicy : FeatureFlag }.

Record ConfigMap := {
  cm_Name : string;
  cm_Namespace : string;
  cm_Data : gmap string string }.

(** The constants of package [featureflags] and the two functions of the YAML
    library the controller calls. *)
Record FlagsPackage := {
  FeatureFlagsKey : string;
  NetworkPolicyDefaultValue : bool;
  yamlMarshal : FeatureFlags -> string + error;
  yamlUnmarshal : string -> FeatureFlags + error }.

Definition operatorConfigData : string := "llama-stack-operator-config".

(** The constructor runs before any pass, against the ConfigMaps of the
    cluster: its store, its calls and its oracle are its own. *)
Inductive BootCall :=
| GetConfigMap (key : Key)
| CreateConfigMap (key : Key).

Record BootSys := {
  configMaps : gmap Key ConfigMap;
  bootCalls : list BootCall }.

Record BootOracle := {
  b_operatorNamespace : string + error;       (* deploy.GetOperatorNamespace *)
  b_getConfigMap : option string;
  b_createConfigMap : option string }.

Section Constructor.

Variable F : FlagsPackage.

(** [createDefaultConfigMap]. *)
Definition createDefaultConfigMap (configMapName : Key) : ConfigMap + error :=
  let featureFlags :=
    {| FlagEnableNetworkPolicy := {| Enabled := NetworkPolicyDefaultValue F |} |} in
  match yamlMarshal F featureFlags with
  | inr err => inr (Errorf "failed to marshal default feature flags" err)
  | inl featureFlagsYAML =>
    inl {| cm_Name := snd configMapName; cm_Namespace := fst configMapName;
           cm_Data := {[ FeatureFlagsKey F := featureFlagsYAML ]} |}
  end.

(** [parseFeatureFlags]. *)
Definition parseFeatureFlags (configMapData : gmap string string) : bool * option error :=
  let enableNetworkPolicy := NetworkPolicyDefaultValue F in
  match configMapData !! FeatureFlagsKey F with
  | None => (enableNetworkPolicy, None)
  | Some featureFlagsYAML =>
    match yamlUnmarshal F featureFlagsYAML with
    | inr err => (false, Some (Errorf "failed to parse feature flags" err))
    | inl flags => (Enabled (FlagEnableNetworkPolicy flags), None)
    end
  end.

(** [NewLlamaStackDistributionReconciler]; [images] is the image map of the
    cluster information it is given. *)
Definition NewLlamaStackDistributionReconciler (b : BootOracle)
    (images : gmap string string) (s : BootSys) : (Reconciler + error) * BootSys :=
  match b_operatorNamespace b with
  | inr err => (inr (Errorf "failed to get operator namespace" err), s)
  | inl operatorNamespace =>
    let configMapName := (operatorNamespace, operatorConfigData) in
    let s1 := {| configMaps := configMaps s;
                 bootCalls := bootCalls s ++ [GetConfigMap configMapName] |} in
    let got : ConfigMap + error :=
      match b_getConfigMap b with
      | Some msg => inr (ApiFailure msg)
      | None =>
        match configMaps s !! configMapName with
        | Some configMap => inl configMap
        | None => inr (NotFound operatorConfigData)
        end
      end in
    let parse (configMap : ConfigMap) (s' : BootSys) : (Reconciler + error) * BootSys :=
      match parseFeatureFlags (cm_Data configMap) with
      | (_, Some err) => (inr (Errorf "failed to parse feature flags" err), s')
      | (enableNetworkPolicy, None) =>
        (inl {| EnableNetworkPolicy := enableNetworkPolicy;
                DistributionImages := images |}, s')
      end in
    match got with
    | inl configMap => parse configMap s1
    | inr err =>
      if negb (IsNotFound err) then (inr (Errorf "failed to get ConfigMap" err), s1)
      else
        match createDefaultConfigMap configMapName with
        | inr err => (inr (Errorf "failed to generate default configMap" err), s1)
        | inl configMap =>
          let calls2 := bootCalls s1 ++ [CreateConfigMap configMapName] in
          match b_createConfigMap b with
          | Some msg =>
            (inr (Errorf "failed to create ConfigMap" (ApiFailure msg)),
             {| configMaps := configMaps s1; bootCalls := calls2 |})
          | None =>
            parse configMap
              {| configMaps := <[configMapName := configMap]> (configMaps s1);
                 bootCalls := calls2 |}
          end
        end
    end
  end.

(** Vocabulary of the statements on the constructor: what the YAML library writes for a value it reads back as that value. *)
Definition yamlRoundTrip : Prop :=
  forall flags text, yamlMarshal F flags = inl text -> yamlUnmarshal F text = inl flags.

Definition defaultFlags : FeatureFlags :=
  {| FlagEnableNetworkPolicy := {| Enabled := NetworkPolicyDefaultValue F |} |}.

(** The calls the constructor added to the log. *)
Definition bootSince (s s' : BootSys) : list BootCall :=
  drop (length (bootCalls s)) (bootCalls s').

End Constructor.

(** ** Vocabulary of the statements *)

(** The state after one more logged call. *)
Definition logged (c : Call) (s : Sys) : Sys :=
  {| cluster := cluster s; calls := calls s ++ [c] |}.

Definition isProbe (c : Call) : bool :=
  match c with HttpGet _ => true | ApiCall _ _ _ => false end.

Definition isStatusWrite (c : Call) : bool :=
  match c with ApiCall VStatusUpdate KDistribution _ => true | _ => false end.

Definition sameKind (k k' : Kind) : bool :=
  match k, k' with
  | KDistribution, KDistribution | KPVC, KPVC | KDeployment, KDeployment
  | KService, KService | KNetworkPolicy, KNetworkPolicy => true
  | _, _ => false
  end.

(** A create, update or delete of an object of kind [k]. *)
Definition writesKind (k : Kind) (c : Call) : bool :=
  match c with
  | ApiCall (VCreate | VUpdate | VDelete) k' _ => sameKind k k'
  | _ => false
  end.

(** A client call on an object of kind [k], the status sub-resource apart. *)
Definition onKind (k : Kind) (c : Call) : bool :=
  match c with
  | ApiCall (VGet | VCreate | VUpdate | VDelete) k' _ => sameKind k k'
  | _ => false
  end.

(** The calls of the synchronization steps that precede the workload step. *)
Definition beforeWorkload (c : Call) : bool := onKind KPVC c || onKind KNetworkPolicy c.

(** Reading an object. *)
Definition isRead (c : Call) : bool :=
  match c with ApiCall VGet _ _ => true | _ => false end.

(** [s'] is [s] after further calls, all of which satisfy [p]. *)
Definition extends (p : Call -> bool) (s s' : Sys) : Prop :=
  exists extra, calls s' = calls s ++ extra /\ forallb p extra = true.

(** The calls made between [s] and a later [s']. *)
Definition since (s s' : Sys) : list Call := drop (length (calls s)) (calls s').

(** Same identity and same spec. *)
Definition sameResource (i j : LlamaStackDistribution) : Prop :=
  Name j = Name i /\ Namespace j = Namespace i /\ Spec j = Spec i.

(** [j] is [i] but for the condition of aspect [a]. *)
Definition onlyCondition (a : Aspect) (i j : LlamaStackDistribution) : Prop :=
  sameResource i j /\
  Phase (Status j) = Phase (Status i) /\
  AvailableReplicas (Status j) = AvailableReplicas (Status i) /\
  DistConfig (Status j) = DistConfig (Status i) /\
  Version (Status j) = Version (Status i) /\
  forall b, b <> a -> conditionOf b j = conditionOf b i.

(** The workload as the status evaluator sees it: present, with a non-zero
    number of ready replicas equal to the desired one. *)
Definition workloadReady (i : LlamaStackDistribution) (c : Cluster) : bool :=
  match deployments c !! (Namespace i, Name i) with
  | Some d =>
    negb (dep_ReadyReplicas d =? 0)%Z && (dep_ReadyReplicas d =? Replicas (Spec i))%Z
  | None => false
  end.

(** The ready-replica count the status evaluator reads: that of the workload,
    or that of the zero value when there is none. *)
Definition observedReadyReplicas (i : LlamaStackDistribution) (c : Cluster) : Z :=
  match deployments c !! (Namespace i, Name i) with
  | Some d => dep_ReadyReplicas d
  | None => 0
  end.

(** A distribution reference that is neither a known name nor an explicit
    image. *)
Definition unresolvable (r : Reconciler) (d : DistributionType) : Prop :=
  dist_Image d = "" /\
  (dist_Name d = "" \/ DistributionImages r !! dist_Name d = None).

(** ** Concrete passes

    A small cluster and a few oracles on which the statements below are
    evaluated. *)

Module Scenario.

Definition constants : Constants :=
  {| DefaultStorageSize := "10Gi";
     DefaultLabelKey := "app";
     DefaultLabelValue := "llama-stack";
     DefaultServicePortName := "http";
     DefaultContainerName := "llama-stack";
     DefaultServerPort := 8321;
     MessageDeploymentPending := "Deployment is pending";
     MessageDeploymentReady := "Deployment is ready";
     MessageStorageReady := "Storage is ready";
     MessageServiceReady := "Service is ready";
     MessageHealthCheckFailed := "Health check failed";
     MessageHealthCheckPassed := "Health check passed";
     Reason := fun a ready =>
       match a, ready with
       | DeploymentReady, true => "DeploymentReady"
       | DeploymentReady, false => "DeploymentFailed"
       | StorageReady, true => "StorageReady"
       | StorageReady, false => "StorageFailed"
       | ServiceReady, true => "ServiceReady"
       | ServiceReady, false => "ServiceFailed"
       | HealthCheck, true => "HealthCheckPassed"
       | HealthCheck, false => "HealthCheckFailed"
       end |}.

Definition reconciler : Reconciler :=
  {| EnableNetworkPolicy := false;
     DistributionImages := {[ "ollama" := "docker.io/llamastack/distribution-ollama:latest" ]} |}.

Definition req : Key := ("default", "demo").

Definition freshStatus : LlamaStackDistributionStatus :=
  {| Phase := PhaseUnset; Conditions := []; AvailableReplicas := 0;
     DistConfig := {| ActiveDistribution := ""; Providers := [];
                      AvailableDistributions := ∅ |};
     Version := {| OperatorVersion := ""; LlamaStackVersion := ""; LastUpdated := 0 |} |}.

(** A distribution named "demo": [replicas] desired, the distribution
    reference [name], optional storage. *)
Definition demo (replicas : Z) (name : string) (storage : option StorageSpec)
    : LlamaStackDistribution :=
  {| Name := "demo"; Namespace := "default";
     Spec := {| Replicas := replicas;
                Server := {| Distribution := {| dist_Name := name; dist_Image := "" |};
                             Ports := [8321];
                             Overrides := None;
                             Storage := storage |} |};
     Status := freshStatus |}.

Definition workload (replicas ready : Z) : Deployment :=
  {| dep_Name := "demo"; dep_Namespace := "default"; dep_Owner := Some req;
     dep_Replicas := replicas;
     dep_Selector := [("app", "llama-stack"); ("app.kubernetes.io/instance", "demo")];
     dep_TemplateLabels := [("app", "llama-stack"); ("app.kubernetes.io/instance", "demo")];
     dep_PodSpec := {| pod_Image := "docker.io/llamastack/distribution-ollama:latest";
                       pod_Port := 8321; pod_ClaimName := None;
                       pod_ServiceAccountName := "" |};
     dep_ReadyReplicas := ready |}.

Definition claim (size : Quantity) : PersistentVolumeClaim :=
  {| pvc_Name := "demo-pvc"; pvc_Namespace := "default"; pvc_Owner := Some req;
     pvc_AccessModes := [ReadWriteOnce]; pvc_Request := size; pvc_Phase := ClaimBound |}.

Definition emptyCluster : Cluster :=
  {| distributions := ∅; pvcs := ∅; deployments := ∅; services := ∅;
     networkPolicies := ∅ |}.

(** The cluster holding [instance] and, when given, its workload and claim. *)
Definition clusterOf (instance : LlamaStackDistribution) (dep : option Deployment)
    (pvc : option PersistentVolumeClaim) : Cluster :=
  {| distributions := {[ req := instance ]};
     pvcs := match pvc with Some p => {[ ("default", "demo-pvc") := p ]} | None => ∅ end;
     deployments := match dep with Some d => {[ req := d ]} | None => ∅ end;
     services := ∅;
     networkPolicies := ∅ |}.

Definition start (c : Cluster) : Sys := {| cluster := c; calls := [] |}.

Definition someProviders : list ProviderInfo :=
  [ {| prov_Name := "ollama"; prov_Type := "remote::ollama"; prov_Status := "OK" |} ].

(** Every call succeeds, the server answers 200 on both endpoints. *)
Definition allWell : Oracle :=
  {| o_getInstance := None; o_setControllerReference := None;
     o_getPVC := None; o_createPVC := None;
     o_operatorNamespace := inl "llama-stack-operator-system";
     o_networkPolicy := None; o_applyDeployment := None; o_applyService := None;
     o_statusGetDeployment := None; o_statusGetPVC := None; o_statusGetService := None;
     o_health := Responded 200 (BodyData []);
     o_providers := Responded 200 (BodyData someProviders);
     o_statusUpdate := None;
     o_OPERATOR_VERSION := "v0.1.0"; o_LLAMA_STACK_VERSION := "0.2.0"; o_now := 1700000000 |}.

Definition withHealth (h : HttpOutcome) (o : Oracle) : Oracle :=
  {| o_getInstance := o_getInstance o; o_setControllerReference := o_setControllerReference o;
     o_getPVC := o_getPVC o; o_createPVC := o_createPVC o;
     o_operatorNamespace := o_operatorNamespace o;
     o_networkPolicy := o_networkPolicy o; o_applyDeployment := o_applyDeployment o;
     o_applyService := o_applyService o;
     o_statusGetDeployment := o_statusGetDeployment o; o_statusGetPVC := o_statusGetPVC o;
     o_statusGetService := o_statusGetService o;
     o_health := h; o_providers := o_providers o; o_statusUpdate := o_statusUpdate o;
     o_OPERATOR_VERSION := o_OPERATOR_VERSION o;
     o_LLAMA_STACK_VERSION := o_LLAMA_STACK_VERSION o; o_now := o_now o |}.

Definition withGetPVCFault (f : option string) (o : Oracle) : Oracle :=
  {| o_getInstance := o_getInstance o; o_setControllerReference := o_setControllerReference o;
     o_getPVC := f; o_createPVC := o_createPVC o;
     o_operatorNamespace := o_operatorNamespace o;
     o_networkPolicy := o_networkPolicy o; o_applyDeployment := o_applyDeployment o;
     o_applyService := o_applyService o;
     o_statusGetDeployment := o_statusGetDeployment o; o_statusGetPVC := o_statusGetPVC o;
     o_statusGetService := o_statusGetService o;
     o_health := o_health o; o_providers := o_providers o; o_statusUpdate := o_statusUpdate o;
     o_OPERATOR_VERSION := o_OPERATOR_VERSION o;
     o_LLAMA_STACK_VERSION := o_LLAMA_STACK_VERSION o; o_now := o_now o |}.

Definition withStatusGetDeploymentFault (f : option string) (o : Oracle) : Oracle :=
  {| o_getInstance := o_getInstance o; o_setControllerReference := o_setControllerReference o;
     o_getPVC := o_getPVC o; o_createPVC := o_createPVC o;
     o_operatorNamespace := o_operatorNamespace o;
     o_networkPolicy := o_networkPolicy o; o_applyDeployment := o_applyDeployment o;
     o_applyService := o_applyService o;
     o_statusGetDeployment := f; o_statusGetPVC := o_statusGetPVC o;
     o_statusGetService := o_statusGetService o;
     o_health := o_health o; o_providers := o_providers o; o_statusUpdate := o_statusUpdate o;
     o_OPERATOR_VERSION := o_OPERATOR_VERSION o;
     o_LLAMA_STACK_VERSION := o_LLAMA_STACK_VERSION o; o_now := o_now o |}.

Definition withStatusUpdateFault (f : option string) (o : Oracle) : Oracle :=
  {| o_getInstance := o_getInstance o; o_setControllerReference := o_setControllerReference o;
     o_getPVC := o_getPVC o; o_createPVC := o_createPVC o;
     o_operatorNamespace := o_operatorNamespace o;
     o_networkPolicy := o_networkPolicy o; o_applyDeployment := o_applyDeployment o;
     o_applyService := o_applyService o;
     o_statusGetDeployment := o_statusGetDeployment o; o_statusGetPVC := o_statusGetPVC o;
     o_statusGetService := o_statusGetService o;
     o_health := o_health o; o_providers := o_providers o; o_statusUpdate := f;
     o_OPERATOR_VERSION := o_OPERATOR_VERSION o;
     o_LLAMA_STACK_VERSION := o_LLAMA_STACK_VERSION o; o_now := o_now o |}.

(** The oracles of the passes evaluated below. *)
Definition unhealthy : Oracle := withHealth (Responded 503 (BodyData [])) allWell.
Definition unreachable : Oracle :=
  withHealth (TransportFailed (ErrorsNew "context deadline exceeded")) allWell.
Definition syncFails : Oracle :=
  withGetPVCFault (Some "etcdserver: request timed out") allWell.
Definition writeConflicts : Oracle :=
  withStatusUpdateFault (Some "the object has been modified") allWell.
Definition bothFail : Oracle :=
  withStatusUpdateFault (Some "the object has been modified") syncFails.
Definition workloadUnreadable : Oracle :=
  withStatusGetDeploymentFault (Some "etcdserver: request timed out") allWell.

(** The resources of the passes evaluated below. *)
Definition three : LlamaStackDistribution := demo 3 "ollama" None.
Definition zero : LlamaStackDistribution := demo 0 "ollama" None.
Definition unknown : LlamaStackDistribution :=
  demo 3 "nope" (Some {| Size := None; MountPath := "/data" |}).
Definition resized : LlamaStackDistribution :=
  demo 3 "ollama" (Some {| Size := Some "20Gi"; MountPath := "/data" |}).
Definition unsized : LlamaStackDistribution :=
  demo 3 "ollama" (Some {| Size := None; MountPath := "/data" |}).

(** Three desired replicas, [ready] of them ready. *)
Definition running (ready : Z) : Sys :=
  start (clusterOf three (Some (workload 3 ready)) None).

(** The same with storage requested and no claim yet. *)
Definition runningWithStorage (ready : Z) : Sys :=
  start (clusterOf resized (Some (workload 3 ready)) None).

(** What is stored for "demo" after a run. *)
Definition stored (s : Sys) : option LlamaStackDistribution :=
  distributions (cluster s) !! req.

(** The read of the resource fails. *)
Definition withGetInstanceFault (f : option string) (o : Oracle) : Oracle :=
  {| o_getInstance := f; o_setControllerReference := o_setControllerReference o;
     o_getPVC := o_getPVC o; o_createPVC := o_createPVC o;
     o_operatorNamespace := o_operatorNamespace o;
     o_networkPolicy := o_networkPolicy o; o_applyDeployment := o_applyDeployment o;
     o_applyService := o_applyService o;
     o_statusGetDeployment := o_statusGetDeployment o; o_statusGetPVC := o_statusGetPVC o;
     o_statusGetService := o_statusGetService o;
     o_health := o_health o; o_providers := o_providers o; o_statusUpdate := o_statusUpdate o;
     o_OPERATOR_VERSION := o_OPERATOR_VERSION o;
     o_LLAMA_STACK_VERSION := o_LLAMA_STACK_VERSION o; o_now := o_now o |}.

Definition fetchFails : Oracle :=
  withGetInstanceFault (Some "etcdserver: request timed out") allWell.

(** The flags package over a YAML library that knows two documents. *)
Definition flagsPackage : FlagsPackage :=
  {| FeatureFlagsKey := "featureFlags";
     NetworkPolicyDefaultValue := false;
     yamlMarshal := fun flags =>
       inl (if Enabled (FlagEnableNetworkPolicy flags)
            then "enableNetworkPolicy: {enabled: true}"
            else "enableNetworkPolicy: {enabled: false}");
     yamlUnmarshal := fun text =>
       if decide (text = "enableNetworkPolicy: {enabled: true}")
       then inl {| FlagEnableNetworkPolicy := {| Enabled := true |} |}
       else if decide (text = "enableNetworkPolicy: {enabled: false}")
       then inl {| FlagEnableNetworkPolicy := {| Enabled := false |} |}
       else inr (ErrorsNew "yaml: unmarshal errors") |}.

Definition operatorConfigKey : Key :=
  ("llama-stack-operator-system", "llama-stack-operator-config").

Definition bootWell : BootOracle :=
  {| b_operatorNamespace := inl "llama-stack-operator-system";
     b_getConfigMap := None; b_createConfigMap := None |}.

Definition freshBoot : BootSys := {| configMaps := ∅; bootCalls := [] |}.

(** The operator's ConfigMap as an administrator wrote it. *)
Definition policyOn : ConfigMap :=
  {| cm_Name := "llama-stack-operator-config";
     cm_Namespace := "llama-stack-operator-system";
     cm_Data := {[ "featureFlags" := "enableNetworkPolicy: {enabled: true}" ]} |}.

Definition configured : BootSys :=
  {| configMaps := {[ operatorConfigKey := policyOn ]}; bootCalls := [] |}.

(** A comparison that is empty exactly on equal specs. *)
Definition specDiff (a b : LlamaStackDistributionSpec) : string :=
  if decide (a = b) then "" else "spec differs".

End Scenario.

(** * Properties *)

(** ** The call log only grows *)

Lemma extends_refl p s : extends p s s.
Proof. exists []. split; [by rewrite app_nil_r | done]. Qed.

Lemma extends_trans p s1 s2 s3 : extends p s1 s2 -> extends p s2 s3 -> extends p s1 s3.
Proof.
  intros [e1 [H1 F1]] [e2 [H2 F2]]. exists (e1 ++ e2). split.
  - by rewrite H2, H1, <- app_assoc.
  - rewrite forallb_app, F1, F2. done.
Qed.

Lemma extends_logged p c s : p c = true -> extends p s (logged c s).
Proof. intros H. exists [c]. split; [done | by cbn; rewrite H]. Qed.

Lemma extends_weaken (p q : Call -> bool) s s' :
  (forall c, p c = true -> q c = true) -> extends p s s' -> extends q s s'.
Proof.
  intros Hpq [e [H F]]. exists e. split; [done |].
  rewrite forallb_forall in *. auto.
Qed.

Lemma extends_since p s s' : extends p s s' -> forallb p (since s s') = true.
Proof.
  intros [e [H F]]. unfold since. rewrite H, drop_app_length. done.
Qed.

Lemma extends_in p s s' c : extends p s s' -> In c (calls s) -> In c (calls s').
Proof. intros [e [H _]] Hin. rewrite H. apply in_or_app. by left. Qed.

(** A step that returned without calling the client. *)
Ltac unchanged := split; [reflexivity | apply extends_refl].

(** ** Conditions *)

Lemma findCondition_upsert_same c cs :
  findCondition (cond_Type c) (upsertCondition c cs) = Some c.
Proof.
  induction cs as [| d ds IH]; cbn.
  - by rewrite decide_True.
  - destruct (decide (cond_Type d = cond_Type c)) as [E | N]; cbn.
    + by rewrite decide_True.
    + by rewrite decide_False.
Qed.

Lemma findCondition_upsert_other a c cs :
  a <> cond_Type c -> findCondition a (upsertCondition c cs) = findCondition a cs.
Proof.
  intros Hne. induction cs as [| d ds IH]; cbn.
  - by rewrite decide_False.
  - destruct (decide (cond_Type d = cond_Type c)) as [E | N]; cbn.
    + rewrite !decide_False; congruence.
    + destruct (decide (cond_Type d = a)); [done | apply IH].
Qed.

Lemma conditionOf_setCondition_same K a ready msg i :
  conditionOf a (mapStatus (setCondition K a ready msg) i)
  = Some (mkCondition K a ready msg).
Proof. unfold conditionOf. cbn. apply (findCondition_upsert_same (mkCondition K a ready msg)). Qed.

Lemma onlyCondition_setCondition K a ready msg i :
  onlyCondition a i (mapStatus (setCondition K a ready msg) i).
Proof.
  repeat split. intros b Hb. unfold conditionOf. cbn.
  by apply findCondition_upsert_other.
Qed.

Lemma onlyCondition_refl a i : onlyCondition a i i.
Proof. by repeat split. Qed.

(** ** The client calls, run *)

#[local] Arguments String.append : simpl never.

Lemma clientGet_run {A} (st : Store A) fault key s :
  clientGet st fault key s
  = (match fault with
     | Some msg => inr (ApiFailure msg)
     | None =>
       match objects st (cluster s) !! key with
       | Some x => inl x
       | None => inr (NotFound (snd key))
       end
     end, logged (ApiCall VGet (kindOf st) key) s).
Proof. reflexivity. Qed.

Lemma extends_read_logged_get k key s : extends isRead s (logged (ApiCall VGet k key) s).
Proof. by apply extends_logged. Qed.

Section StatusEvaluator.

Variable K : Constants.
Variable r : Reconciler.
Variable o : Oracle.

Lemma initOperatorVersion_frame i :
  let j := initOperatorVersion o i in
  sameResource i j /\
  Phase (Status j) = Phase (Status i) /\
  AvailableReplicas (Status j) = AvailableReplicas (Status i) /\
  DistConfig (Status j) = DistConfig (Status i) /\
  Conditions (Status j) = Conditions (Status i).
Proof.
  unfold initOperatorVersion. destruct (decide _); repeat split.
Qed.

(** Reading the claim for its condition touches nothing else. *)
Lemma updateStorageStatus_frame i s :
  onlyCondition StorageReady i (fst (updateStorageStatus K o i s)) /\
  cluster (snd (updateStorageStatus K o i s)) = cluster s /\
  extends isRead s (snd (updateStorageStatus K o i s)).
Proof.
  unfold updateStorageStatus.
  destruct (Storage (Server (Spec i))) as [st |].
  - unfold bind. rewrite clientGet_run.
    destruct (o_statusGetPVC o) as [msg |]; [| destruct (objects pvcStore _ !! _) as [pvc |]];
      cbn [fst snd ret];
      (split; [apply onlyCondition_setCondition
              | split; [reflexivity | apply extends_read_logged_get]]).
  - cbn. split; [apply onlyCondition_refl | unchanged].
Qed.

(** Reading the endpoint for its condition touches nothing else. *)
Lemma updateServiceStatus_frame i s :
  onlyCondition ServiceReady i (fst (updateServiceStatus K o i s)) /\
  cluster (snd (updateServiceStatus K o i s)) = cluster s /\
  extends isRead s (snd (updateServiceStatus K o i s)).
Proof.
  unfold updateServiceStatus.
  destruct (HasPorts i); cbn [negb].
  - unfold bind. rewrite clientGet_run.
    destruct (o_statusGetService o) as [msg |];
      [| destruct (objects serviceStore _ !! _) as [svc |]];
      cbn [fst snd ret];
      (split; [apply onlyCondition_setCondition
              | split; [reflexivity | apply extends_read_logged_get]]).
  - cbn. split; [apply onlyCondition_refl | unchanged].
Qed.

Lemma updateDistributionConfig_frame i :
  let j := updateDistributionConfig r i in
  sameResource i j /\
  Phase (Status j) = Phase (Status i) /\
  AvailableReplicas (Status j) = AvailableReplicas (Status i) /\
  Providers (DistConfig (Status j)) = Providers (DistConfig (Status i)) /\
  Conditions (Status j) = Conditions (Status i).
Proof. repeat split. Qed.

(** The answer of the provider listing depends on the oracle alone. *)
Lemma getProviderInfo_value i s i' s' :
  fst (getProviderInfo K o i s) = fst (getProviderInfo K o i' s').
Proof.
  unfold getProviderInfo.
  destruct (o_providers o) as [e | e | code body]; [reflexivity | reflexivity |].
  unfold bind, record. cbn.
  destruct (negb (code =? StatusOK)%Z); [reflexivity |].
  destruct body; reflexivity.
Qed.

Lemma getProviderInfo_frame i s :
  cluster (snd (getProviderInfo K o i s)) = cluster s /\
  extends isProbe s (snd (getProviderInfo K o i s)).
Proof.
  unfold getProviderInfo.
  destruct (o_providers o) as [e | e | code body].
  - unchanged.
  - split; [reflexivity | by apply (extends_logged _ (HttpGet _))].
  - unfold bind, record. cbn.
    destruct (negb (code =? StatusOK)%Z); [| destruct body];
      (split; [reflexivity | by apply (extends_logged _ (HttpGet _))]).
Qed.

Lemma checkHealth_frame i s :
  cluster (snd (checkHealth K o i s)) = cluster s /\
  extends isProbe s (snd (checkHealth K o i s)).
Proof.
  unfold checkHealth.
  destruct (o_health o) as [e | e | code body].
  - unchanged.
  - split; [reflexivity | by apply (extends_logged _ (HttpGet _))].
  - split; [reflexivity | by apply (extends_logged _ (HttpGet _))].
Qed.

(** *** Reading the workload *)

Lemma updateDeploymentStatus_state i s :
  snd (updateDeploymentStatus K o i s)
  = logged (ApiCall VGet KDeployment (Namespace i, Name i)) s.
Proof.
  unfold updateDeploymentStatus, bind. rewrite clientGet_run.
  destruct (o_statusGetDeployment o); [reflexivity |].
  destruct (objects deploymentStore _ !! _) as [d |]; [| reflexivity].
  cbn -[Z.eqb Z.ltb Z.gtb].
  destruct (dep_ReadyReplicas d =? 0)%Z; [reflexivity |].
  destruct (dep_ReadyReplicas d <? Replicas (Spec i))%Z; [reflexivity |].
  destruct (dep_ReadyReplicas d >? Replicas (Spec i))%Z; reflexivity.
Qed.

(** A failure to read the workload other than not-found: nothing is mutated
    and the error is returned. *)
Lemma updateDeploymentStatus_fault i s msg :
  o_statusGetDeployment o = Some msg ->
  fst (updateDeploymentStatus K o i s)
  = (i, false, Some (Errorf "failed to fetch deployment for status" (ApiFailure msg))).
Proof.
  intros H. unfold updateDeploymentStatus, bind. rewrite clientGet_run, H. reflexivity.
Qed.

(** Without such a failure the readiness flag and the replica count are those
    of the store, whatever case of the switch applies. *)
Lemma updateDeploymentStatus_observes i s :
  o_statusGetDeployment o = None ->
  exists i',
    fst (updateDeploymentStatus K o i s) = (i', workloadReady i (cluster s), None) /\
    sameResource i i' /\
    AvailableReplicas (Status i') = observedReadyReplicas i (cluster s) /\
    DistConfig (Status i') = DistConfig (Status i) /\
    (forall b, b <> DeploymentReady -> conditionOf b i' = conditionOf b i).
Proof.
  intros H. unfold updateDeploymentStatus, bind, workloadReady, observedReadyReplicas.
  rewrite clientGet_run, H. cbn [objects deploymentStore].
  destruct (deployments (cluster s) !! (Namespace i, Name i)) as [d |];
    cbn -[Z.eqb Z.ltb Z.gtb setCondition].
  - destruct (dep_ReadyReplicas d =? 0)%Z eqn:E0; cbn -[Z.eqb Z.ltb Z.gtb setCondition].
    { eexists; repeat split. intros b Hb. unfold conditionOf; cbn.
      by apply findCondition_upsert_other. }
    destruct (dep_ReadyReplicas d <? Replicas (Spec i))%Z eqn:E1.
    { replace (dep_ReadyReplicas d =? Replicas (Spec i))%Z with false
        by (symmetry; apply Z.eqb_neq; apply Z.ltb_lt in E1; lia).
      eexists; repeat split. intros b Hb. unfold conditionOf; cbn.
      by apply findCondition_upsert_other. }
    destruct (dep_ReadyReplicas d >? Replicas (Spec i))%Z eqn:E2.
    { replace (dep_ReadyReplicas d =? Replicas (Spec i))%Z with false
        by (symmetry; apply Z.eqb_neq; apply Z.gtb_lt in E2; lia).
      eexists; repeat split. intros b Hb. unfold conditionOf; cbn.
      by apply findCondition_upsert_other. }
    replace (dep_ReadyReplicas d =? Replicas (Spec i))%Z with true
      by (symmetry; apply Z.eqb_eq; apply Z.ltb_ge in E1;
          rewrite Z.gtb_ltb in E2; apply Z.ltb_ge in E2; lia).
    eexists; repeat split.
    + cbn. destruct (decide _); reflexivity.
    + intros b Hb. unfold conditionOf; cbn.
      destruct (decide _); cbn; by apply findCondition_upsert_other.
  - eexists; repeat split. intros b Hb. unfold conditionOf; cbn.
    by apply findCondition_upsert_other.
Qed.

(** The switch of [updateDeploymentStatus] on a workload that exists, case by
    case in the order of the source. *)
Lemma updateDeploymentStatus_switch i s d :
  o_statusGetDeployment o = None ->
  deployments (cluster s) !! (Namespace i, Name i) = Some d ->
  let i' := fst (fst (fst (updateDeploymentStatus K o i s))) in
  let ready := dep_ReadyReplicas d in
  let desired := Replicas (Spec i) in
  (ready = 0 ->
     Phase (Status i') = PhaseInitializing /\
     conditionOf DeploymentReady i'
     = Some (mkCondition K DeploymentReady false (MessageDeploymentPending K))) /\
  (ready <> 0 -> ready < desired ->
     Phase (Status i') = PhaseInitializing /\
     conditionOf DeploymentReady i'
     = Some (mkCondition K DeploymentReady false
               ("Deployment is scaling: " +:+ fmt_d ready +:+ "/" +:+ fmt_d desired
                  +:+ " replicas ready"))) /\
  (ready <> 0 -> ready > desired ->
     Phase (Status i') = PhaseInitializing /\
     conditionOf DeploymentReady i'
     = Some (mkCondition K DeploymentReady false
               ("Deployment is scaling down: " +:+ fmt_d ready +:+ "/" +:+ fmt_d desired
                  +:+ " replicas ready"))) /\
  (ready <> 0 -> ready = desired ->
     Phase (Status i') = PhaseReady /\
     conditionOf DeploymentReady i'
     = Some (mkCondition K DeploymentReady true (MessageDeploymentReady K))).
Proof.
  intros H Hd. unfold updateDeploymentStatus, bind.
  rewrite clientGet_run, H. cbn [objects deploymentStore]. rewrite Hd.
  cbn -[Z.eqb Z.ltb Z.gtb setCondition String.append].
  destruct (dep_ReadyReplicas d =? 0)%Z eqn:E0.
  { apply Z.eqb_eq in E0. cbn -[setCondition String.append].
    repeat split; try (intros; lia).
    apply (conditionOf_setCondition_same K DeploymentReady). }
  apply Z.eqb_neq in E0.
  destruct (dep_ReadyReplicas d <? Replicas (Spec i))%Z eqn:E1.
  { apply Z.ltb_lt in E1. cbn -[setCondition String.append].
    repeat split; try (intros; lia).
    apply (conditionOf_setCondition_same K DeploymentReady). }
  apply Z.ltb_ge in E1.
  destruct (dep_ReadyReplicas d >? Replicas (Spec i))%Z eqn:E2.
  { apply Z.gtb_lt in E2. cbn -[setCondition String.append].
    repeat split; try (intros; lia).
    apply (conditionOf_setCondition_same K DeploymentReady). }
  rewrite Z.gtb_ltb in E2. apply Z.ltb_ge in E2.
  cbn -[setCondition String.append].
  repeat split; try (intros; lia).
  - destruct (decide _); reflexivity.
  - unfold conditionOf. cbn -[String.append].
    destruct (decide _); cbn -[String.append];
      apply (findCondition_upsert_same (mkCondition K DeploymentReady true _)).
Qed.

(** No workload: Pending. *)
Lemma updateDeploymentStatus_absent i s :
  o_statusGetDeployment o = None ->
  deployments (cluster s) !! (Namespace i, Name i) = None ->
  let i' := fst (fst (fst (updateDeploymentStatus K o i s))) in
  Phase (Status i') = PhasePending /\
  conditionOf DeploymentReady i'
  = Some (mkCondition K DeploymentReady false (MessageDeploymentPending K)).
Proof.
  intros H Hd. unfold updateDeploymentStatus, bind.
  rewrite clientGet_run, H. cbn [objects deploymentStore]. rewrite Hd.
  cbn -[setCondition]. split; [reflexivity |].
  apply (conditionOf_setCondition_same K DeploymentReady).
Qed.

(** *** Probing the server *)

Lemma checkHealth_value i s i' s' :
  fst (checkHealth K o i s) = fst (checkHealth K o i' s').
Proof. unfold checkHealth. destruct (o_health o); reflexivity. Qed.

(** [performHealthChecks]: the phase and the health condition follow the
    probe, the provider list follows the listing, nothing else moves. *)
Lemma performHealthChecks_run i s :
  let res := performHealthChecks K o i s in
  let j := fst res in
  sameResource i j /\
  (forall b e, fst (checkHealth K o i s) = (b, Some e) ->
     Phase (Status j) = PhaseInitializing /\
     conditionOf HealthCheck j
     = Some (mkCondition K HealthCheck false ("Health check failed: " +:+ Error e))) /\
  (fst (checkHealth K o i s) = (false, None) ->
     Phase (Status j) = PhaseFailed /\
     conditionOf HealthCheck j
     = Some (mkCondition K HealthCheck false (MessageHealthCheckFailed K))) /\
  (fst (checkHealth K o i s) = (true, None) ->
     Phase (Status j) = PhaseReady /\
     conditionOf HealthCheck j
     = Some (mkCondition K HealthCheck true (MessageHealthCheckPassed K))) /\
  Providers (DistConfig (Status j))
  = match fst (getProviderInfo K o i s) with inl ps => ps | inr _ => [] end /\
  AvailableReplicas (Status j) = AvailableReplicas (Status i) /\
  (forall b, b <> HealthCheck -> conditionOf b j = conditionOf b i) /\
  cluster (snd res) = cluster s /\
  extends isProbe s (snd res).
Proof.
  cbn zeta. unfold performHealthChecks, bind.
  pose proof (checkHealth_frame i s) as [Hc1 He1].
  destruct (checkHealth K o i s) as [[healthy err] s1] eqn:Eh.
  cbn [fst snd] in *.
  set (j0 := match err with
             | Some e => _
             | None => if negb healthy then _ else _
             end).
  pose proof (getProviderInfo_frame j0 s1) as [Hc2 He2].
  rewrite (getProviderInfo_value i s j0 s1).
  destruct (getProviderInfo K o j0 s1) as [res s2] eqn:Ep.
  cbn [fst snd] in *.
  assert (Hj0 : sameResource i j0 /\
                AvailableReplicas (Status j0) = AvailableReplicas (Status i) /\
                (forall b, b <> HealthCheck -> conditionOf b j0 = conditionOf b i)).
  { subst j0. destruct err as [e |]; [| destruct healthy]; cbn -[setCondition];
      (repeat split; intros b Hb; unfold conditionOf; cbn;
       by apply findCondition_upsert_other). }
  destruct Hj0 as (Hsame & Hav & Hcond).
  assert (Hfin : forall ps, let j := mapStatus (setProviders ps) j0 in
            sameResource i j /\ Phase (Status j) = Phase (Status j0) /\
            Conditions (Status j) = Conditions (Status j0) /\
            Providers (DistConfig (Status j)) = ps /\
            AvailableReplicas (Status j) = AvailableReplicas (Status i)).
  { intros ps. cbn. destruct Hsame as (? & ? & ?). repeat split; assumption. }
  set (ps := match res with inl ps => ps | inr _ => [] end).
  assert (Hgoal : (match res with
                   | inl providers => ret (mapStatus (setProviders providers) j0)
                   | inr _ => ret (mapStatus (setProviders []) j0)
                   end s2) = (mapStatus (setProviders ps) j0, s2)).
  { destruct res; reflexivity. }
  rewrite Hgoal. cbn [fst snd].
  destruct (Hfin ps) as (F1 & F2 & F3 & F4 & F5).
  split; [exact F1 |].
  split.
  { intros b e [= -> ->]. rewrite F2. unfold conditionOf. rewrite F3.
    subst j0. split; [reflexivity |].
    apply (conditionOf_setCondition_same K HealthCheck). }
  split.
  { intros [= -> ->]. rewrite F2. unfold conditionOf. rewrite F3.
    subst j0. split; [reflexivity |].
    apply (conditionOf_setCondition_same K HealthCheck). }
  split.
  { intros [= -> ->]. rewrite F2. unfold conditionOf. rewrite F3.
    subst j0. split; [reflexivity |].
    apply (conditionOf_setCondition_same K HealthCheck). }
  split; [exact F4 |].
  split; [exact F5 |].
  split.
  { intros b Hb. unfold conditionOf. rewrite F3. apply (Hcond b Hb). }
  split; [congruence |].
  eapply extends_trans; eassumption.
Qed.

(** *** The evaluation as a whole *)

Lemma workloadReady_same i j c :
  sameResource i j -> workloadReady j c = workloadReady i c.
Proof. intros (E1 & E2 & E3). unfold workloadReady. by rewrite E1, E2, E3. Qed.

Lemma observedReadyReplicas_same i j c :
  sameResource i j -> observedReadyReplicas j c = observedReadyReplicas i c.
Proof. intros (E1 & E2 & _). unfold observedReadyReplicas. by rewrite E1, E2. Qed.

Lemma sameResource_trans i j k :
  sameResource i j -> sameResource j k -> sameResource i k.
Proof. intros (? & ? & ?) (? & ? & ?). repeat split; congruence. Qed.

(** A synchronization error overrides every other check: Failed, and the
    workload is not looked at. *)
Lemma evaluateStatus_syncError i e s :
  exists i',
    evaluateStatus K r o i (Some e) s = ((i', None), s) /\
    sameResource i i' /\
    Phase (Status i') = PhaseFailed /\
    conditionOf DeploymentReady i'
    = Some (mkCondition K DeploymentReady false
              ("Resource reconciliation failed: " +:+ Error e)) /\
    AvailableReplicas (Status i') = AvailableReplicas (Status i) /\
    DistConfig (Status i') = DistConfig (Status i).
Proof.
  destruct (initOperatorVersion_frame i) as (S0 & P0 & A0 & D0 & C0).
  eexists. split; [reflexivity |].
  split; [destruct S0 as (? & ? & ?); repeat split; assumption |].
  split; [reflexivity |].
  split; [apply (conditionOf_setCondition_same K DeploymentReady) |].
  split; assumption.
Qed.

(** The workload cannot be read: early exit, before anything is recomputed. *)
Lemma evaluateStatus_fault i s msg :
  o_statusGetDeployment o = Some msg ->
  evaluateStatus K r o i None s
  = ((initOperatorVersion o i,
      Some (Errorf "failed to fetch deployment for status" (ApiFailure msg))),
     logged (ApiCall VGet KDeployment (Namespace i, Name i)) s).
Proof.
  intros H. unfold evaluateStatus, bind.
  pose proof (updateDeploymentStatus_state (initOperatorVersion o i) s) as St.
  pose proof (updateDeploymentStatus_fault (initOperatorVersion o i) s msg H) as Ev.
  destruct (updateDeploymentStatus K o (initOperatorVersion o i) s) as [[[x y] z] s1].
  cbn [fst snd] in *. injection Ev as -> -> ->. subst s1.
  destruct (initOperatorVersion_frame i) as ((-> & -> & _) & _). reflexivity.
Qed.

(** Up to the branch on readiness: the workload, the claim and the endpoint
    have been read, nothing has been written. *)
Lemma evaluateStatus_reads i s :
  o_statusGetDeployment o = None ->
  let i1 := fst (fst (fst (updateDeploymentStatus K o (initOperatorVersion o i) s))) in
  exists i4 s3,
    sameResource i i4 /\
    Phase (Status i4) = Phase (Status i1) /\
    conditionOf DeploymentReady i4 = conditionOf DeploymentReady i1 /\
    AvailableReplicas (Status i4) = observedReadyReplicas i (cluster s) /\
    Providers (DistConfig (Status i4)) = Providers (DistConfig (Status i)) /\
    cluster s3 = cluster s /\
    extends isRead s s3 /\
    evaluateStatus K r o i None s
    = if workloadReady i (cluster s) then
        (let (j, s') := performHealthChecks K o i4 s3 in ((j, None), s'))
      else
        ((mapStatus (fun st =>
            setProviders [] (SetHealthCheckCondition K false "Deployment not ready" st)) i4,
          None), s3).
Proof.
  intros H.
  destruct (initOperatorVersion_frame i) as (S0 & P0 & A0 & D0 & C0).
  set (i0 := initOperatorVersion o i) in *.
  destruct (updateDeploymentStatus_observes i0 s H) as (i1 & E1 & S1 & A1 & D1 & C1).
  pose proof (updateDeploymentStatus_state i0 s) as St1.
  unfold evaluateStatus. fold i0. unfold bind at 1.
  destruct (updateDeploymentStatus K o i0 s) as [[[x y] z] s1].
  cbn [fst snd] in *. injection E1 as -> -> ->. subst s1.
  rewrite (workloadReady_same i i0 (cluster s) S0).
  rewrite (observedReadyReplicas_same i i0 (cluster s) S0) in A1.
  set (s1 := logged (ApiCall VGet KDeployment (Namespace i0, Name i0)) s).
  destruct (updateStorageStatus_frame i1 s1) as (F2 & Cl2 & Ex2).
  unfold bind at 1.
  destruct (updateStorageStatus K o i1 s1) as [i2 s2]. cbn [fst snd] in *.
  destruct (updateServiceStatus_frame i2 s2) as (F3 & Cl3 & Ex3).
  unfold bind at 1.
  destruct (updateServiceStatus K o i2 s2) as [i3 s3]. cbn [fst snd] in *.
  destruct (updateDistributionConfig_frame i3) as (S4 & P4 & A4 & Pr4 & C4).
  set (i4 := updateDistributionConfig r i3) in *.
  destruct F2 as (S2 & P2 & A2 & D2 & V2 & Co2).
  destruct F3 as (S3 & P3 & A3 & D3 & V3 & Co3).
  exists i4, s3.
  split.
  { eauto using sameResource_trans. }
  split; [congruence |].
  split.
  { unfold conditionOf at 1. rewrite C4. fold (conditionOf DeploymentReady i3).
    rewrite Co3 by discriminate. rewrite Co2 by discriminate. reflexivity. }
  split; [congruence |].
  split; [congruence |].
  split; [by rewrite Cl3, Cl2 |].
  split.
  { eapply extends_trans; [| exact Ex3].
    eapply extends_trans; [| exact Ex2].
    apply extends_read_logged_get. }
  destruct (workloadReady i (cluster s)); [| reflexivity].
  unfold bind. destruct (performHealthChecks K o i4 s3). reflexivity.
Qed.

(** *** Writing the status *)

Lemma statusUpdate_run i s :
  let res := statusUpdate o i s in
  calls (snd res) = calls s ++ [ApiCall VStatusUpdate KDistribution (objKey i)] /\
  pvcs (cluster (snd res)) = pvcs (cluster s) /\
  deployments (cluster (snd res)) = deployments (cluster s) /\
  services (cluster (snd res)) = services (cluster s) /\
  networkPolicies (cluster (snd res)) = networkPolicies (cluster s) /\
  (fst res = None ->
     exists stored,
       distributions (cluster s) !! objKey i = Some stored /\
       distributions (cluster (snd res))
       = <[objKey i := withStatus (Status i) stored]> (distributions (cluster s))) /\
  (fst res <> None -> cluster (snd res) = cluster s).
Proof.
  cbn zeta. unfold statusUpdate, bind, record, readCluster. cbn [cluster calls].
  destruct (o_statusUpdate o) as [msg |].
  { cbn. repeat split; try done. }
  destruct (distributions (cluster s) !! objKey i) as [stored |] eqn:E.
  - cbn. repeat split; try done. intros _. by exists stored.
  - cbn. repeat split; try done.
Qed.

(** [updateStatus] is the evaluation followed, unless it exited early, by the
    time stamp and the write. *)
Lemma updateStatus_run i e s :
  updateStatus K r o i e s
  = let '((i1, early), s1) := evaluateStatus K r o i e s in
    match early with
    | Some err => ((i1, Some err), s1)
    | None =>
      let j := touchLastUpdated o i1 in
      ((j, match fst (statusUpdate o j s1) with
           | Some err => Some (Errorf "failed to update status" err)
           | None => None
           end), snd (statusUpdate o j s1))
    end.
Proof.
  unfold updateStatus, bind.
  destruct (evaluateStatus K r o i e s) as [[i1 [err |]] s1]; [reflexivity |].
  destruct (statusUpdate o (touchLastUpdated o i1) s1) as [[err |] s2]; reflexivity.
Qed.

(** What the evaluation computed is what [updateStatus] leaves in hand. *)
Lemma updateStatus_keeps i e s :
  let i1 := fst (fst (evaluateStatus K r o i e s)) in
  let j := fst (fst (updateStatus K r o i e s)) in
  sameResource i1 j /\
  Phase (Status j) = Phase (Status i1) /\
  Conditions (Status j) = Conditions (Status i1) /\
  AvailableReplicas (Status j) = AvailableReplicas (Status i1) /\
  DistConfig (Status j) = DistConfig (Status i1).
Proof.
  cbn zeta. rewrite updateStatus_run.
  destruct (evaluateStatus K r o i e s) as [[i1 [err |]] s1]; cbn [fst snd];
    repeat split.
Qed.

(** When [updateStatus] returns no error, the status in hand is the stored
    one. *)
Lemma updateStatus_stored i e s j s' :
  updateStatus K r o i e s = ((j, None), s') ->
  exists stored,
    distributions (cluster s') !! objKey j = Some stored /\ Status stored = Status j.
Proof.
  rewrite updateStatus_run.
  destruct (evaluateStatus K r o i e s) as [[i1 [err |]] s1]; [discriminate |].
  cbn zeta. pose proof (statusUpdate_run (touchLastUpdated o i1) s1) as
    (_ & _ & _ & _ & _ & Hok & _).
  destruct (statusUpdate o (touchLastUpdated o i1) s1) as [[err |] s2];
    [discriminate |].
  cbn [fst snd] in *. intros [= <- <-].
  destruct (Hok eq_refl) as (stored & Hs & Hd).
  exists (withStatus (Status (touchLastUpdated o i1)) stored).
  split; [| reflexivity]. rewrite Hd. apply lookup_insert_eq.
Qed.

(** *** The workload not ready, the workload ready *)

(** Not ready: the phase and the workload condition are those of the switch,
    the health condition is forced false, the provider list is cleared, and
    only reads were made. *)
Lemma evaluateStatus_notReady i s :
  o_statusGetDeployment o = None ->
  workloadReady i (cluster s) = false ->
  let i1 := fst (fst (fst (updateDeploymentStatus K o (initOperatorVersion o i) s))) in
  exists i' s',
    evaluateStatus K r o i None s = ((i', None), s') /\
    sameResource i i' /\
    Phase (Status i') = Phase (Status i1) /\
    conditionOf DeploymentReady i' = conditionOf DeploymentReady i1 /\
    conditionOf HealthCheck i'
    = Some (mkCondition K HealthCheck false "Deployment not ready") /\
    AvailableReplicas (Status i') = observedReadyReplicas i (cluster s) /\
    Providers (DistConfig (Status i')) = [] /\
    cluster s' = cluster s /\
    extends isRead s s'.
Proof.
  intros H Hr.
  destruct (evaluateStatus_reads i s H) as
    (i4 & s3 & S4 & P4 & C4 & A4 & Pr4 & Cl & Ex & Hev).
  rewrite Hr in Hev. eexists _, s3. split; [exact Hev |].
  split; [destruct S4 as (? & ? & ?); repeat split; assumption |].
  split; [exact P4 |].
  split.
  { rewrite <- C4. unfold conditionOf. cbn. by apply findCondition_upsert_other. }
  split.
  { unfold conditionOf. cbn.
    apply (findCondition_upsert_same (mkCondition K HealthCheck false _)). }
  split; [exact A4 |].
  split; [reflexivity |].
  split; assumption.
Qed.

(** Ready: the phase and the health condition follow the probe, the provider
    list follows the listing. *)
Lemma evaluateStatus_ready i s :
  o_statusGetDeployment o = None ->
  workloadReady i (cluster s) = true ->
  exists i' s',
    evaluateStatus K r o i None s = ((i', None), s') /\
    sameResource i i' /\
    (forall b e, fst (checkHealth K o i s) = (b, Some e) ->
       Phase (Status i') = PhaseInitializing /\
       conditionOf HealthCheck i'
       = Some (mkCondition K HealthCheck false ("Health check failed: " +:+ Error e))) /\
    (fst (checkHealth K o i s) = (false, None) ->
       Phase (Status i') = PhaseFailed /\
       conditionOf HealthCheck i'
       = Some (mkCondition K HealthCheck false (MessageHealthCheckFailed K))) /\
    (fst (checkHealth K o i s) = (true, None) ->
       Phase (Status i') = PhaseReady /\
       conditionOf HealthCheck i'
       = Some (mkCondition K HealthCheck true (MessageHealthCheckPassed K))) /\
    conditionOf DeploymentReady i'
    = conditionOf DeploymentReady
        (fst (fst (fst (updateDeploymentStatus K o (initOperatorVersion o i) s)))) /\
    AvailableReplicas (Status i') = observedReadyReplicas i (cluster s) /\
    Providers (DistConfig (Status i'))
    = match fst (getProviderInfo K o i s) with inl ps => ps | inr _ => [] end /\
    cluster s' = cluster s.
Proof.
  intros H Hr.
  destruct (evaluateStatus_reads i s H) as
    (i4 & s3 & S4 & P4 & C4 & A4 & Pr4 & Cl & Ex & Hev).
  rewrite Hr in Hev.
  pose proof (performHealthChecks_run i4 s3) as
    (Sj & He & Hf & Hp & Hprov & Hav & Hco & Hcl & Hex).
  destruct (performHealthChecks K o i4 s3) as [j s']. cbn [fst snd] in *.
  rewrite (checkHealth_value i4 s3 i s) in He, Hf, Hp.
  rewrite (getProviderInfo_value i4 s3 i s) in Hprov.
  exists j, s'. split; [exact Hev |].
  split; [eauto using sameResource_trans |].
  split; [exact He |]. split; [exact Hf |]. split; [exact Hp |].
  split; [rewrite <- C4; by apply Hco |].
  split; [congruence |].
  split; [exact Hprov |].
  congruence.
Qed.

Lemma updateStatus_conditionOf a i e s :
  conditionOf a (fst (fst (updateStatus K r o i e s)))
  = conditionOf a (fst (fst (evaluateStatus K r o i e s))).
Proof.
  destruct (updateStatus_keeps i e s) as (_ & _ & C & _). unfold conditionOf. by rewrite C.
Qed.

Lemma updateStatus_phase i e s :
  Phase (Status (fst (fst (updateStatus K r o i e s))))
  = Phase (Status (fst (fst (evaluateStatus K r o i e s)))).
Proof. by destruct (updateStatus_keeps i e s) as (_ & P & _). Qed.

Lemma updateStatus_providers i e s :
  Providers (DistConfig (Status (fst (fst (updateStatus K r o i e s)))))
  = Providers (DistConfig (Status (fst (fst (evaluateStatus K r o i e s))))).
Proof. destruct (updateStatus_keeps i e s) as (_ & _ & _ & _ & D). by rewrite D. Qed.

Lemma updateStatus_availableReplicas i e s :
  AvailableReplicas (Status (fst (fst (updateStatus K r o i e s))))
  = AvailableReplicas (Status (fst (fst (evaluateStatus K r o i e s)))).
Proof. by destruct (updateStatus_keeps i e s) as (_ & _ & _ & A & _). Qed.

(** *** What a status update may touch *)

(** The evaluation reads and probes; it writes nothing. *)
Lemma evaluateStatus_frame i e s :
  cluster (snd (evaluateStatus K r o i e s)) = cluster s /\
  extends (fun c => isRead c || isProbe c) s (snd (evaluateStatus K r o i e s)).
Proof.
  destruct e as [e |].
  { destruct (evaluateStatus_syncError i e s) as (i' & Hev & _). rewrite Hev. unchanged. }
  destruct (o_statusGetDeployment o) as [msg |] eqn:H.
  { rewrite (evaluateStatus_fault i s msg H). split; [reflexivity |].
    by apply extends_logged. }
  destruct (evaluateStatus_reads i s H) as (i4 & s3 & _ & _ & _ & _ & _ & Cl & Ex & Hev).
  assert (Ex' : extends (fun c => isRead c || isProbe c) s s3).
  { eapply extends_weaken; [| exact Ex]. by intros c ->. }
  rewrite Hev. destruct (workloadReady i (cluster s)); [| by split].
  pose proof (performHealthChecks_run i4 s3) as (_ & _ & _ & _ & _ & _ & _ & Hcl & Hex).
  destruct (performHealthChecks K o i4 s3) as [j s']. cbn [fst snd] in *.
  split; [congruence |].
  eapply extends_trans; [exact Ex' |].
  eapply extends_weaken; [| exact Hex]. intros c ->. apply orb_true_r.
Qed.

(** [updateStatus] reads, probes and writes the status of the resource; the
    child resources are left as they are. *)
Lemma updateStatus_frame i e s :
  let s' := snd (updateStatus K r o i e s) in
  pvcs (cluster s') = pvcs (cluster s) /\
  deployments (cluster s') = deployments (cluster s) /\
  services (cluster s') = services (cluster s) /\
  networkPolicies (cluster s') = networkPolicies (cluster s) /\
  extends (fun c => isRead c || isProbe c || isStatusWrite c) s s'.
Proof.
  cbn zeta. rewrite updateStatus_run.
  destruct (evaluateStatus_frame i e s) as [Cl Ex].
  assert (Ex' : extends (fun c => isRead c || isProbe c || isStatusWrite c) s
                  (snd (evaluateStatus K r o i e s))).
  { eapply extends_weaken; [| exact Ex]. by intros c ->. }
  destruct (evaluateStatus K r o i e s) as [[i1 [err |]] s1]; cbn [fst snd] in *.
  { rewrite Cl. by repeat split. }
  cbn zeta. cbn [snd].
  pose proof (statusUpdate_run (touchLastUpdated o i1) s1) as (Hc & P & D & Sv & N & _).
  cbn zeta in *. rewrite P, D, Sv, N, Cl. repeat split.
  eapply extends_trans; [exact Ex' |]. eexists. split; [exact Hc | reflexivity].
Qed.

(** After a synchronization error [updateStatus] makes one call, the write. *)
Lemma updateStatus_syncError_calls i e s :
  calls (snd (updateStatus K r o i (Some e) s))
  = calls s ++ [ApiCall VStatusUpdate KDistribution (objKey i)].
Proof.
  rewrite updateStatus_run.
  destruct (evaluateStatus_syncError i e s) as (i1 & Hev & Sm & _).
  rewrite Hev. cbn zeta. cbn [snd].
  pose proof (statusUpdate_run (touchLastUpdated o i1) s) as (Hc & _).
  cbn zeta in Hc. rewrite Hc. do 2 f_equal.
  destruct Sm as (En & Ens & _). unfold objKey. cbn. by rewrite En, Ens.
Qed.

(** ** The health probe and the phase *)

(** C5. When the workload is observed ready, the phase follows the health
    probe: a request that could not be made or a transport failure gives
    Initializing with the health condition false; an answer whose status is
    not 200 gives Failed with the health condition false; an answer 200 gives
    Ready with the health condition true.  [checkHealth] reports healthy
    exactly when the answer is 200. *)
Theorem health_probe_decides_phase i s :
  o_statusGetDeployment o = None ->
  workloadReady i (cluster s) = true ->
  let i' := fst (fst (updateStatus K r o i None s)) in
  (forall e, o_health o = RequestRejected e \/ o_health o = TransportFailed e ->
     exists msg,
       Phase (Status i') = PhaseInitializing /\
       conditionOf HealthCheck i' = Some (mkCondition K HealthCheck false msg)) /\
  (forall code body, o_health o = Responded code body -> code <> 200 ->
     Phase (Status i') = PhaseFailed /\
     conditionOf HealthCheck i'
     = Some (mkCondition K HealthCheck false (MessageHealthCheckFailed K))) /\
  (forall body, o_health o = Responded 200 body ->
     Phase (Status i') = PhaseReady /\
     conditionOf HealthCheck i'
     = Some (mkCondition K HealthCheck true (MessageHealthCheckPassed K))) /\
  (forall i0 s0,
     fst (checkHealth K o i0 s0) = (true, None)
     <-> exists body, o_health o = Responded 200 body).
Proof.
  intros H Hr. cbn zeta.
  rewrite updateStatus_phase, updateStatus_conditionOf.
  destruct (evaluateStatus_ready i s H Hr) as
    (i' & s' & Hev & _ & He & Hf & Hp & _).
  rewrite Hev. cbn [fst].
  split.
  { intros e [Ho | Ho].
    - destruct (He false (Errorf "failed to create health check request" e)) as [P C].
      { unfold checkHealth. by rewrite Ho. }
      eexists. split; [exact P | exact C].
    - destruct (He false (Errorf "failed to make health check request" e)) as [P C].
      { unfold checkHealth. by rewrite Ho. }
      eexists. split; [exact P | exact C]. }
  split.
  { intros code body Ho Hne. apply Hf.
    unfold checkHealth. rewrite Ho. cbn. f_equal. f_equal.
    apply Z.eqb_neq. exact Hne. }
  split.
  { intros body Ho. apply Hp. unfold checkHealth. by rewrite Ho. }
  intros i0 s0. unfold checkHealth.
  destruct (o_health o) as [e | e | code body]; cbn.
  - split; [discriminate | intros [b Hb]; discriminate].
  - split; [discriminate | intros [b Hb]; discriminate].
  - split.
    + intros [= Hc]. apply Z.eqb_eq in Hc. subst code. by exists body.
    + intros [b [= -> _]]. reflexivity.
Qed.

(** ** The replica cases *)

Lemma workloadReady_true i c d :
  deployments c !! (Namespace i, Name i) = Some d ->
  dep_ReadyReplicas d <> 0 -> dep_ReadyReplicas d = Replicas (Spec i) ->
  workloadReady i c = true.
Proof.
  intros Hd H0 He. unfold workloadReady. rewrite Hd.
  apply andb_true_intro. split.
  - apply negb_true_iff. by apply Z.eqb_neq.
  - by apply Z.eqb_eq.
Qed.

Lemma workloadReady_false i c d :
  deployments c !! (Namespace i, Name i) = Some d ->
  dep_ReadyReplicas d = 0 \/ dep_ReadyReplicas d <> Replicas (Spec i) ->
  workloadReady i c = false.
Proof.
  intros Hd H. unfold workloadReady. rewrite Hd.
  apply andb_false_iff. destruct H as [H | H].
  - left. apply negb_false_iff. by apply Z.eqb_eq.
  - right. by apply Z.eqb_neq.
Qed.

(** The status [updateStatus] computes for a workload that exists, by the
    cases of the switch in their order. *)
Lemma updateStatus_replicas i s d :
  o_statusGetDeployment o = None ->
  deployments (cluster s) !! (Namespace i, Name i) = Some d ->
  let ready := dep_ReadyReplicas d in
  let desired := Replicas (Spec i) in
  let i' := fst (fst (updateStatus K r o i None s)) in
  (ready = 0 ->
     Phase (Status i') = PhaseInitializing /\
     conditionOf DeploymentReady i'
     = Some (mkCondition K DeploymentReady false (MessageDeploymentPending K))) /\
  (ready <> 0 -> ready < desired ->
     Phase (Status i') = PhaseInitializing /\
     conditionOf DeploymentReady i'
     = Some (mkCondition K DeploymentReady false
               ("Deployment is scaling: " +:+ fmt_d ready +:+ "/" +:+ fmt_d desired
                  +:+ " replicas ready"))) /\
  (ready <> 0 -> ready > desired ->
     Phase (Status i') = PhaseInitializing /\
     conditionOf DeploymentReady i'
     = Some (mkCondition K DeploymentReady false
               ("Deployment is scaling down: " +:+ fmt_d ready +:+ "/" +:+ fmt_d desired
                  +:+ " replicas ready"))) /\
  (ready <> 0 -> ready = desired ->
     conditionOf DeploymentReady i'
     = Some (mkCondition K DeploymentReady true (MessageDeploymentReady K)) /\
     ((exists body, o_health o = Responded 200 body) ->
      Phase (Status i') = PhaseReady)).
Proof.
  intros H Hd. cbn zeta.
  rewrite updateStatus_phase, updateStatus_conditionOf.
  destruct (initOperatorVersion_frame i) as ((En & Ens & Esp) & _).
  assert (Hd0 : deployments (cluster s)
                  !! (Namespace (initOperatorVersion o i), Name (initOperatorVersion o i))
                = Some d) by (by rewrite En, Ens).
  pose proof (updateDeploymentStatus_switch (initOperatorVersion o i) s d H Hd0) as
    (S0 & S1 & S2 & S3).
  cbn zeta in *. rewrite Esp in S1, S2, S3.
  assert (Hnr : workloadReady i (cluster s) = false ->
            Phase (Status (fst (fst (evaluateStatus K r o i None s))))
            = Phase (Status (fst (fst (fst (updateDeploymentStatus K o
                                             (initOperatorVersion o i) s))))) /\
            conditionOf DeploymentReady (fst (fst (evaluateStatus K r o i None s)))
            = conditionOf DeploymentReady
                (fst (fst (fst (updateDeploymentStatus K o (initOperatorVersion o i) s))))).
  { intros Hr. destruct (evaluateStatus_notReady i s H Hr) as
      (i' & s' & Hev & _ & P & C & _).
    rewrite Hev. by split. }
  split.
  { intros E0. destruct Hnr as [P C].
    { eapply workloadReady_false; [exact Hd | by left]. }
    rewrite P, C. by apply S0. }
  split.
  { intros N0 Hlt. destruct Hnr as [P C].
    { eapply workloadReady_false; [exact Hd | right; lia]. }
    rewrite P, C. by apply S1. }
  split.
  { intros N0 Hgt. destruct Hnr as [P C].
    { eapply workloadReady_false; [exact Hd | right; lia]. }
    rewrite P, C. by apply S2. }
  intros N0 Heq.
  assert (Hr : workloadReady i (cluster s) = true)
    by (eapply workloadReady_true; eassumption).
  destruct (evaluateStatus_ready i s H Hr) as
    (i' & s' & Hev & _ & _ & _ & Hp & C & _).
  rewrite Hev. cbn [fst]. split.
  - rewrite C. by apply S3.
  - intros [body Ho]. apply Hp. unfold checkHealth. by rewrite Ho.
Qed.

(** C4. With no synchronization error and an existing workload, for three
    desired replicas: none ready gives Initializing; two ready give
    Initializing with the message "Deployment is scaling: 2/3 replicas ready";
    three ready and a healthy probe give Ready; four ready give Initializing
    with the message "Deployment is scaling down: 4/3 replicas ready".  The
    cases are tried in this order: zero ready first, whatever is desired, then
    fewer than desired, then more than desired, and only then ready. *)
Theorem replica_cases_in_order i s d :
  o_statusGetDeployment o = None ->
  deployments (cluster s) !! (Namespace i, Name i) = Some d ->
  let ready := dep_ReadyReplicas d in
  let desired := Replicas (Spec i) in
  let i' := fst (fst (updateStatus K r o i None s)) in
  (desired = 3 -> ready = 0 -> Phase (Status i') = PhaseInitializing) /\
  (desired = 3 -> ready = 2 ->
     Phase (Status i') = PhaseInitializing /\
     conditionOf DeploymentReady i'
     = Some (mkCondition K DeploymentReady false
               "Deployment is scaling: 2/3 replicas ready")) /\
  (desired = 3 -> ready = 3 -> (exists body, o_health o = Responded 200 body) ->
     Phase (Status i') = PhaseReady) /\
  (desired = 3 -> ready = 4 ->
     Phase (Status i') = PhaseInitializing /\
     conditionOf DeploymentReady i'
     = Some (mkCondition K DeploymentReady false
               "Deployment is scaling down: 4/3 replicas ready")) /\
  (ready = 0 ->
     Phase (Status i') = PhaseInitializing /\
     conditionOf DeploymentReady i'
     = Some (mkCondition K DeploymentReady false (MessageDeploymentPending K))) /\
  (ready <> 0 -> ready < desired ->
     Phase (Status i') = PhaseInitializing /\
     conditionOf DeploymentReady i'
     = Some (mkCondition K DeploymentReady false
               ("Deployment is scaling: " +:+ fmt_d ready +:+ "/" +:+ fmt_d desired
                  +:+ " replicas ready"))) /\
  (ready <> 0 -> ready > desired ->
     Phase (Status i') = PhaseInitializing /\
     conditionOf DeploymentReady i'
     = Some (mkCondition K DeploymentReady false
               ("Deployment is scaling down: " +:+ fmt_d ready +:+ "/" +:+ fmt_d desired
                  +:+ " replicas ready"))) /\
  (ready <> 0 -> ready = desired ->
     conditionOf DeploymentReady i'
     = Some (mkCondition K DeploymentReady true (MessageDeploymentReady K)) /\
     ((exists body, o_health o = Responded 200 body) ->
      Phase (Status i') = PhaseReady)).
Proof.
  intros H Hd.
  pose proof (updateStatus_replicas i s d H Hd) as (S0 & S1 & S2 & S3).
  cbn zeta in *.
  split; [intros _ E; by apply S0 |].
  split.
  { intros E3 E2. destruct S1 as [P C]; [lia | lia |].
    split; [exact P |]. rewrite C, E3, E2. reflexivity. }
  split.
  { intros E3 E Hh. apply S3; [lia | lia | exact Hh]. }
  split.
  { intros E3 E4. destruct S2 as [P C]; [lia | lia |].
    split; [exact P |]. rewrite C, E3, E4. reflexivity. }
  repeat split; tauto.
Qed.

(** ** The replica count and the provider list in the status *)

Lemma evaluateStatus_availableReplicas i s :
  o_statusGetDeployment o = None ->
  sameResource i (fst (fst (evaluateStatus K r o i None s))) /\
  snd (fst (evaluateStatus K r o i None s)) = None /\
  AvailableReplicas (Status (fst (fst (evaluateStatus K r o i None s))))
  = observedReadyReplicas i (cluster s).
Proof.
  intros H. destruct (workloadReady i (cluster s)) eqn:Hr.
  - destruct (evaluateStatus_ready i s H Hr) as
      (i' & s' & Hev & Sm & _ & _ & _ & _ & A & _).
    rewrite Hev. cbn [fst snd]. split; [exact Sm | split; [reflexivity | exact A]].
  - destruct (evaluateStatus_notReady i s H Hr) as
      (i' & s' & Hev & Sm & _ & _ & _ & A & _).
    rewrite Hev. cbn [fst snd]. split; [exact Sm | split; [reflexivity | exact A]].
Qed.

Lemma updateStatus_sameResource i e s :
  sameResource i (fst (fst (evaluateStatus K r o i e s))) ->
  objKey (fst (fst (updateStatus K r o i e s))) = objKey i.
Proof.
  intros S1. destruct (updateStatus_keeps i e s) as (S2 & _).
  destruct (sameResource_trans _ _ _ S1 S2) as (En & Ens & _).
  unfold objKey. by rewrite En, Ens.
Qed.

(** C2, as the code has it.  After a status update of a pass without
    synchronization error, availableReplicas, in hand and as stored, is the
    ready-replica count read from the workload in that pass (0 when there is
    no workload), whatever the phase.  A pass with a synchronization error
    does not read the workload: what it stores is the count of the status it
    fetched. *)
Theorem available_replicas_reflect_workload i s :
  (forall i' s',
     updateStatus K r o i None s = ((i', None), s') ->
     AvailableReplicas (Status i') = observedReadyReplicas i (cluster s) /\
     exists stored,
       distributions (cluster s') !! objKey i = Some stored /\
       AvailableReplicas (Status stored) = observedReadyReplicas i (cluster s)) /\
  (forall e i' s',
     updateStatus K r o i (Some e) s = ((i', None), s') ->
     calls s' = calls s ++ [ApiCall VStatusUpdate KDistribution (objKey i)] /\
     exists stored,
       distributions (cluster s') !! objKey i = Some stored /\
       AvailableReplicas (Status stored) = AvailableReplicas (Status i)).
Proof.
  split.
  - intros i' s' Hup.
    destruct (o_statusGetDeployment o) as [msg |] eqn:H.
    { rewrite updateStatus_run, (evaluateStatus_fault i s msg H) in Hup. discriminate. }
    destruct (evaluateStatus_availableReplicas i s H) as (Sm & _ & A).
    pose proof (updateStatus_availableReplicas i None s) as A'.
    pose proof (updateStatus_sameResource i None s Sm) as Hk.
    destruct (updateStatus_stored i None s i' s' Hup) as (stored & Hs & Hst).
    rewrite Hup in A', Hk. cbn [fst] in A', Hk.
    split; [congruence |].
    exists stored. split; [by rewrite <- Hk | by rewrite Hst, A', A].
  - intros e i' s' Hup.
    destruct (evaluateStatus_syncError i e s) as (i1 & Hev & Sm & _ & _ & A & _).
    pose proof (updateStatus_availableReplicas i (Some e) s) as A'.
    assert (Sm' : sameResource i (fst (fst (evaluateStatus K r o i (Some e) s))))
      by (by rewrite Hev).
    pose proof (updateStatus_sameResource i (Some e) s Sm') as Hk.
    destruct (updateStatus_stored i (Some e) s i' s' Hup) as (stored & Hs & Hst).
    rewrite Hup in A', Hk. rewrite Hev in A'. cbn [fst] in A', Hk.
    split.
    + pose proof (updateStatus_syncError_calls i e s) as Hc. by rewrite Hup in Hc.
    + exists stored. split; [by rewrite <- Hk | by rewrite Hst, A', A].
Qed.

Lemma read_is_no_probe c : isRead c = true -> negb (isProbe c) = true.
Proof. by destruct c as [[] ? ? | ?]. Qed.

(** C1, as the code has it.  In a pass without synchronization error in which
    the workload could be read: if the workload is not ready the provider list
    is cleared, the health condition is forced false and no probe is sent; if
    it is ready the provider list is what the provider listing answered, or
    empty when the listing failed, whatever the health probe answered.  So a
    non-empty provider list means that the workload was observed ready and
    that the listing succeeded; and it is this list that a successful status
    write stores. *)
Theorem provider_list_follows_listing i s :
  o_statusGetDeployment o = None ->
  let out := updateStatus K r o i None s in
  let i' := fst (fst out) in
  let listing := fst (getProviderInfo K o i s) in
  (workloadReady i (cluster s) = false ->
     Providers (DistConfig (Status i')) = [] /\
     conditionOf HealthCheck i'
     = Some (mkCondition K HealthCheck false "Deployment not ready") /\
     forallb (fun c => negb (isProbe c)) (since s (snd out)) = true) /\
  (workloadReady i (cluster s) = true ->
     Providers (DistConfig (Status i'))
     = match listing with inl ps => ps | inr _ => [] end) /\
  (Providers (DistConfig (Status i')) <> [] ->
     workloadReady i (cluster s) = true /\
     listing = inl (Providers (DistConfig (Status i')))) /\
  (snd (fst out) = None ->
     exists stored,
       distributions (cluster (snd out)) !! objKey i = Some stored /\
       Providers (DistConfig (Status stored)) = Providers (DistConfig (Status i'))).
Proof.
  intros H. cbn zeta.
  assert (Hnr : workloadReady i (cluster s) = false ->
            Providers (DistConfig (Status (fst (fst (updateStatus K r o i None s))))) = [] /\
            conditionOf HealthCheck (fst (fst (updateStatus K r o i None s)))
            = Some (mkCondition K HealthCheck false "Deployment not ready") /\
            forallb (fun c => negb (isProbe c))
              (since s (snd (updateStatus K r o i None s))) = true).
  { intros Hr. rewrite updateStatus_providers, updateStatus_conditionOf.
    destruct (evaluateStatus_notReady i s H Hr) as
      (i1 & s1 & Hev & _ & _ & _ & Ch & _ & Pr & _ & Ex).
    rewrite updateStatus_run, Hev. cbn [fst snd].
    split; [exact Pr |]. split; [exact Ch |].
    apply extends_since.
    eapply extends_trans.
    - eapply extends_weaken; [apply read_is_no_probe | exact Ex].
    - pose proof (statusUpdate_run (touchLastUpdated o i1) s1) as (Hc & _).
      cbn zeta in Hc. eexists. split; [exact Hc | reflexivity]. }
  assert (Hrd : workloadReady i (cluster s) = true ->
            Providers (DistConfig (Status (fst (fst (updateStatus K r o i None s)))))
            = match fst (getProviderInfo K o i s) with inl ps => ps | inr _ => [] end).
  { intros Hr. rewrite updateStatus_providers.
    destruct (evaluateStatus_ready i s H Hr) as
      (i1 & s1 & Hev & _ & _ & _ & _ & _ & _ & Pr & _).
    by rewrite Hev. }
  split; [exact Hnr |]. split; [exact Hrd |]. split.
  - intros Hne. destruct (workloadReady i (cluster s)) eqn:Hr.
    + split; [reflexivity |]. rewrite (Hrd eq_refl) in *.
      destruct (fst (getProviderInfo K o i s)) as [ps | e]; [reflexivity | done].
    + destruct (Hnr eq_refl) as (Pr & _). congruence.
  - intros Hok.
    destruct (updateStatus K r o i None s) as [[i' err] s'] eqn:Hup.
    cbn [fst snd] in *. subst err.
    destruct (evaluateStatus_availableReplicas i s H) as (Sm & _ & _).
    pose proof (updateStatus_sameResource i None s Sm) as Hk.
    destruct (updateStatus_stored i None s i' s' Hup) as (stored & Hs & Hst).
    rewrite Hup in Hk. cbn [fst] in Hk.
    exists stored. split; [by rewrite <- Hk | by rewrite Hst].
Qed.

End StatusEvaluator.

(** ** The synchronizer *)

Lemma sameKind_refl k : sameKind k k = true.
Proof. by destruct k. Qed.

Section ClientFrames.

Context {A : Type} (st : Store A).

Lemma clientCreate_frame {B} (proj : Cluster -> B) fault key obj s :
  (forall m c, proj (setObjects st m c) = proj c) ->
  proj (cluster (snd (clientCreate st fault key obj s))) = proj (cluster s) /\
  extends (onKind (kindOf st)) s (snd (clientCreate st fault key obj s)).
Proof.
  intros Hp. unfold clientCreate, bind, record, readCluster, writeCluster. cbn [cluster calls].
  assert (Hex : forall c, extends (onKind (kindOf st)) s
                  {| cluster := c; calls := calls s ++ [ApiCall VCreate (kindOf st) key] |}).
  { intros c. exists [ApiCall VCreate (kindOf st) key]. split; [reflexivity |].
    cbn. by rewrite sameKind_refl. }
  destruct fault as [msg |]; [split; [reflexivity | apply Hex] |].
  destruct (objects st (cluster s) !! key); cbn; [split; [reflexivity | apply Hex] |].
  split; [apply Hp | apply Hex].
Qed.

Lemma clientUpdate_frame {B} (proj : Cluster -> B) key obj s :
  (forall m c, proj (setObjects st m c) = proj c) ->
  proj (cluster (snd (clientUpdate st key obj s))) = proj (cluster s) /\
  extends (onKind (kindOf st)) s (snd (clientUpdate st key obj s)).
Proof.
  intros Hp. unfold clientUpdate, bind, record, readCluster, writeCluster. cbn [cluster calls].
  assert (Hex : forall c, extends (onKind (kindOf st)) s
                  {| cluster := c; calls := calls s ++ [ApiCall VUpdate (kindOf st) key] |}).
  { intros c. exists [ApiCall VUpdate (kindOf st) key]. split; [reflexivity |].
    cbn. by rewrite sameKind_refl. }
  destruct (objects st (cluster s) !! key); cbn; [| split; [reflexivity | apply Hex]].
  split; [apply Hp | apply Hex].
Qed.

Lemma clientDelete_frame {B} (proj : Cluster -> B) key s :
  (forall m c, proj (setObjects st m c) = proj c) ->
  proj (cluster (snd (clientDelete st key s))) = proj (cluster s) /\
  extends (onKind (kindOf st)) s (snd (clientDelete st key s)).
Proof.
  intros Hp. unfold clientDelete, bind, record, readCluster, writeCluster. cbn [cluster calls].
  assert (Hex : forall c, extends (onKind (kindOf st)) s
                  {| cluster := c; calls := calls s ++ [ApiCall VDelete (kindOf st) key] |}).
  { intros c. exists [ApiCall VDelete (kindOf st) key]. split; [reflexivity |].
    cbn. by rewrite sameKind_refl. }
  destruct (objects st (cluster s) !! key); cbn; [| split; [reflexivity | apply Hex]].
  split; [apply Hp | apply Hex].
Qed.

Lemma extends_onKind_get key s :
  extends (onKind (kindOf st)) s (logged (ApiCall VGet (kindOf st) key) s).
Proof. apply extends_logged. cbn. apply sameKind_refl. Qed.

(** An apply operation touches its own kind of object only. *)
Lemma applyObject_frame `{EqDecision A} {B} (proj : Cluster -> B)
    fault key what desired keep s :
  (forall m c, proj (setObjects st m c) = proj c) ->
  proj (cluster (snd (applyObject st fault key what desired keep s))) = proj (cluster s) /\
  extends (onKind (kindOf st)) s (snd (applyObject st fault key what desired keep s)).
Proof.
  intros Hp. unfold applyObject, bind. rewrite clientGet_run.
  set (s1 := logged (ApiCall VGet (kindOf st) key) s).
  pose proof (extends_onKind_get key s) as E1. fold s1 in E1.
  destruct fault as [msg |]; cbn [IsNotFound].
  { split; [reflexivity | exact E1]. }
  destruct (objects st (cluster s) !! key) as [existing |]; cbn [IsNotFound].
  - destruct (decide (keep existing desired = existing));
      [split; [reflexivity | exact E1] |].
    destruct (clientUpdate_frame proj key (keep existing desired) s1 Hp) as [P E].
    destruct (clientUpdate st key (keep existing desired) s1) as [res s2].
    cbn [fst snd] in *. split; [exact P | eapply extends_trans; eassumption].
  - destruct (clientCreate_frame proj None key desired s1 Hp) as [P E].
    destruct (clientCreate st None key desired s1) as [res s2].
    cbn [fst snd] in *. split; [exact P | eapply extends_trans; eassumption].
Qed.

End ClientFrames.

Section Synchronizer.

Variable K : Constants.
Variable r : Reconciler.
Variable o : Oracle.

Lemma ApplyDeployment_frame {B} (proj : Cluster -> B) i d s :
  (forall m c, proj (setObjects deploymentStore m c) = proj c) ->
  proj (cluster (snd (ApplyDeployment o i d s))) = proj (cluster s) /\
  extends (onKind KDeployment) s (snd (ApplyDeployment o i d s)).
Proof.
  intros Hp. unfold ApplyDeployment.
  destruct (SetControllerReference o i); [| unchanged].
  by apply (applyObject_frame deploymentStore).
Qed.

Lemma ApplyService_frame {B} (proj : Cluster -> B) i d s :
  (forall m c, proj (setObjects serviceStore m c) = proj c) ->
  proj (cluster (snd (ApplyService o i d s))) = proj (cluster s) /\
  extends (onKind KService) s (snd (ApplyService o i d s)).
Proof.
  intros Hp. unfold ApplyService.
  destruct (SetControllerReference o i); [| unchanged].
  by apply (applyObject_frame serviceStore).
Qed.

Lemma ApplyNetworkPolicy_frame {B} (proj : Cluster -> B) i d s :
  (forall m c, proj (setObjects networkPolicyStore m c) = proj c) ->
  proj (cluster (snd (ApplyNetworkPolicy o i d s))) = proj (cluster s) /\
  extends (onKind KNetworkPolicy) s (snd (ApplyNetworkPolicy o i d s)).
Proof.
  intros Hp. unfold ApplyNetworkPolicy.
  destruct (SetControllerReference o i); [| unchanged].
  by apply (applyObject_frame networkPolicyStore).
Qed.

Lemma HandleDisabledNetworkPolicy_frame {B} (proj : Cluster -> B) np s :
  (forall m c, proj (setObjects networkPolicyStore m c) = proj c) ->
  proj (cluster (snd (HandleDisabledNetworkPolicy o np s))) = proj (cluster s) /\
  extends (onKind KNetworkPolicy) s (snd (HandleDisabledNetworkPolicy o np s)).
Proof.
  intros Hp. unfold HandleDisabledNetworkPolicy, bind. rewrite clientGet_run.
  set (key := (np_Namespace np, np_Name np)).
  set (s1 := logged (ApiCall VGet (kindOf networkPolicyStore) key) s).
  pose proof (extends_onKind_get networkPolicyStore key s) as E1. fold s1 in E1.
  destruct (o_networkPolicy o) as [msg |]; cbn [IsNotFound].
  { split; [reflexivity | exact E1]. }
  destruct (objects networkPolicyStore (cluster s) !! key) as [existing |]; cbn [IsNotFound].
  - destruct (clientDelete_frame networkPolicyStore proj key s1 Hp) as [P E].
    destruct (clientDelete networkPolicyStore key s1) as [res s2].
    cbn [fst snd] in *. split; [exact P | eapply extends_trans; eassumption].
  - split; [reflexivity | exact E1].
Qed.

Lemma reconcileNetworkPolicy_frame {B} (proj : Cluster -> B) i s :
  (forall m c, proj (setObjects networkPolicyStore m c) = proj c) ->
  proj (cluster (snd (reconcileNetworkPolicy K r o i s))) = proj (cluster s) /\
  extends (onKind KNetworkPolicy) s (snd (reconcileNetworkPolicy K r o i s)).
Proof.
  intros Hp. unfold reconcileNetworkPolicy.
  destruct (negb (EnableNetworkPolicy r)).
  - by apply HandleDisabledNetworkPolicy_frame.
  - destruct (o_operatorNamespace o); [| unchanged].
    by apply ApplyNetworkPolicy_frame.
Qed.

Lemma reconcileDeployment_frame {B} (proj : Cluster -> B) i s :
  (forall m c, proj (setObjects deploymentStore m c) = proj c) ->
  proj (cluster (snd (reconcileDeployment K r o i s))) = proj (cluster s) /\
  extends (onKind KDeployment) s (snd (reconcileDeployment K r o i s)).
Proof.
  intros Hp. unfold reconcileDeployment.
  destruct (validateDistribution r i); [unchanged |].
  destruct (resolveImage r _); [| unchanged].
  by apply ApplyDeployment_frame.
Qed.

Lemma reconcileService_frame {B} (proj : Cluster -> B) i s :
  (forall m c, proj (setObjects serviceStore m c) = proj c) ->
  proj (cluster (snd (reconcileService K o i s))) = proj (cluster s) /\
  extends (onKind KService) s (snd (reconcileService K o i s)).
Proof. intros Hp. unfold reconcileService. by apply ApplyService_frame. Qed.

Lemma reconcilePVC_frame {B} (proj : Cluster -> B) i st s :
  (forall m c, proj (setObjects pvcStore m c) = proj c) ->
  proj (cluster (snd (reconcilePVC K o i st s))) = proj (cluster s) /\
  extends (onKind KPVC) s (snd (reconcilePVC K o i st s)).
Proof.
  intros Hp. unfold reconcilePVC.
  destruct (SetControllerReference o i) as [owner | e];
    [| unchanged].
  cbn zeta. unfold bind. rewrite clientGet_run.
  match goal with |- context [logged (ApiCall VGet _ ?k) s] => set (key := k) end.
  set (s1 := logged (ApiCall VGet (kindOf pvcStore) key) s).
  pose proof (extends_onKind_get pvcStore key s) as E1. fold s1 in E1.
  destruct (o_getPVC o) as [msg |]; cbn [IsNotFound].
  { split; [reflexivity | exact E1]. }
  destruct (objects pvcStore (cluster s) !! key) as [existing |]; cbn [IsNotFound].
  { split; [reflexivity | exact E1]. }
  match goal with |- context [clientCreate pvcStore ?f key ?c s1] =>
    destruct (clientCreate_frame pvcStore proj f key c s1 Hp) as [P E];
    destruct (clientCreate pvcStore f key c s1) as [res s2]
  end.
  cbn [fst snd] in *. split; [exact P | eapply extends_trans; eassumption].
Qed.

(** The synchronization after its storage step: the three other steps touch
    their own kinds of object only. *)
Lemma reconcileResources_after_storage {B} (proj : Cluster -> B) (p : Call -> bool) i s :
  (forall m c, proj (setObjects networkPolicyStore m c) = proj c) ->
  (forall m c, proj (setObjects deploymentStore m c) = proj c) ->
  (forall m c, proj (setObjects serviceStore m c) = proj c) ->
  (forall c, onKind KNetworkPolicy c = true -> p c = true) ->
  (forall c, onKind KDeployment c = true -> p c = true) ->
  (forall c, onKind KService c = true -> p c = true) ->
  let s1 := snd (match Storage (Server (Spec i)) with
                 | Some storage => reconcilePVC K o i storage
                 | None => ret None
                 end s) in
  proj (cluster (snd (reconcileResources K r o i s))) = proj (cluster s1) /\
  extends p s1 (snd (reconcileResources K r o i s)).
Proof.
  intros Hn Hd Hs Pn Pd Ps. cbn zeta. unfold reconcileResources, bind.
  destruct (match Storage (Server (Spec i)) with
            | Some storage => reconcilePVC K o i storage
            | None => ret None
            end s) as [pvcErr s1].
  cbn [fst snd].
  destruct pvcErr as [e |]; [unchanged |].
  destruct (reconcileNetworkPolicy_frame proj i s1 Hn) as [P2 E2].
  destruct (reconcileNetworkPolicy K r o i s1) as [npErr s2]. cbn [fst snd] in *.
  assert (E2' : extends p s1 s2) by (eapply extends_weaken; [exact Pn | exact E2]).
  destruct npErr as [e |]; [split; [exact P2 | exact E2'] |].
  destruct (reconcileDeployment_frame proj i s2 Hd) as [P3 E3].
  destruct (reconcileDeployment K r o i s2) as [depErr s3]. cbn [fst snd] in *.
  assert (E3' : extends p s1 s3).
  { eapply extends_trans; [exact E2' |]. eapply extends_weaken; [exact Pd | exact E3]. }
  destruct depErr as [e |]; [split; [unfold ret; cbn [fst snd]; congruence | exact E3'] |].
  destruct (HasPorts i); [| split; [unfold ret; cbn [fst snd]; congruence | exact E3']].
  destruct (reconcileService_frame proj i s3 Hs) as [P4 E4].
  destruct (reconcileService K o i s3) as [svcErr s4]. cbn [fst snd] in *.
  assert (E4' : extends p s1 s4).
  { eapply extends_trans; [exact E3' |]. eapply extends_weaken; [exact Ps | exact E4]. }
  destruct svcErr as [e |]; (split; [unfold ret; cbn [fst snd]; congruence | exact E4']).
Qed.

(** The synchronization as a whole, given what its storage step does. *)
Lemma reconcileResources_frame {B} (proj : Cluster -> B) (p : Call -> bool) i s :
  (forall m c, proj (setObjects networkPolicyStore m c) = proj c) ->
  (forall m c, proj (setObjects deploymentStore m c) = proj c) ->
  (forall m c, proj (setObjects serviceStore m c) = proj c) ->
  (forall c, onKind KNetworkPolicy c = true -> p c = true) ->
  (forall c, onKind KDeployment c = true -> p c = true) ->
  (forall c, onKind KService c = true -> p c = true) ->
  (forall st, Storage (Server (Spec i)) = Some st ->
     proj (cluster (snd (reconcilePVC K o i st s))) = proj (cluster s) /\
     extends p s (snd (reconcilePVC K o i st s))) ->
  proj (cluster (snd (reconcileResources K r o i s))) = proj (cluster s) /\
  extends p s (snd (reconcileResources K r o i s)).
Proof.
  intros Hn Hd Hs Pn Pd Ps Hpvc.
  destruct (reconcileResources_after_storage proj p i s Hn Hd Hs Pn Pd Ps) as [P E].
  cbn zeta in *.
  destruct (Storage (Server (Spec i))) as [st |].
  - destruct (Hpvc st eq_refl) as [P1 E1].
    split; [congruence | eapply extends_trans; eassumption].
  - split; [exact P | exact E].
Qed.

(** *** Storage *)

Lemma onKind_no_write k k' c :
  sameKind k k' = false -> onKind k' c = true -> negb (writesKind k c) = true.
Proof.
  destruct c as [v kc key | u]; [| done].
  destruct v, k, k', kc; cbn; done.
Qed.

(** A claim that exists is looked up at most, and left as it is. *)
Lemma reconcilePVC_existing i storage s existing :
  pvcs (cluster s) !! (Namespace i, Name i +:+ "-pvc") = Some existing ->
  cluster (snd (reconcilePVC K o i storage s)) = cluster s /\
  extends isRead s (snd (reconcilePVC K o i storage s)).
Proof.
  intros He. unfold reconcilePVC.
  destruct (SetControllerReference o i) as [owner | e];
    [| unchanged].
  cbn zeta. unfold bind. rewrite clientGet_run.
  cbn [pvc_Namespace pvc_Name objects pvcStore kindOf].
  destruct (o_getPVC o) as [msg |]; cbn [IsNotFound].
  { split; [reflexivity | apply extends_read_logged_get]. }
  rewrite He. split; [reflexivity | apply extends_read_logged_get].
Qed.

(** No claim yet, and neither the owner reference nor the lookup fails: the
    claim is looked up, then created with the requested size, or the default
    one, and ReadWriteOnce. *)
Lemma reconcilePVC_creates i storage s :
  pvcs (cluster s) !! (Namespace i, Name i +:+ "-pvc") = None ->
  o_setControllerReference o = None -> o_getPVC o = None ->
  let key := (Namespace i, Name i +:+ "-pvc") in
  let s' := snd (reconcilePVC K o i storage s) in
  let claim :=
    {| pvc_Name := Name i +:+ "-pvc"; pvc_Namespace := Namespace i;
       pvc_Owner := Some (objKey i);
       pvc_AccessModes := [ReadWriteOnce];
       pvc_Request := match Size storage with
                      | Some q => q
                      | None => DefaultStorageSize K
                      end;
       pvc_Phase := ClaimNoPhase |} in
  calls s' = calls s ++ [ApiCall VGet KPVC key; ApiCall VCreate KPVC key] /\
  (o_createPVC o = None ->
   fst (reconcilePVC K o i storage s) = None /\
   pvcs (cluster s') = <[key := claim]> (pvcs (cluster s))).
Proof.
  intros Hn Ho Hg. cbn zeta. unfold reconcilePVC, SetControllerReference.
  rewrite Ho. cbn zeta. unfold bind. rewrite clientGet_run, Hg.
  cbn [pvc_Namespace pvc_Name objects pvcStore kindOf]. rewrite Hn. cbn [IsNotFound].
  unfold clientCreate, bind, record, readCluster, writeCluster, logged.
  cbn [cluster calls objects pvcStore kindOf]. rewrite Hn.
  split.
  - destruct (o_createPVC o); cbn [snd calls ret]; by rewrite <- app_assoc.
  - intros ->. cbn. split; reflexivity.
Qed.

(** *** An unresolvable distribution reference *)

Lemma validateDistribution_unresolvable i :
  unresolvable r (Distribution (Server (Spec i))) ->
  exists e, validateDistribution r i = Some e.
Proof.
  intros [Himg Hname]. unfold validateDistribution. cbn zeta. rewrite Himg.
  destruct (dist_Name (Distribution (Server (Spec i)))) as [| a n] eqn:En.
  - eexists; reflexivity.
  - destruct Hname as [Hn | Hn]; [discriminate |]. rewrite Hn. eexists; reflexivity.
Qed.

(** The workload step stops at the validation: no call is made. *)
Lemma reconcileDeployment_unresolvable i s :
  unresolvable r (Distribution (Server (Spec i))) ->
  exists e, reconcileDeployment K r o i s = (Some e, s).
Proof.
  intros Hu. destruct (validateDistribution_unresolvable i Hu) as [e He].
  exists e. unfold reconcileDeployment. by rewrite He.
Qed.

(** With an unresolvable reference the synchronization fails at the workload
    step at the latest: the workload and the endpoint are left alone, and the
    calls made are on the storage claim and the ingress policy. *)
Lemma reconcileResources_unresolvable i s :
  unresolvable r (Distribution (Server (Spec i))) ->
  let out := reconcileResources K r o i s in
  (exists e, fst out = Some e) /\
  deployments (cluster (snd out)) = deployments (cluster s) /\
  services (cluster (snd out)) = services (cluster s) /\
  extends beforeWorkload s (snd out).
Proof.
  intros Hu. cbn zeta.
  set (proj := fun c : Cluster => (deployments c, services c)).
  assert (Hmain : (exists e, fst (reconcileResources K r o i s) = Some e) /\
                  proj (cluster (snd (reconcileResources K r o i s))) = proj (cluster s) /\
                  extends beforeWorkload s (snd (reconcileResources K r o i s))).
  { unfold reconcileResources, bind.
    assert (H1 : proj (cluster (snd (match Storage (Server (Spec i)) with
                                     | Some storage => reconcilePVC K o i storage
                                     | None => ret None
                                     end s))) = proj (cluster s) /\
                 extends beforeWorkload s
                   (snd (match Storage (Server (Spec i)) with
                         | Some storage => reconcilePVC K o i storage
                         | None => ret None
                         end s))).
    { destruct (Storage (Server (Spec i))) as [st |].
      - destruct (reconcilePVC_frame proj i st s) as [P E]; [reflexivity |].
        split; [exact P |]. eapply extends_weaken; [| exact E].
        intros c Hc. unfold beforeWorkload. by rewrite Hc.
      - unchanged. }
    destruct (match Storage (Server (Spec i)) with
              | Some storage => reconcilePVC K o i storage
              | None => ret None
              end s) as [pvcErr s1].
    cbn [fst snd] in H1. destruct H1 as [P1 E1].
    destruct pvcErr as [e |].
    { split; [by eexists | split; [exact P1 | exact E1]]. }
    destruct (reconcileNetworkPolicy_frame proj i s1) as [P2 E2]; [reflexivity |].
    destruct (reconcileNetworkPolicy K r o i s1) as [npErr s2]. cbn [fst snd] in *.
    assert (E2' : extends beforeWorkload s s2).
    { eapply extends_trans; [exact E1 |]. eapply extends_weaken; [| exact E2].
      intros c Hc. unfold beforeWorkload. rewrite Hc. apply orb_true_r. }
    destruct npErr as [e |].
    { split; [by eexists | split; [unfold ret; cbn [fst snd]; congruence | exact E2']]. }
    destruct (reconcileDeployment_unresolvable i s2 Hu) as [e He]. rewrite He.
    split; [by eexists | split; [unfold ret; cbn [fst snd]; congruence | exact E2']]. }
  destruct Hmain as (He & Hp & Hx).
  split; [exact He |].
  split; [by injection Hp |]. split; [by injection Hp | exact Hx].
Qed.

End Synchronizer.

(** ** The orchestrator *)

Section Orchestrator.

Variable K : Constants.
Variable r : Reconciler.
Variable o : Oracle.

Lemma fetchInstance_found req i s :
  o_getInstance o = None ->
  distributions (cluster s) !! req = Some i ->
  fetchInstance o req s = ((Some i, None), logged (ApiCall VGet KDistribution req) s).
Proof.
  intros Ho Hi. unfold fetchInstance, bind. rewrite clientGet_run, Ho.
  cbn [objects distributionStore]. by rewrite Hi.
Qed.

(** [Reconcile] once the resource has been fetched: synchronize, update the
    status, and decide what to return. *)
Lemma Reconcile_run req i s :
  o_getInstance o = None ->
  distributions (cluster s) !! req = Some i ->
  Reconcile K r o req s
  = let s1 := logged (ApiCall VGet KDistribution req) s in
    let reconcileErr := fst (reconcileResources K r o i s1) in
    let s2 := snd (reconcileResources K r o i s1) in
    let i' := fst (fst (updateStatus K r o i reconcileErr s2)) in
    let statusUpdateErr := snd (fst (updateStatus K r o i reconcileErr s2)) in
    (match statusUpdateErr, reconcileErr with
     | Some _, Some re => (emptyResult, Some re)
     | Some sue, None => (emptyResult, Some sue)
     | None, Some re => (emptyResult, Some re)
     | None, None =>
       if decide (Phase (Status i') = PhaseInitializing)
       then ({| Requeue := false; RequeueAfter := 10 * Second |}, None)
       else (emptyResult, None)
     end, snd (updateStatus K r o i reconcileErr s2)).
Proof.
  intros Ho Hi. unfold Reconcile. unfold bind at 1.
  rewrite (fetchInstance_found req i s Ho Hi). cbn zeta. unfold bind.
  destruct (reconcileResources K r o i _) as [reconcileErr s2]. cbn [fst snd].
  destruct (updateStatus K r o i reconcileErr s2) as [[i' statusUpdateErr] s3].
  cbn [fst snd].
  destruct statusUpdateErr, reconcileErr; try reflexivity.
  destruct (decide _); reflexivity.
Qed.

(** C9. When the resource is not found, the pass returns the empty result and
    no error; its only call is the read that did not find it: nothing is
    synchronized and no status is written. *)
Theorem not_found_is_silent req s :
  o_getInstance o = None ->
  distributions (cluster s) !! req = None ->
  Reconcile K r o req s
  = ((emptyResult, None), logged (ApiCall VGet KDistribution req) s).
Proof.
  intros Ho Hi. unfold Reconcile, fetchInstance, bind. rewrite clientGet_run, Ho.
  cbn [objects distributionStore]. by rewrite Hi.
Qed.

(** The errors of the synchronization name the step that failed. *)
Lemma reconcileResources_error i s e :
  fst (reconcileResources K r o i s) = Some e ->
  exists step cause,
    e = Errorf step cause /\
    In step ["failed to reconcile PVC"; "failed to reconcile NetworkPolicy";
             "failed to reconcile Deployment"; "failed to reconcile service"].
Proof.
  unfold reconcileResources, bind.
  destruct (match Storage (Server (Spec i)) with
            | Some storage => reconcilePVC K o i storage
            | None => ret None
            end s) as [[e1 |] s1].
  { intros [= <-]. eexists _, _. split; [reflexivity |]. cbn; tauto. }
  destruct (reconcileNetworkPolicy K r o i s1) as [[e2 |] s2].
  { intros [= <-]. eexists _, _. split; [reflexivity |]. cbn; tauto. }
  destruct (reconcileDeployment K r o i s2) as [[e3 |] s3].
  { intros [= <-]. eexists _, _. split; [reflexivity |]. cbn; tauto. }
  destruct (HasPorts i); [| discriminate].
  destruct (reconcileService K o i s3) as [[e4 |] s4]; [| discriminate].
  intros [= <-]. eexists _, _. split; [reflexivity |]. cbn; tauto.
Qed.

(** With a synchronization error the evaluation cannot exit early, so the only
    error [updateStatus] can return is that of the write. *)
Lemma updateStatus_error_after_syncError i re s sue :
  snd (fst (updateStatus K r o i (Some re) s)) = Some sue ->
  exists cause, sue = Errorf "failed to update status" cause.
Proof.
  rewrite updateStatus_run.
  destruct (evaluateStatus_syncError K r o i re s) as (i1 & Hev & _).
  rewrite Hev. cbn zeta. cbn [fst snd].
  destruct (fst (statusUpdate o (touchLastUpdated o i1) s)) as [err |]; [| discriminate].
  intros [= <-]. by exists err.
Qed.

(** C7. When both the synchronization and the status update fail, the pass
    returns the synchronization error (and the status-update error is then
    that of the write); the status-update error is returned only when the
    synchronization returned none. *)
Theorem synchronization_error_reported_first req i s :
  o_getInstance o = None ->
  distributions (cluster s) !! req = Some i ->
  let s1 := logged (ApiCall VGet KDistribution req) s in
  let reconcileErr := fst (reconcileResources K r o i s1) in
  let s2 := snd (reconcileResources K r o i s1) in
  let statusUpdateErr := snd (fst (updateStatus K r o i reconcileErr s2)) in
  (forall re sue,
     reconcileErr = Some re -> statusUpdateErr = Some sue ->
     fst (Reconcile K r o req s) = (emptyResult, Some re) /\
     exists cause, sue = Errorf "failed to update status" cause) /\
  (forall sue,
     reconcileErr = None -> statusUpdateErr = Some sue ->
     fst (Reconcile K r o req s) = (emptyResult, Some sue)) /\
  (forall sue,
     statusUpdateErr = Some sue ->
     snd (fst (Reconcile K r o req s)) = Some sue ->
     reconcileErr = None).
Proof.
  intros Ho Hi. cbn zeta. rewrite (Reconcile_run req i s Ho Hi). cbn zeta. cbn [fst snd].
  set (s1 := logged (ApiCall VGet KDistribution req) s).
  split; [| split].
  - intros re sue Hre Hsue. rewrite Hsue, Hre. split; [reflexivity |].
    rewrite Hre in Hsue. by apply updateStatus_error_after_syncError in Hsue.
  - intros sue Hre Hsue. by rewrite Hsue, Hre.
  - intros sue Hsue. rewrite Hsue.
    destruct (fst (reconcileResources K r o i s1)) as [re |] eqn:Hre; [| done].
    cbn [snd]. intros [= ->]. exfalso.
    destruct (reconcileResources_error i s1 sue Hre) as (step & cause & -> & Hin).
    destruct (updateStatus_error_after_syncError i _ _ _ Hsue) as (c & [= -> _]).
    cbn in Hin. destruct Hin as [H | [H | [H | [H | []]]]]; discriminate.
Qed.

(** When the evaluation does not exit early, the write is attempted. *)
Lemma updateStatus_attempts i e s :
  snd (fst (evaluateStatus K r o i e s)) = None ->
  sameResource i (fst (fst (evaluateStatus K r o i e s))) ->
  In (ApiCall VStatusUpdate KDistribution (objKey i))
     (calls (snd (updateStatus K r o i e s))).
Proof.
  intros Hearly Hsame. rewrite updateStatus_run.
  destruct (evaluateStatus K r o i e s) as [[i1 early] s1]. cbn [fst snd] in *.
  subst early. cbn zeta. cbn [snd].
  pose proof (statusUpdate_run o (touchLastUpdated o i1) s1) as (Hc & _).
  cbn zeta in Hc. rewrite Hc. apply in_or_app. right. left.
  destruct Hsame as (En & Ens & _). unfold objKey. cbn. by rewrite En, Ens.
Qed.

Lemma sync_is_no_status_write k c :
  onKind k c = true -> negb (isStatusWrite c) = true.
Proof. destruct c as [[] ? ? | ?]; done. Qed.

(** The synchronization writes no status. *)
Lemma reconcileResources_no_status_write i s :
  extends (fun c => negb (isStatusWrite c)) s (snd (reconcileResources K r o i s)).
Proof.
  destruct (reconcileResources_frame K r o (fun _ => tt)
              (fun c => negb (isStatusWrite c)) i s) as [_ E];
    try (intros; reflexivity); try (intros c; apply sync_is_no_status_write).
  - intros st _. split; [reflexivity |].
    destruct (reconcilePVC_frame K o (fun _ => tt) i st s) as [_ E];
      [intros; reflexivity |].
    eapply extends_weaken; [| exact E]. intros c. apply sync_is_no_status_write.
  - exact E.
Qed.

(** C3, as the code has it.  In a pass that fetched the resource, the status
    write is attempted whenever the synchronization returned an error, and,
    when it returned none, whenever reading the workload for the status did
    not fail; if that read fails (other than by not-found) the pass makes no
    status write at all. *)
Theorem status_write_attempted req i s :
  o_getInstance o = None ->
  distributions (cluster s) !! req = Some i ->
  let s1 := logged (ApiCall VGet KDistribution req) s in
  let reconcileErr := fst (reconcileResources K r o i s1) in
  let s' := snd (Reconcile K r o req s) in
  (reconcileErr <> None \/ o_statusGetDeployment o = None ->
     In (ApiCall VStatusUpdate KDistribution (objKey i)) (calls s')) /\
  (reconcileErr = None -> o_statusGetDeployment o <> None ->
     forallb (fun c => negb (isStatusWrite c)) (since s s') = true).
Proof.
  intros Ho Hi. cbn zeta. rewrite (Reconcile_run req i s Ho Hi). cbn zeta. cbn [snd].
  set (s1 := logged (ApiCall VGet KDistribution req) s).
  split.
  - intros Hc.
    destruct (fst (reconcileResources K r o i s1)) as [re |] eqn:Hre.
    + destruct (evaluateStatus_syncError K r o i re (snd (reconcileResources K r o i s1)))
        as (i1 & Hev & Sm & _).
      apply updateStatus_attempts; by rewrite Hev.
    + destruct Hc as [Hc | Hc]; [done |].
      destruct (evaluateStatus_availableReplicas K r o i
                  (snd (reconcileResources K r o i s1)) Hc) as (Sm & He & _).
      by apply updateStatus_attempts.
  - intros Hre Hf. rewrite Hre.
    destruct (o_statusGetDeployment o) as [msg |] eqn:Hm; [| done].
    rewrite updateStatus_run, (evaluateStatus_fault K r o i _ msg Hm). cbn [snd].
    apply extends_since.
    eapply extends_trans; [apply (extends_logged _ (ApiCall VGet KDistribution req)); done |].
    fold s1.
    eapply extends_trans; [apply reconcileResources_no_status_write |].
    by apply extends_logged.
Qed.

(** What a pass is made of, for the call log: the read of the resource, the
    synchronization, the status update. *)
Lemma Reconcile_state req i s :
  o_getInstance o = None ->
  distributions (cluster s) !! req = Some i ->
  let s1 := logged (ApiCall VGet KDistribution req) s in
  let s2 := snd (reconcileResources K r o i s1) in
  snd (Reconcile K r o req s)
  = snd (updateStatus K r o i (fst (reconcileResources K r o i s1)) s2).
Proof. intros Ho Hi. by rewrite (Reconcile_run req i s Ho Hi). Qed.

Lemma status_is_no_claim_write c :
  isRead c || isProbe c || isStatusWrite c = true -> negb (writesKind KPVC c) = true.
Proof. destruct c as [[] [] ? | ?]; done. Qed.

(** C8. In a pass for a resource whose claim of the deterministic name
    exists, the stored claims are left as they are and no create, update or
    delete call is made on a claim, whatever size the spec now requests.  When
    storage is requested and no claim exists (and neither the owner reference
    nor the lookup fails) the pass calls Create, and when that succeeds the
    claim stored has the requested size, or the default size when the spec
    leaves it unset, and the access mode ReadWriteOnce. *)
Theorem storage_claim_is_immutable req i s :
  o_getInstance o = None ->
  distributions (cluster s) !! req = Some i ->
  let key := (Namespace i, Name i +:+ "-pvc") in
  let s' := snd (Reconcile K r o req s) in
  (forall existing,
     pvcs (cluster s) !! key = Some existing ->
     pvcs (cluster s') = pvcs (cluster s) /\
     forallb (fun c => negb (writesKind KPVC c)) (since s s') = true) /\
  (forall storage,
     Storage (Server (Spec i)) = Some storage ->
     pvcs (cluster s) !! key = None ->
     o_setControllerReference o = None -> o_getPVC o = None ->
     let claim :=
       {| pvc_Name := Name i +:+ "-pvc"; pvc_Namespace := Namespace i;
          pvc_Owner := Some (objKey i);
          pvc_AccessModes := [ReadWriteOnce];
          pvc_Request := match Size storage with
                         | Some q => q
                         | None => DefaultStorageSize K
                         end;
          pvc_Phase := ClaimNoPhase |} in
     In (ApiCall VCreate KPVC key) (calls s') /\
     (o_createPVC o = None ->
      pvcs (cluster s') = <[key := claim]> (pvcs (cluster s)))).
Proof.
  intros Ho Hi. cbn zeta. rewrite (Reconcile_state req i s Ho Hi). cbn zeta.
  set (s1 := logged (ApiCall VGet KDistribution req) s).
  set (s2 := snd (reconcileResources K r o i s1)).
  destruct (updateStatus_frame K r o i (fst (reconcileResources K r o i s1)) s2)
    as (Pu & _ & _ & _ & Eu).
  cbn zeta in Pu, Eu.
  split.
  - intros existing He.
    destruct (reconcileResources_frame K r o pvcs (fun c => negb (writesKind KPVC c)) i s1)
      as [P E]; try (intros; reflexivity);
      try (intros c; by apply onKind_no_write).
    { intros st _. destruct (reconcilePVC_existing K o i st s1 existing He) as [Hc Hx].
      split; [by rewrite Hc |].
      eapply extends_weaken; [| exact Hx]. by intros [[] ? ? | ?]. }
    fold s2 in P, E. split; [by rewrite Pu, P |].
    apply extends_since.
    eapply extends_trans; [apply (extends_logged _ (ApiCall VGet KDistribution req)); done |].
    fold s1. eapply extends_trans; [exact E |].
    eapply extends_weaken; [apply status_is_no_claim_write | exact Eu].
  - intros storage Hst Hn Hsc Hg.
    destruct (reconcileResources_after_storage K r o pvcs (fun _ => true) i s1)
      as [P E]; try (intros; reflexivity).
    cbn zeta in P, E. rewrite Hst in P, E. fold s2 in P, E.
    destruct (reconcilePVC_creates K o i storage s1 Hn Hsc Hg) as [Hc Hok].
    cbn zeta in Hc, Hok.
    split.
    + eapply extends_in; [exact Eu |]. eapply extends_in; [exact E |].
      rewrite Hc. apply in_or_app. right. right. by left.
    + intros Hcr. destruct (Hok Hcr) as [_ Hp]. by rewrite Pu, P, Hp.
Qed.

Lemma beforeWorkload_spares c :
  beforeWorkload c = true -> negb (onKind KDeployment c) && negb (onKind KService c) = true.
Proof. destruct c as [[] [] ? | ?]; done. Qed.

(** C6, as the code has it.  In a pass for a resource whose distribution
    reference is neither a known name nor an explicit image, the
    synchronization fails and its error is what the pass returns; the phase
    computed is Failed, and is the one stored when the status write succeeds;
    the workload and the endpoint are neither created nor changed, and no call
    is made on them.  The storage claim and the ingress policy are
    synchronized before the reference is validated: calls on them are made. *)
Theorem unresolvable_distribution_fails_pass req i s :
  o_getInstance o = None ->
  distributions (cluster s) !! req = Some i ->
  unresolvable r (Distribution (Server (Spec i))) ->
  let out := Reconcile K r o req s in
  let s1 := logged (ApiCall VGet KDistribution req) s in
  let reconcileErr := fst (reconcileResources K r o i s1) in
  let s2 := snd (reconcileResources K r o i s1) in
  (exists e, reconcileErr = Some e /\ fst out = (emptyResult, Some e)) /\
  Phase (Status (fst (fst (updateStatus K r o i reconcileErr s2)))) = PhaseFailed /\
  (forall j s3,
     updateStatus K r o i reconcileErr s2 = ((j, None), s3) ->
     exists stored,
       distributions (cluster s3) !! objKey i = Some stored /\
       Phase (Status stored) = PhaseFailed) /\
  deployments (cluster (snd out)) = deployments (cluster s) /\
  services (cluster (snd out)) = services (cluster s) /\
  forallb (fun c => negb (onKind KDeployment c) && negb (onKind KService c))
    (since s (snd out)) = true.
Proof.
  intros Ho Hi Hu. cbn zeta.
  rewrite (Reconcile_run req i s Ho Hi). cbn zeta. cbn [fst snd].
  set (s1 := logged (ApiCall VGet KDistribution req) s).
  destruct (reconcileResources_unresolvable K r o i s1 Hu) as ((e & He) & Hd & Hs & Hx).
  cbn zeta in *. rewrite He.
  set (s2 := snd (reconcileResources K r o i s1)) in *.
  assert (HP : Phase (Status (fst (fst (updateStatus K r o i (Some e) s2)))) = PhaseFailed).
  { rewrite updateStatus_phase.
    destruct (evaluateStatus_syncError K r o i e s2) as (i' & Hev & _ & P & _).
    by rewrite Hev. }
  destruct (updateStatus_frame K r o i (Some e) s2) as (_ & Du & Su & _ & _).
  cbn zeta in Du, Su.
  split.
  { exists e. split; [reflexivity |].
    by destruct (snd (fst (updateStatus K r o i (Some e) s2))). }
  split; [exact HP |].
  split.
  { intros j s3 Hup.
    destruct (updateStatus_stored K r o i (Some e) s2 j s3 Hup) as (stored & Hst & Hs').
    destruct (evaluateStatus_syncError K r o i e s2) as (i' & Hev & Sm & _).
    assert (Sm' : sameResource i (fst (fst (evaluateStatus K r o i (Some e) s2))))
      by (by rewrite Hev).
    pose proof (updateStatus_sameResource K r o i (Some e) s2 Sm') as Hk.
    rewrite Hup in HP, Hk. cbn [fst] in HP, Hk.
    exists stored. split; [by rewrite <- Hk | by rewrite Hs']. }
  split; [by rewrite Du, Hd |].
  split; [by rewrite Su, Hs |].
  unfold since. rewrite updateStatus_syncError_calls.
  destruct Hx as (extra & Hc & Hf). rewrite Hc. unfold s1, logged. cbn [calls].
  rewrite <- !app_assoc, drop_app_length, !forallb_app. cbn.
  rewrite andb_true_r.
  rewrite forallb_forall in *. intros c Hin. apply beforeWorkload_spares. auto.
Qed.

(** C10. With no synchronization error, a workload that exists, zero desired
    replicas and zero ready replicas, the computed phase is Initializing, not
    Ready; and when the status update succeeds the pass asks to be run again
    after ten seconds. *)
Theorem scaled_to_zero_never_ready req i s d :
  o_getInstance o = None ->
  distributions (cluster s) !! req = Some i ->
  Replicas (Spec i) = 0 ->
  let s1 := logged (ApiCall VGet KDistribution req) s in
  fst (reconcileResources K r o i s1) = None ->
  let s2 := snd (reconcileResources K r o i s1) in
  o_statusGetDeployment o = None ->
  deployments (cluster s2) !! (Namespace i, Name i) = Some d ->
  dep_ReadyReplicas d = 0 ->
  let i' := fst (fst (updateStatus K r o i None s2)) in
  Phase (Status i') = PhaseInitializing /\
  Phase (Status i') <> PhaseReady /\
  (snd (fst (updateStatus K r o i None s2)) = None ->
   fst (Reconcile K r o req s)
   = ({| Requeue := false; RequeueAfter := 10 * Second |}, None)).
Proof.
  intros Ho Hi Hz. cbn zeta. intros Hre Hf Hd Hr0.
  pose proof (updateStatus_replicas K r o i _ d Hf Hd) as (S0 & _).
  cbn zeta in S0. destruct (S0 Hr0) as [P _].
  split; [exact P |]. split; [by rewrite P |].
  intros Hok. rewrite (Reconcile_run req i s Ho Hi). cbn zeta. cbn [fst].
  rewrite Hre, Hok, P. by rewrite decide_True.
Qed.

End Orchestrator.

(** * The statements on concrete passes *)

Import Scenario.

(** Three of three replicas ready, health answers 503, the listing answers a
    provider: the list is stored all the same. *)
Lemma provider_list_follows_listing_witness :
  o_statusGetDeployment unhealthy = None /\
  workloadReady three (cluster (running 3)) = true /\
  Providers (DistConfig (Status
    (fst (fst (updateStatus constants reconciler unhealthy three None (running 3))))))
  = someProviders.
Proof.
  split; [reflexivity |]. split; [reflexivity |].
  destruct (provider_list_follows_listing constants reconciler unhealthy three (running 3)
              eq_refl) as (_ & H & _).
  rewrite H by reflexivity. reflexivity.
Defined.

(** The claim of C1 fails twice over.  First pass: the workload is ready, the
    health probe answers 503, the listing succeeds; the stored phase is
    Failed, the health condition is false, and the provider list is not
    empty.  Second and third pass: after a pass in which all went well, a pass
    whose synchronization fails (the claim cannot be read) sends no probe and
    stores Failed with the provider list of the pass before. *)
Lemma provider_list_without_health :
  (let s' := snd (Reconcile constants reconciler unhealthy req (running 3)) in
   option_map (fun i => (Phase (Status i),
                         option_map cond_Status (conditionOf HealthCheck i),
                         Providers (DistConfig (Status i)))) (stored s')
   = Some (PhaseFailed, Some false, someProviders)) /\
  (let s1 := snd (Reconcile constants reconciler allWell req (runningWithStorage 3)) in
   let s2 := snd (Reconcile constants reconciler syncFails req s1) in
   fst (Reconcile constants reconciler syncFails req s1)
   = (emptyResult,
      Some (Errorf "failed to reconcile PVC"
              (Errorf "failed to fetch PVC" (ApiFailure "etcdserver: request timed out")))) /\
   since s1 s2
   = [ApiCall VGet KDistribution req;
      ApiCall VGet KPVC ("default", "demo-pvc");
      ApiCall VStatusUpdate KDistribution req] /\
   option_map (fun i => (Phase (Status i), Providers (DistConfig (Status i)))) (stored s2)
   = Some (PhaseFailed, someProviders)).
Proof. vm_compute. repeat split. Qed.

(** Status update after an unhealthy probe: Failed, and three replicas. *)
Lemma available_replicas_reflect_workload_witness :
  let out := updateStatus constants reconciler unhealthy three None (running 3) in
  Phase (Status (fst (fst out))) = PhaseFailed /\
  AvailableReplicas (Status (fst (fst out))) = 3 /\
  exists stored',
    distributions (cluster (snd out)) !! objKey three = Some stored' /\
    AvailableReplicas (Status stored') = 3.
Proof.
  cbn zeta.
  set (out := updateStatus constants reconciler unhealthy three None (running 3)).
  assert (H : out = ((fst (fst out), None), snd out)) by (vm_compute; reflexivity).
  destruct (proj1 (available_replicas_reflect_workload constants reconciler unhealthy
                     three (running 3)) _ _ H) as (A & stored' & Hs & As).
  split; [vm_compute; reflexivity |].
  split; [exact A |]. exists stored'. split; [exact Hs | exact As].
Defined.

(** The claim of C2 fails.  Three of three replicas are ready throughout.  A
    first pass reads the workload, computes 3, and its status write is
    refused; a second pass fails to synchronize (the claim cannot be read) and
    writes its status: Failed, with availableReplicas 0, while the workload
    has 3 ready replicas. *)
Lemma available_replicas_stale :
  let s0 := runningWithStorage 3 in
  let s1 := snd (Reconcile constants reconciler writeConflicts req s0) in
  let s2 := snd (Reconcile constants reconciler syncFails req s1) in
  AvailableReplicas (Status
    (fst (fst (updateStatus constants reconciler writeConflicts resized None
                 (snd (reconcileResources constants reconciler writeConflicts resized
                         (logged (ApiCall VGet KDistribution req) s0))))))) = 3 /\
  fst (Reconcile constants reconciler writeConflicts req s0)
  = (emptyResult,
     Some (Errorf "failed to update status" (ApiFailure "the object has been modified"))) /\
  since s1 s2
  = [ApiCall VGet KDistribution req;
     ApiCall VGet KPVC ("default", "demo-pvc");
     ApiCall VStatusUpdate KDistribution req] /\
  option_map dep_ReadyReplicas (deployments (cluster s2) !! req) = Some 3 /\
  option_map (fun i => (Phase (Status i), AvailableReplicas (Status i))) (stored s2)
  = Some (PhaseFailed, 0).
Proof. vm_compute. repeat split. Qed.

(** A pass whose synchronization fails still writes the status. *)
Lemma status_write_attempted_witness :
  o_getInstance syncFails = None /\
  distributions (cluster (runningWithStorage 3)) !! req = Some resized /\
  fst (reconcileResources constants reconciler syncFails resized
         (logged (ApiCall VGet KDistribution req) (runningWithStorage 3))) <> None /\
  In (ApiCall VStatusUpdate KDistribution req)
     (calls (snd (Reconcile constants reconciler syncFails req (runningWithStorage 3)))).
Proof.
  split; [reflexivity |]. split; [reflexivity |].
  assert (H : fst (reconcileResources constants reconciler syncFails resized
                     (logged (ApiCall VGet KDistribution req) (runningWithStorage 3)))
              <> None)
    by (vm_compute; discriminate).
  split; [exact H |].
  exact (proj1 (status_write_attempted constants reconciler syncFails req resized
                  (runningWithStorage 3) eq_refl eq_refl) (or_introl H)).
Defined.

(** The claim of C3 fails.  The resource exists and the synchronization
    succeeds, but the workload cannot be read for the status: the pass returns
    that error and has made no status write. *)
Lemma status_write_skipped :
  let out := Reconcile constants reconciler workloadUnreadable req (running 3) in
  stored (running 3) = Some three /\
  fst (reconcileResources constants reconciler workloadUnreadable three
         (logged (ApiCall VGet KDistribution req) (running 3))) = None /\
  fst out = (emptyResult,
             Some (Errorf "failed to fetch deployment for status"
                     (ApiFailure "etcdserver: request timed out"))) /\
  existsb isStatusWrite (calls (snd out)) = false /\
  stored (snd out) = Some three.
Proof. vm_compute. repeat split. Qed.

(** Two of three replicas ready: Initializing, "2/3". *)
Lemma replica_cases_in_order_witness :
  let i' := fst (fst (updateStatus constants reconciler allWell three None (running 2))) in
  Phase (Status i') = PhaseInitializing /\
  conditionOf DeploymentReady i'
  = Some (mkCondition constants DeploymentReady false
            "Deployment is scaling: 2/3 replicas ready").
Proof.
  exact (proj1 (proj2 (replica_cases_in_order constants reconciler allWell three (running 2)
                         (workload 3 2) eq_refl eq_refl)) eq_refl eq_refl).
Defined.

(** Three of three replicas ready and a server that cannot be reached:
    Initializing. *)
Lemma health_probe_decides_phase_witness :
  exists msg,
    let i' := fst (fst (updateStatus constants reconciler unreachable three None (running 3))) in
    Phase (Status i') = PhaseInitializing /\
    conditionOf HealthCheck i' = Some (mkCondition constants HealthCheck false msg).
Proof.
  exact (proj1 (health_probe_decides_phase constants reconciler unreachable three (running 3)
                  eq_refl eq_refl)
           (ErrorsNew "context deadline exceeded") (or_intror eq_refl)).
Defined.

(** The reference "nope" is unknown: the pass fails and the workload is not
    created. *)
Lemma unresolvable_distribution_fails_pass_witness :
  unresolvable reconciler (Distribution (Server (Spec unknown))) /\
  let out := Reconcile constants reconciler allWell req (start (clusterOf unknown None None)) in
  (exists e, fst out = (emptyResult, Some e)) /\
  deployments (cluster (snd out)) = ∅ /\
  services (cluster (snd out)) = ∅.
Proof.
  assert (Hu : unresolvable reconciler (Distribution (Server (Spec unknown))))
    by (split; [reflexivity | right; vm_compute; reflexivity]).
  split; [exact Hu |].
  destruct (unresolvable_distribution_fails_pass constants reconciler allWell req unknown
              (start (clusterOf unknown None None)) eq_refl eq_refl Hu)
    as ((e & _ & He) & _ & _ & Hd & Hs & _).
  split; [by exists e |]. split; [exact Hd | exact Hs].
Defined.

(** The claim of C6 fails.  The reference "nope" is unknown and storage is
    requested: the pass ends Failed, and it has created the storage claim. *)
Lemma claim_created_before_validation :
  let s0 := start (clusterOf unknown None None) in
  let s' := snd (Reconcile constants reconciler allWell req s0) in
  dist_Image (Distribution (Server (Spec unknown))) = "" /\
  DistributionImages reconciler !! dist_Name (Distribution (Server (Spec unknown))) = None /\
  pvcs (cluster s0) !! ("default", "demo-pvc") = None /\
  option_map pvc_Request (pvcs (cluster s') !! ("default", "demo-pvc")) = Some "10Gi" /\
  calls s'
  = [ApiCall VGet KDistribution req;
     ApiCall VGet KPVC ("default", "demo-pvc");
     ApiCall VCreate KPVC ("default", "demo-pvc");
     ApiCall VGet KNetworkPolicy ("default", "demo-network-policy");
     ApiCall VStatusUpdate KDistribution req] /\
  option_map (fun i => Phase (Status i)) (stored s') = Some PhaseFailed.
Proof. vm_compute. repeat split. Qed.

(** The synchronization and the status write both fail: the error of the
    synchronization is returned. *)
Lemma synchronization_error_reported_first_witness :
  fst (Reconcile constants reconciler bothFail req (runningWithStorage 3))
  = (emptyResult,
     Some (Errorf "failed to reconcile PVC"
             (Errorf "failed to fetch PVC" (ApiFailure "etcdserver: request timed out")))).
Proof.
  refine (proj1 (proj1 (synchronization_error_reported_first constants reconciler bothFail
                          req resized (runningWithStorage 3) eq_refl eq_refl) _ _ _ _));
    vm_compute; reflexivity.
Defined.

(** A claim of 5Gi exists and the spec now asks for 20Gi: the claim stays.
    No claim exists and the spec leaves the size unset: a claim of the default
    size is created. *)
Lemma storage_claim_is_immutable_witness :
  (let s0 := start (clusterOf resized None (Some (claim "5Gi"))) in
   let s' := snd (Reconcile constants reconciler allWell req s0) in
   pvcs (cluster s') = pvcs (cluster s0) /\
   forallb (fun c => negb (writesKind KPVC c)) (since s0 s') = true) /\
  (let s0 := start (clusterOf unsized None None) in
   let s' := snd (Reconcile constants reconciler allWell req s0) in
   option_map (fun c => (pvc_Request c, pvc_AccessModes c))
     (pvcs (cluster s') !! ("default", "demo-pvc"))
   = Some ("10Gi", [ReadWriteOnce])).
Proof.
  split.
  - exact (proj1 (storage_claim_is_immutable constants reconciler allWell req resized
                    (start (clusterOf resized None (Some (claim "5Gi")))) eq_refl eq_refl)
             (claim "5Gi") eq_refl).
  - destruct (proj2 (storage_claim_is_immutable constants reconciler allWell req unsized
                       (start (clusterOf unsized None None)) eq_refl eq_refl)
                {| Size := None; MountPath := "/data" |} eq_refl eq_refl eq_refl eq_refl)
      as (_ & H).
    cbn zeta. cbn zeta in H. rewrite (H eq_refl). vm_compute. reflexivity.
Defined.

(** Nothing is stored under the requested name. *)
Lemma not_found_is_silent_witness :
  Reconcile constants reconciler allWell req (start emptyCluster)
  = ((emptyResult, None), logged (ApiCall VGet KDistribution req) (start emptyCluster)).
Proof.
  exact (not_found_is_silent constants reconciler allWell req (start emptyCluster)
           eq_refl eq_refl).
Defined.

(** Zero desired, zero ready: Initializing, and run again in ten seconds. *)
Lemma scaled_to_zero_never_ready_witness :
  let s0 := start (clusterOf zero (Some (workload 0 0)) None) in
  fst (Reconcile constants reconciler allWell req s0)
  = ({| Requeue := false; RequeueAfter := 10 * Second |}, None).
Proof.
  refine (proj2 (proj2 (scaled_to_zero_never_ready constants reconciler allWell req zero
                          (start (clusterOf zero (Some (workload 0 0)) None))
                          (workload 0 0) eq_refl eq_refl eq_refl _ eq_refl _ eq_refl)) _);
    vm_compute; reflexivity.
Defined.

(** * Further properties of the pass *)

Section Pass.

Variable K : Constants.
Variable r : Reconciler.
Variable o : Oracle.

(** ** Fetching *)

(** X1. When the read of the resource fails other than by not-found, the pass
    returns that error, wrapped, with the empty result; the read is its only
    call, so nothing is synchronized and no status is written, whether or not
    the resource is stored. *)
Theorem fetch_failure_is_returned req s msg :
  o_getInstance o = Some msg ->
  Reconcile K r o req s
  = ((emptyResult,
      Some (Errorf "failed to fetch LlamaStackDistribution" (ApiFailure msg))),
     logged (ApiCall VGet KDistribution req) s).
Proof.
  intros Ho. unfold Reconcile, fetchInstance, bind. rewrite clientGet_run, Ho. reflexivity.
Qed.

(** ** The steps of the synchronization *)

(** X2. The first step of the synchronization that fails ends it.  An error
    of the storage step leaves only calls on the claim behind; an error of the
    ingress-policy step, only calls on the claim and the policy; an error of
    the workload step, no call on the endpoint.  The resources of the steps
    not reached are as they were. *)
Theorem first_failure_ends_synchronization i s :
  let out := reconcileResources K r o i s in
  (forall cause,
     fst out = Some (Errorf "failed to reconcile PVC" cause) ->
     forallb (onKind KPVC) (since s (snd out)) = true /\
     networkPolicies (cluster (snd out)) = networkPolicies (cluster s) /\
     deployments (cluster (snd out)) = deployments (cluster s) /\
     services (cluster (snd out)) = services (cluster s)) /\
  (forall cause,
     fst out = Some (Errorf "failed to reconcile NetworkPolicy" cause) ->
     forallb beforeWorkload (since s (snd out)) = true /\
     deployments (cluster (snd out)) = deployments (cluster s) /\
     services (cluster (snd out)) = services (cluster s)) /\
  (forall cause,
     fst out = Some (Errorf "failed to reconcile Deployment" cause) ->
     forallb (fun c => negb (onKind KService c)) (since s (snd out)) = true /\
     services (cluster (snd out)) = services (cluster s)).
Proof.
  cbn zeta. unfold reconcileResources, bind.
  set (all := fun c : Cluster => (networkPolicies c, deployments c, services c)).
  assert (H1 : all (cluster (snd (match Storage (Server (Spec i)) with
                                  | Some storage => reconcilePVC K o i storage
                                  | None => ret None
                                  end s))) = all (cluster s) /\
               extends (onKind KPVC) s
                 (snd (match Storage (Server (Spec i)) with
                       | Some storage => reconcilePVC K o i storage
                       | None => ret None
                       end s))).
  { destruct (Storage (Server (Spec i))) as [st |].
    - by apply reconcilePVC_frame.
    - unchanged. }
  destruct (match Storage (Server (Spec i)) with
            | Some storage => reconcilePVC K o i storage
            | None => ret None
            end s) as [pvcErr s1].
  cbn [fst snd] in H1. destruct H1 as [P1 E1].
  destruct pvcErr as [e1 |].
  { cbn [fst snd ret]. split; [| split; intros cause [=]].
    intros cause _. split; [by apply extends_since |].
    injection P1 as -> -> ->. by repeat split. }
  set (rest := fun c : Cluster => (deployments c, services c)).
  destruct (reconcileNetworkPolicy_frame K r o rest i s1) as [P2 E2]; [reflexivity |].
  destruct (reconcileNetworkPolicy K r o i s1) as [npErr s2]. cbn [fst snd] in *.
  assert (E2' : extends beforeWorkload s s2).
  { eapply extends_trans.
    - eapply extends_weaken; [| exact E1]. intros c Hc. unfold beforeWorkload. by rewrite Hc.
    - eapply extends_weaken; [| exact E2].
      intros c Hc. unfold beforeWorkload. rewrite Hc. apply orb_true_r. }
  destruct npErr as [e2 |].
  { cbn [fst snd ret]. split; [intros cause [=] |]. split; [| intros cause [=]].
    intros cause _. split; [by apply extends_since |].
    injection P1 as _ P1d P1s. injection P2 as P2d P2s. split; congruence. }
  destruct (reconcileDeployment_frame K r o services i s2) as [P3 E3]; [reflexivity |].
  destruct (reconcileDeployment K r o i s2) as [depErr s3]. cbn [fst snd] in *.
  destruct depErr as [e3 |].
  { cbn [fst snd ret]. split; [intros cause [=] |]. split; [intros cause [=] |].
    intros cause _. split.
    - apply extends_since. eapply extends_trans.
      + eapply extends_weaken; [| exact E2']. by intros [[] [] ? | ?].
      + eapply extends_weaken; [| exact E3]. by intros [[] [] ? | ?].
    - injection P1 as _ _ P1s. injection P2 as _ P2s. congruence. }
  destruct (HasPorts i).
  - destruct (reconcileService K o i s3) as [[e4 |] s4]; cbn [fst snd ret];
      (split; [intros cause [=] |]; split; intros cause [=]).
  - cbn [fst snd ret]. split; [intros cause [=] |]; split; intros cause [=].
Qed.

(** ** The storage step *)

(** X3. The four ways [reconcilePVC] ends other than by creating the claim.
    A failing owner reference: the error, and no call.  A failing lookup: the
    error "failed to fetch PVC", after the lookup alone.  A claim that exists:
    success, after the lookup alone.  No claim and a failing Create: the error
    of Create as it is, unwrapped, after the lookup and the Create.  In all
    four the store is left as it was. *)
Theorem reconcilePVC_outcomes i storage s :
  let key := (Namespace i, Name i +:+ "-pvc") in
  let get := ApiCall VGet KPVC key in
  let create := ApiCall VCreate KPVC key in
  (forall e, o_setControllerReference o = Some e ->
     reconcilePVC K o i storage s
     = (Some (Errorf "failed to set controller reference" e), s)) /\
  (forall msg, o_setControllerReference o = None -> o_getPVC o = Some msg ->
     reconcilePVC K o i storage s
     = (Some (Errorf "failed to fetch PVC" (ApiFailure msg)), logged get s)) /\
  (forall existing,
     o_setControllerReference o = None -> o_getPVC o = None ->
     pvcs (cluster s) !! key = Some existing ->
     reconcilePVC K o i storage s = (None, logged get s)) /\
  (forall msg,
     o_setControllerReference o = None -> o_getPVC o = None ->
     pvcs (cluster s) !! key = None -> o_createPVC o = Some msg ->
     reconcilePVC K o i storage s
     = (Some (ApiFailure msg), logged create (logged get s))).
Proof.
  cbn zeta. unfold reconcilePVC, SetControllerReference. repeat split.
  - intros e ->. reflexivity.
  - intros msg -> Hg. cbn zeta. unfold bind. rewrite clientGet_run, Hg. reflexivity.
  - intros existing -> Hg He. cbn zeta. unfold bind. rewrite clientGet_run, Hg.
    cbn [pvc_Namespace pvc_Name objects pvcStore kindOf]. by rewrite He.
  - intros msg -> Hg Hn Hc. cbn zeta. unfold bind. rewrite clientGet_run, Hg.
    cbn [pvc_Namespace pvc_Name objects pvcStore kindOf]. rewrite Hn. cbn [IsNotFound].
    unfold clientCreate, bind, record, readCluster. rewrite Hc. reflexivity.
Qed.

(** X4. [reconcilePVC] never updates or deletes: whatever the store and the
    oracle, the calls it makes are none, the lookup, or the lookup followed by
    one Create, all on the claim of the deterministic name. *)
Theorem reconcilePVC_only_looks_up_and_creates i storage s :
  let key := (Namespace i, Name i +:+ "-pvc") in
  let made := since s (snd (reconcilePVC K o i storage s)) in
  made = [] \/ made = [ApiCall VGet KPVC key]
  \/ made = [ApiCall VGet KPVC key; ApiCall VCreate KPVC key].
Proof.
  cbn zeta. unfold reconcilePVC, since.
  destruct (SetControllerReference o i) as [owner | e]; cbn zeta.
  2: { left. cbn [snd ret]. by rewrite drop_all. }
  unfold bind. rewrite clientGet_run.
  cbn [pvc_Namespace pvc_Name objects pvcStore kindOf].
  destruct (o_getPVC o) as [msg |]; cbn [IsNotFound].
  { right; left. cbn [snd ret logged calls]. by rewrite drop_app_length. }
  destruct (pvcs (cluster s) !! (Namespace i, Name i +:+ "-pvc")); cbn [IsNotFound].
  { right; left. cbn [snd ret logged calls]. by rewrite drop_app_length. }
  right; right. unfold clientCreate, bind, record, readCluster, writeCluster, logged.
  cbn [cluster calls objects pvcStore kindOf].
  destruct (o_createPVC o); [| destruct (pvcs (cluster s) !! _)];
    cbn [snd calls ret]; rewrite <- app_assoc; by rewrite drop_app_length.
Qed.

(** X5. The storage step is idempotent.  After a run of [reconcilePVC] that
    returned no error the claim exists, so a second run, whatever the oracle
    answers then and whatever size is then requested, leaves the store as it
    is and makes no call other than reads. *)
Theorem reconcilePVC_twice i storage s o2 storage2 :
  fst (reconcilePVC K o i storage s) = None ->
  let s1 := snd (reconcilePVC K o i storage s) in
  let s2 := snd (reconcilePVC K o2 i storage2 s1) in
  is_Some (pvcs (cluster s1) !! (Namespace i, Name i +:+ "-pvc")) /\
  cluster s2 = cluster s1 /\
  forallb isRead (since s1 s2) = true.
Proof.
  intros Hok. cbn zeta.
  assert (Hex : is_Some (pvcs (cluster (snd (reconcilePVC K o i storage s)))
                           !! (Namespace i, Name i +:+ "-pvc"))).
  { revert Hok. unfold reconcilePVC.
    destruct (SetControllerReference o i) as [owner | e]; [| discriminate].
    cbn zeta. unfold bind. rewrite clientGet_run.
    cbn [pvc_Namespace pvc_Name objects pvcStore kindOf].
    destruct (o_getPVC o) as [msg |]; cbn [IsNotFound]; [discriminate |].
    destruct (pvcs (cluster s) !! (Namespace i, Name i +:+ "-pvc")) as [c |] eqn:Hc;
      cbn [IsNotFound].
    { intros _. cbn [snd ret logged cluster]. by rewrite Hc. }
    unfold clientCreate, bind, record, readCluster, writeCluster, logged.
    cbn [cluster calls objects pvcStore kindOf]. rewrite Hc.
    destruct (o_createPVC o); [discriminate |]. intros _.
    cbn [snd ret cluster setObjects pvcStore pvcs]. rewrite lookup_insert_eq. by eexists. }
  split; [exact Hex |].
  destruct Hex as [c Hc].
  destruct (reconcilePVC_existing K o2 i storage2 _ c Hc) as [Hcl Hx].
  split; [exact Hcl | by apply extends_since].
Qed.

(** ** What the pass returns *)

(** X6. For a resource that was fetched, the pass asks to be run again, after
    ten seconds, exactly when the synchronization and the status update both
    returned no error and the phase computed is Initializing; in every other
    case the result is empty, and whenever an error is returned the result is
    empty. *)
Theorem requeue_exactly_when_initializing req i s :
  o_getInstance o = None ->
  distributions (cluster s) !! req = Some i ->
  let s1 := logged (ApiCall VGet KDistribution req) s in
  let reconcileErr := fst (reconcileResources K r o i s1) in
  let s2 := snd (reconcileResources K r o i s1) in
  let i' := fst (fst (updateStatus K r o i reconcileErr s2)) in
  let statusUpdateErr := snd (fst (updateStatus K r o i reconcileErr s2)) in
  let result := fst (fst (Reconcile K r o req s)) in
  (result = {| Requeue := false; RequeueAfter := 10 * Second |}
   <-> reconcileErr = None /\ statusUpdateErr = None /\
       Phase (Status i') = PhaseInitializing) /\
  (result <> {| Requeue := false; RequeueAfter := 10 * Second |} -> result = emptyResult) /\
  (snd (fst (Reconcile K r o req s)) <> None -> result = emptyResult).
Proof.
  intros Ho Hi. cbn zeta. rewrite (Reconcile_run K r o req i s Ho Hi). cbn zeta. cbn [fst snd].
  destruct (snd (fst (updateStatus K r o i _ _))) as [sue |];
    destruct (fst (reconcileResources K r o i _)) as [re |]; cbn [fst snd];
    try (split; [split; [discriminate | intros (? & ? & ?); discriminate] | by split]).
  destruct (decide _) as [E | N]; cbn [fst snd].
  - split; [by split | split; [by intros [] | done]].
  - split; [split; [discriminate | intros (_ & _ & ?); done] | by split].
Qed.

End Pass.

(** * Further properties of the status *)

Section Status.

Variable K : Constants.
Variable r : Reconciler.
Variable o : Oracle.

(** The evaluation without synchronization error, step by step: the instance
    and the state after each of the reads, then the branch on readiness. *)
Lemma evaluateStatus_steps i s :
  o_statusGetDeployment o = None ->
  let i1 := fst (fst (fst (updateDeploymentStatus K o (initOperatorVersion o i) s))) in
  let s1 := logged (ApiCall VGet KDeployment (Namespace i, Name i)) s in
  let i2 := fst (updateStorageStatus K o i1 s1) in
  let s2 := snd (updateStorageStatus K o i1 s1) in
  let i3 := fst (updateServiceStatus K o i2 s2) in
  let s3 := snd (updateServiceStatus K o i2 s2) in
  let i4 := updateDistributionConfig r i3 in
  evaluateStatus K r o i None s
  = if workloadReady i (cluster s) then
      ((fst (performHealthChecks K o i4 s3), None), snd (performHealthChecks K o i4 s3))
    else
      ((mapStatus (fun st =>
          setProviders [] (SetHealthCheckCondition K false "Deployment not ready" st)) i4,
        None), s3).
Proof.
  intros H. cbn zeta.
  destruct (initOperatorVersion_frame o i) as (S0 & _).
  destruct (updateDeploymentStatus_observes K o (initOperatorVersion o i) s H)
    as (i1 & E1 & _).
  pose proof (updateDeploymentStatus_state K o (initOperatorVersion o i) s) as St1.
  unfold evaluateStatus, bind.
  destruct (updateDeploymentStatus K o (initOperatorVersion o i) s) as [[[x y] z] s1].
  cbn [fst snd] in *. injection E1 as -> -> ->. subst s1.
  rewrite (workloadReady_same i _ (cluster s) S0).
  destruct S0 as (-> & -> & _).
  destruct (updateStorageStatus K o i1 _) as [i2 s2]. cbn [fst snd].
  destruct (updateServiceStatus K o i2 s2) as [i3 s3]. cbn [fst snd].
  destruct (workloadReady i (cluster s)); [| reflexivity].
  destruct (performHealthChecks K o _ s3). reflexivity.
Qed.

(** The probes move the phase, the health condition and the provider list,
    and nothing else of the status. *)
Lemma performHealthChecks_keeps i s :
  let j := fst (performHealthChecks K o i s) in
  Version (Status j) = Version (Status i) /\
  ActiveDistribution (DistConfig (Status j)) = ActiveDistribution (DistConfig (Status i)) /\
  AvailableDistributions (DistConfig (Status j))
  = AvailableDistributions (DistConfig (Status i)).
Proof.
  cbn zeta. unfold performHealthChecks, bind.
  destruct (checkHealth K o i s) as [[healthy [e |]] s1]; [| destruct healthy];
    cbn [negb];
    match goal with |- context [getProviderInfo K o ?j s1] =>
      destruct (getProviderInfo K o j s1) as [[ps | e'] s2] end;
    repeat split.
Qed.

(** What reading the workload does to the version fields. *)
Lemma updateDeploymentStatus_version i s :
  o_statusGetDeployment o = None ->
  let i' := fst (fst (fst (updateDeploymentStatus K o i s))) in
  OperatorVersion (Version (Status i')) = OperatorVersion (Version (Status i)) /\
  LastUpdated (Version (Status i')) = LastUpdated (Version (Status i)) /\
  LlamaStackVersion (Version (Status i'))
  = if workloadReady i (cluster s) then
      if decide (LlamaStackVersion (Version (Status i)) = "")
      then o_LLAMA_STACK_VERSION o else LlamaStackVersion (Version (Status i))
    else LlamaStackVersion (Version (Status i)).
Proof.
  intros H. cbn zeta. unfold updateDeploymentStatus, bind, workloadReady.
  rewrite clientGet_run, H. cbn [objects deploymentStore].
  destruct (deployments (cluster s) !! (Namespace i, Name i)) as [d |];
    cbn -[Z.eqb Z.ltb Z.gtb setCondition]; [| by repeat split].
  destruct (dep_ReadyReplicas d =? 0)%Z eqn:E0; cbn -[Z.eqb Z.ltb Z.gtb setCondition];
    [by repeat split |].
  destruct (dep_ReadyReplicas d <? Replicas (Spec i))%Z eqn:E1.
  { replace (dep_ReadyReplicas d =? Replicas (Spec i))%Z with false
      by (symmetry; apply Z.eqb_neq; apply Z.ltb_lt in E1; lia).
    by repeat split. }
  destruct (dep_ReadyReplicas d >? Replicas (Spec i))%Z eqn:E2.
  { replace (dep_ReadyReplicas d =? Replicas (Spec i))%Z with false
      by (symmetry; apply Z.eqb_neq; apply Z.gtb_lt in E2; lia).
    by repeat split. }
  replace (dep_ReadyReplicas d =? Replicas (Spec i))%Z with true
    by (symmetry; apply Z.eqb_eq; apply Z.ltb_ge in E1;
        rewrite Z.gtb_ltb in E2; apply Z.ltb_ge in E2; lia).
  cbn. destruct (decide _); by repeat split.
Qed.

(** The instance the evaluation reads the workload for is the one fetched, up
    to the operator version. *)
Lemma workload_step_same i s :
  o_statusGetDeployment o = None ->
  let i1 := fst (fst (fst (updateDeploymentStatus K o (initOperatorVersion o i) s))) in
  sameResource i i1 /\
  (forall b, b <> DeploymentReady -> conditionOf b i1 = conditionOf b i).
Proof.
  intros H. cbn zeta.
  destruct (initOperatorVersion_frame o i) as (S0 & _ & _ & _ & C0).
  destruct (updateDeploymentStatus_observes K o (initOperatorVersion o i) s H)
    as (i1 & E1 & S1 & _ & _ & C1).
  rewrite E1. cbn [fst]. split; [eauto using sameResource_trans |].
  intros b Hb. rewrite (C1 b Hb). unfold conditionOf. by rewrite C0.
Qed.

(** After the read of the claim, only the endpoint and the health conditions
    are still set. *)
Lemma evaluateStatus_condition_after_storage i s a :
  o_statusGetDeployment o = None ->
  a <> ServiceReady -> a <> HealthCheck ->
  let i1 := fst (fst (fst (updateDeploymentStatus K o (initOperatorVersion o i) s))) in
  let s1 := logged (ApiCall VGet KDeployment (Namespace i, Name i)) s in
  conditionOf a (fst (fst (evaluateStatus K r o i None s)))
  = conditionOf a (fst (updateStorageStatus K o i1 s1)).
Proof.
  intros H Hs Hh. cbn zeta. rewrite (evaluateStatus_steps i s H). cbn zeta.
  set (i1 := fst (fst (fst (updateDeploymentStatus K o (initOperatorVersion o i) s)))).
  set (s1 := logged (ApiCall VGet KDeployment (Namespace i, Name i)) s).
  set (i2 := fst (updateStorageStatus K o i1 s1)).
  set (s2 := snd (updateStorageStatus K o i1 s1)).
  destruct (updateServiceStatus_frame K o i2 s2) as ((_ & _ & _ & _ & _ & C3) & _).
  set (i3 := fst (updateServiceStatus K o i2 s2)) in *.
  set (s3 := snd (updateServiceStatus K o i2 s2)).
  destruct (updateDistributionConfig_frame r i3) as (_ & _ & _ & _ & C4).
  assert (E4 : conditionOf a (updateDistributionConfig r i3) = conditionOf a i2).
  { unfold conditionOf at 1. rewrite C4. by apply C3. }
  destruct (workloadReady i (cluster s)); cbn [fst].
  - pose proof (performHealthChecks_run K o (updateDistributionConfig r i3) s3)
      as (_ & _ & _ & _ & _ & _ & Hco & _).
    rewrite (Hco a Hh). exact E4.
  - rewrite <- E4. unfold conditionOf. cbn. by apply findCondition_upsert_other.
Qed.

(** After the read of the endpoint, only the health condition is still set. *)
Lemma evaluateStatus_condition_after_service i s a :
  o_statusGetDeployment o = None ->
  a <> HealthCheck ->
  let i1 := fst (fst (fst (updateDeploymentStatus K o (initOperatorVersion o i) s))) in
  let s1 := logged (ApiCall VGet KDeployment (Namespace i, Name i)) s in
  let i2 := fst (updateStorageStatus K o i1 s1) in
  let s2 := snd (updateStorageStatus K o i1 s1) in
  conditionOf a (fst (fst (evaluateStatus K r o i None s)))
  = conditionOf a (fst (updateServiceStatus K o i2 s2)).
Proof.
  intros H Hh. cbn zeta. rewrite (evaluateStatus_steps i s H). cbn zeta.
  set (i1 := fst (fst (fst (updateDeploymentStatus K o (initOperatorVersion o i) s)))).
  set (s1 := logged (ApiCall VGet KDeployment (Namespace i, Name i)) s).
  set (i2 := fst (updateStorageStatus K o i1 s1)).
  set (s2 := snd (updateStorageStatus K o i1 s1)).
  set (i3 := fst (updateServiceStatus K o i2 s2)).
  set (s3 := snd (updateServiceStatus K o i2 s2)).
  destruct (updateDistributionConfig_frame r i3) as (_ & _ & _ & _ & C4).
  assert (E4 : conditionOf a (updateDistributionConfig r i3) = conditionOf a i3).
  { unfold conditionOf. by rewrite C4. }
  destruct (workloadReady i (cluster s)); cbn [fst].
  - pose proof (performHealthChecks_run K o (updateDistributionConfig r i3) s3)
      as (_ & _ & _ & _ & _ & _ & Hco & _).
    rewrite (Hco a Hh). exact E4.
  - rewrite <- E4. unfold conditionOf. cbn. by apply findCondition_upsert_other.
Qed.

(** ** No workload *)

(** X7. With no synchronization error, when the workload is not found the
    status computed has phase Pending, zero available replicas, the workload
    condition false with the pending message, the health condition forced
    false and the provider list empty. *)
Theorem workload_absent_is_pending i s :
  o_statusGetDeployment o = None ->
  deployments (cluster s) !! (Namespace i, Name i) = None ->
  let j := fst (fst (updateStatus K r o i None s)) in
  Phase (Status j) = PhasePending /\
  AvailableReplicas (Status j) = 0 /\
  conditionOf DeploymentReady j
  = Some (mkCondition K DeploymentReady false (MessageDeploymentPending K)) /\
  conditionOf HealthCheck j
  = Some (mkCondition K HealthCheck false "Deployment not ready") /\
  Providers (DistConfig (Status j)) = [].
Proof.
  intros H Hd. cbn zeta.
  rewrite updateStatus_phase, updateStatus_availableReplicas, !updateStatus_conditionOf,
    updateStatus_providers.
  assert (Hr : workloadReady i (cluster s) = false) by (unfold workloadReady; by rewrite Hd).
  destruct (evaluateStatus_notReady K r o i s H Hr) as
    (i' & s' & Hev & _ & P & C & Ch & A & Pr & _).
  rewrite Hev. cbn [fst].
  destruct (initOperatorVersion_frame o i) as ((En & Ens & _) & _).
  assert (Hd0 : deployments (cluster s)
                  !! (Namespace (initOperatorVersion o i), Name (initOperatorVersion o i))
                = None) by (by rewrite En, Ens).
  destruct (updateDeploymentStatus_absent K o (initOperatorVersion o i) s H Hd0) as [P1 C1].
  cbn zeta in P1, C1.
  split; [congruence |].
  split; [rewrite A; unfold observedReadyReplicas; by rewrite Hd |].
  split; [congruence |]. split; [exact Ch | exact Pr].
Qed.

(** ** The storage and the endpoint conditions *)

Lemma updateStorageStatus_condition i s :
  let j := fst (updateStorageStatus K o i s) in
  let found := pvcs (cluster s) !! (Namespace i, Name i +:+ "-pvc") in
  (Storage (Server (Spec i)) = None -> j = i) /\
  (Storage (Server (Spec i)) <> None ->
     (forall pvc, o_statusGetPVC o = None -> found = Some pvc ->
        pvc_Phase pvc = ClaimBound ->
        conditionOf StorageReady j
        = Some (mkCondition K StorageReady true (MessageStorageReady K))) /\
     (forall pvc, o_statusGetPVC o = None -> found = Some pvc ->
        pvc_Phase pvc <> ClaimBound ->
        conditionOf StorageReady j
        = Some (mkCondition K StorageReady false
                  ("PVC is not bound: " +:+ claimPhaseString (pvc_Phase pvc)))) /\
     (o_statusGetPVC o <> None \/ found = None ->
        exists msg,
          conditionOf StorageReady j = Some (mkCondition K StorageReady false msg))).
Proof.
  cbn zeta. unfold updateStorageStatus.
  destruct (Storage (Server (Spec i))) as [st |]; [| by split].
  split; [discriminate |]. intros _. unfold bind. rewrite clientGet_run.
  cbn [objects pvcStore].
  destruct (o_statusGetPVC o) as [msg |].
  { repeat split; try discriminate. intros _. eexists.
    apply (conditionOf_setCondition_same K StorageReady). }
  destruct (pvcs (cluster s) !! (Namespace i, Name i +:+ "-pvc")) as [pvc |].
  - repeat split.
    + intros pvc' _ [= <-] Hb. cbn [fst ret]. rewrite bool_decide_true by done.
      apply (conditionOf_setCondition_same K StorageReady).
    + intros pvc' _ [= <-] Hb. cbn [fst ret]. rewrite bool_decide_false by done.
      apply (conditionOf_setCondition_same K StorageReady).
    + intros [? | ?]; done.
  - repeat split; try discriminate. intros _. eexists.
    apply (conditionOf_setCondition_same K StorageReady).
Qed.

(** X8. In a status evaluation without synchronization error that read the
    workload: when storage is requested, the storage condition is true, with
    the storage-ready message, exactly for a claim that is found and Bound; a
    claim found in another phase gives false with "PVC is not bound: " and
    the phase; a claim that is not found or cannot be read gives false.  When
    no storage is requested the storage condition is the one fetched. *)
Theorem storage_condition_follows_claim i s :
  o_statusGetDeployment o = None ->
  let j := fst (fst (updateStatus K r o i None s)) in
  let found := pvcs (cluster s) !! (Namespace i, Name i +:+ "-pvc") in
  (Storage (Server (Spec i)) = None ->
     conditionOf StorageReady j = conditionOf StorageReady i) /\
  (Storage (Server (Spec i)) <> None ->
     (forall pvc, o_statusGetPVC o = None -> found = Some pvc ->
        pvc_Phase pvc = ClaimBound ->
        conditionOf StorageReady j
        = Some (mkCondition K StorageReady true (MessageStorageReady K))) /\
     (forall pvc, o_statusGetPVC o = None -> found = Some pvc ->
        pvc_Phase pvc <> ClaimBound ->
        conditionOf StorageReady j
        = Some (mkCondition K StorageReady false
                  ("PVC is not bound: " +:+ claimPhaseString (pvc_Phase pvc)))) /\
     (o_statusGetPVC o <> None \/ found = None ->
        exists msg,
          conditionOf StorageReady j = Some (mkCondition K StorageReady false msg))).
Proof.
  intros H. cbn zeta. rewrite updateStatus_conditionOf.
  rewrite (evaluateStatus_condition_after_storage i s StorageReady H) by discriminate.
  destruct (workload_step_same i s H) as ((En & Ens & Esp) & C1).
  cbn zeta in *.
  set (i1 := fst (fst (fst (updateDeploymentStatus K o (initOperatorVersion o i) s)))) in *.
  set (s1 := logged (ApiCall VGet KDeployment (Namespace i, Name i)) s).
  destruct (updateStorageStatus_condition i1 s1) as [Hnone Hsome].
  cbn zeta in Hnone, Hsome. rewrite Esp in Hnone. rewrite Esp, En, Ens in Hsome.
  split.
  - intros Hst. rewrite (Hnone Hst). by apply C1.
  - exact Hsome.
Qed.

Lemma updateServiceStatus_condition i s :
  let j := fst (updateServiceStatus K o i s) in
  let found := services (cluster s) !! (Namespace i, Name i +:+ "-service") in
  (HasPorts i = false -> j = i) /\
  (HasPorts i = true ->
     (o_statusGetService o = None -> is_Some found ->
        conditionOf ServiceReady j
        = Some (mkCondition K ServiceReady true (MessageServiceReady K))) /\
     (o_statusGetService o <> None \/ found = None ->
        exists msg,
          conditionOf ServiceReady j = Some (mkCondition K ServiceReady false msg))).
Proof.
  cbn zeta. unfold updateServiceStatus.
  destruct (HasPorts i); cbn [negb]; [| by split].
  split; [discriminate |]. intros _. unfold bind. rewrite clientGet_run.
  cbn [objects serviceStore].
  destruct (o_statusGetService o) as [msg |].
  { split; [discriminate |]. intros _. eexists.
    apply (conditionOf_setCondition_same K ServiceReady). }
  destruct (services (cluster s) !! (Namespace i, Name i +:+ "-service")) as [svc |].
  - split.
    + intros _ _. apply (conditionOf_setCondition_same K ServiceReady).
    + intros [? | ?]; done.
  - split.
    + intros _ [? ?]. discriminate.
    + intros _. eexists. apply (conditionOf_setCondition_same K ServiceReady).
Qed.

(** X9. In a status evaluation without synchronization error that read the
    workload: when the spec declares ports, the endpoint condition is true
    exactly when the endpoint named after the resource with "-service" is
    found, and false when it is not found or cannot be read; when the spec
    declares no port the endpoint condition is the one fetched. *)
Theorem endpoint_condition_follows_existence i s :
  o_statusGetDeployment o = None ->
  let j := fst (fst (updateStatus K r o i None s)) in
  let found := services (cluster s) !! (Namespace i, Name i +:+ "-service") in
  (HasPorts i = false -> conditionOf ServiceReady j = conditionOf ServiceReady i) /\
  (HasPorts i = true ->
     (o_statusGetService o = None -> is_Some found ->
        conditionOf ServiceReady j
        = Some (mkCondition K ServiceReady true (MessageServiceReady K))) /\
     (o_statusGetService o <> None \/ found = None ->
        exists msg,
          conditionOf ServiceReady j = Some (mkCondition K ServiceReady false msg))).
Proof.
  intros H. cbn zeta. rewrite updateStatus_conditionOf.
  rewrite (evaluateStatus_condition_after_service i s ServiceReady H) by discriminate.
  destruct (workload_step_same i s H) as (S1 & C1).
  cbn zeta in *.
  set (i1 := fst (fst (fst (updateDeploymentStatus K o (initOperatorVersion o i) s)))) in *.
  set (s1 := logged (ApiCall VGet KDeployment (Namespace i, Name i)) s).
  destruct (updateStorageStatus_frame K o i1 s1) as ((S2 & _ & _ & _ & _ & C2) & Cl2 & _).
  set (i2 := fst (updateStorageStatus K o i1 s1)) in *.
  set (s2 := snd (updateStorageStatus K o i1 s1)) in *.
  destruct (sameResource_trans _ _ _ S1 S2) as (En & Ens & Esp).
  destruct (updateServiceStatus_condition i2 s2) as [Hnone Hsome].
  cbn zeta in Hnone, Hsome.
  assert (Hp : HasPorts i2 = HasPorts i) by (unfold HasPorts; by rewrite Esp).
  rewrite Hp in Hnone. rewrite Hp, En, Ens, Cl2 in Hsome.
  split.
  - intros Hst. rewrite (Hnone Hst). rewrite C2 by discriminate. by apply C1.
  - exact Hsome.
Qed.

(** ** What the phase depends on *)

(** The phase and the workload condition after the read of the workload are
    decided by what was read. *)
Lemma workload_step_determined i o2 s s2 :
  o_statusGetDeployment o = None ->
  o_statusGetDeployment o2 = None ->
  deployments (cluster s) !! (Namespace i, Name i)
  = deployments (cluster s2) !! (Namespace i, Name i) ->
  let i1 := fst (fst (fst (updateDeploymentStatus K o (initOperatorVersion o i) s))) in
  let i1' := fst (fst (fst (updateDeploymentStatus K o2 (initOperatorVersion o2 i) s2))) in
  Phase (Status i1) = Phase (Status i1') /\
  conditionOf DeploymentReady i1 = conditionOf DeploymentReady i1'.
Proof.
  intros H H2 Hl. cbn zeta.
  destruct (initOperatorVersion_frame o i) as ((En & Ens & Esp) & _).
  destruct (initOperatorVersion_frame o2 i) as ((En2 & Ens2 & Esp2) & _).
  destruct (deployments (cluster s) !! (Namespace i, Name i)) as [d |] eqn:Hd.
  - symmetry in Hl.
    assert (Hd0 : deployments (cluster s)
                    !! (Namespace (initOperatorVersion o i), Name (initOperatorVersion o i))
                  = Some d) by (by rewrite En, Ens).
    assert (Hd2 : deployments (cluster s2)
                    !! (Namespace (initOperatorVersion o2 i), Name (initOperatorVersion o2 i))
                  = Some d) by (by rewrite En2, Ens2).
    pose proof (updateDeploymentStatus_switch K o _ s d H Hd0) as (A0 & A1 & A2 & A3).
    pose proof (updateDeploymentStatus_switch K o2 _ s2 d H2 Hd2) as (B0 & B1 & B2 & B3).
    cbn zeta in *. rewrite Esp in A1, A2, A3. rewrite Esp2 in B1, B2, B3.
    destruct (Z.eq_dec (dep_ReadyReplicas d) 0) as [E0 | N0].
    { destruct (A0 E0) as [-> ->]. destruct (B0 E0) as [-> ->]. by split. }
    destruct (Z.lt_trichotomy (dep_ReadyReplicas d) (Replicas (Spec i))) as [Lt | [Eq | Gt]].
    + destruct (A1 N0 Lt) as [-> ->]. destruct (B1 N0 Lt) as [-> ->]. by split.
    + destruct (A3 N0 Eq) as [-> ->]. destruct (B3 N0 Eq) as [-> ->]. by split.
    + apply Z.lt_gt in Gt.
      destruct (A2 N0 Gt) as [-> ->]. destruct (B2 N0 Gt) as [-> ->]. by split.
  - symmetry in Hl.
    assert (Hd0 : deployments (cluster s)
                    !! (Namespace (initOperatorVersion o i), Name (initOperatorVersion o i))
                  = None) by (by rewrite En, Ens).
    assert (Hd2 : deployments (cluster s2)
                    !! (Namespace (initOperatorVersion o2 i), Name (initOperatorVersion o2 i))
                  = None) by (by rewrite En2, Ens2).
    destruct (updateDeploymentStatus_absent K o _ s H Hd0) as [-> ->].
    destruct (updateDeploymentStatus_absent K o2 _ s2 H2 Hd2) as [-> ->]. by split.
Qed.

(** X10. The claim and the endpoint do not take part in the phase.  Two
    status evaluations without synchronization error of the same resource
    that read the same workload and get the same answer to the health probe
    compute the same phase, the same available replicas, the same workload
    condition and the same health condition, whatever the claims and the
    endpoints stored and whatever the reads of them answer. *)
Theorem phase_ignores_storage_and_endpoint i o2 s s2 :
  o_statusGetDeployment o = o_statusGetDeployment o2 ->
  o_health o = o_health o2 ->
  deployments (cluster s) !! (Namespace i, Name i)
  = deployments (cluster s2) !! (Namespace i, Name i) ->
  let j := fst (fst (updateStatus K r o i None s)) in
  let j2 := fst (fst (updateStatus K r o2 i None s2)) in
  Phase (Status j) = Phase (Status j2) /\
  AvailableReplicas (Status j) = AvailableReplicas (Status j2) /\
  conditionOf DeploymentReady j = conditionOf DeploymentReady j2 /\
  conditionOf HealthCheck j = conditionOf HealthCheck j2.
Proof.
  intros Hf Hh Hl. cbn zeta.
  rewrite !updateStatus_phase, !updateStatus_availableReplicas, !updateStatus_conditionOf.
  destruct (o_statusGetDeployment o) as [msg |] eqn:H; symmetry in Hf.
  { rewrite (evaluateStatus_fault K r o i s msg H),
      (evaluateStatus_fault K r o2 i s2 msg Hf). cbn [fst].
    destruct (initOperatorVersion_frame o i) as (_ & P & A & _ & C).
    destruct (initOperatorVersion_frame o2 i) as (_ & P2 & A2 & _ & C2).
    unfold conditionOf. rewrite P, P2, A, A2, C, C2. by repeat split. }
  assert (Hw : workloadReady i (cluster s2) = workloadReady i (cluster s))
    by (unfold workloadReady; by rewrite Hl).
  assert (Ho : observedReadyReplicas i (cluster s2) = observedReadyReplicas i (cluster s))
    by (unfold observedReadyReplicas; by rewrite Hl).
  destruct (workload_step_determined i o2 s s2 H Hf Hl) as [P1 C1].
  cbn zeta in P1, C1.
  destruct (workloadReady i (cluster s)) eqn:Hr.
  - destruct (evaluateStatus_ready K r o i s H Hr) as
      (j & s' & Hev & _ & He & Hu & Hp & Cd & A & _).
    destruct (evaluateStatus_ready K r o2 i s2 Hf Hw) as
      (j2 & s2' & Hev2 & _ & He2 & Hu2 & Hp2 & Cd2 & A2 & _).
    rewrite Hev, Hev2. cbn [fst].
    assert (Hc : fst (checkHealth K o2 i s2) = fst (checkHealth K o i s))
      by (unfold checkHealth; rewrite Hh; by destruct (o_health o2)).
    rewrite Hc in He2, Hu2, Hp2.
    assert (HPH : Phase (Status j) = Phase (Status j2) /\
                  conditionOf HealthCheck j = conditionOf HealthCheck j2).
    { destruct (fst (checkHealth K o i s)) as [[|] [e |]].
      - destruct (He _ e eq_refl) as [-> ->]. destruct (He2 _ e eq_refl) as [-> ->].
        by split.
      - destruct (Hp eq_refl) as [-> ->]. destruct (Hp2 eq_refl) as [-> ->]. by split.
      - destruct (He _ e eq_refl) as [-> ->]. destruct (He2 _ e eq_refl) as [-> ->].
        by split.
      - destruct (Hu eq_refl) as [-> ->]. destruct (Hu2 eq_refl) as [-> ->]. by split. }
    destruct HPH as [HP HH].
    split; [exact HP |]. split; [congruence |]. split; [congruence | exact HH].
  - destruct (evaluateStatus_notReady K r o i s H Hr) as
      (j & s' & Hev & _ & P & Cd & Ch & A & _).
    destruct (evaluateStatus_notReady K r o2 i s2 Hf Hw) as
      (j2 & s2' & Hev2 & _ & P' & Cd' & Ch' & A' & _).
    rewrite Hev, Hev2. cbn [fst]. cbn zeta in *.
    split; [congruence |]. split; [congruence |]. split; congruence.
Qed.

(** ** The version fields *)

Lemma initOperatorVersion_version i :
  let j := initOperatorVersion o i in
  OperatorVersion (Version (Status j))
  = (if decide (OperatorVersion (Version (Status i)) = "")
     then o_OPERATOR_VERSION o else OperatorVersion (Version (Status i))) /\
  LlamaStackVersion (Version (Status j)) = LlamaStackVersion (Version (Status i)) /\
  LastUpdated (Version (Status j)) = LastUpdated (Version (Status i)).
Proof. cbn zeta. unfold initOperatorVersion. destruct (decide _); by repeat split. Qed.

(** The version fields after the evaluation. *)
Lemma evaluateStatus_version i e s :
  let j := fst (fst (evaluateStatus K r o i e s)) in
  OperatorVersion (Version (Status j))
  = (if decide (OperatorVersion (Version (Status i)) = "")
     then o_OPERATOR_VERSION o else OperatorVersion (Version (Status i))) /\
  LastUpdated (Version (Status j)) = LastUpdated (Version (Status i)) /\
  (LlamaStackVersion (Version (Status j)) = LlamaStackVersion (Version (Status i)) \/
   LlamaStackVersion (Version (Status i)) = "" /\
   LlamaStackVersion (Version (Status j)) = o_LLAMA_STACK_VERSION o /\
   e = None /\ workloadReady i (cluster s) = true).
Proof.
  cbn zeta. destruct (initOperatorVersion_version i) as (OV & LS & LU). cbn zeta in *.
  destruct e as [e |].
  { cbn. rewrite OV, LU, LS. split; [done | split; [done | by left]]. }
  destruct (o_statusGetDeployment o) as [msg |] eqn:H.
  { rewrite (evaluateStatus_fault K r o i s msg H). cbn [fst].
    rewrite OV, LU, LS. split; [done | split; [done | by left]]. }
  rewrite (evaluateStatus_steps i s H). cbn zeta.
  destruct (initOperatorVersion_frame o i) as (S0 & _).
  destruct (updateDeploymentStatus_version (initOperatorVersion o i) s H) as (OV1 & LU1 & LS1).
  cbn zeta in *. rewrite (workloadReady_same i _ (cluster s) S0) in LS1.
  set (i1 := fst (fst (fst (updateDeploymentStatus K o (initOperatorVersion o i) s)))) in *.
  set (s1 := logged (ApiCall VGet KDeployment (Namespace i, Name i)) s).
  destruct (updateStorageStatus_frame K o i1 s1) as ((_ & _ & _ & _ & V2 & _) & _).
  set (i2 := fst (updateStorageStatus K o i1 s1)) in *.
  set (s2 := snd (updateStorageStatus K o i1 s1)).
  destruct (updateServiceStatus_frame K o i2 s2) as ((_ & _ & _ & _ & V3 & _) & _).
  set (i3 := fst (updateServiceStatus K o i2 s2)) in *.
  set (s3 := snd (updateServiceStatus K o i2 s2)).
  assert (V4 : Version (Status (updateDistributionConfig r i3)) = Version (Status i1))
    by (cbn; congruence).
  assert (Vf : forall j, Version (Status j) = Version (Status i1) ->
            OperatorVersion (Version (Status j))
            = (if decide (OperatorVersion (Version (Status i)) = "")
               then o_OPERATOR_VERSION o else OperatorVersion (Version (Status i))) /\
            LastUpdated (Version (Status j)) = LastUpdated (Version (Status i)) /\
            LlamaStackVersion (Version (Status j))
            = (if workloadReady i (cluster s) then
                 if decide (LlamaStackVersion (Version (Status i)) = "")
                 then o_LLAMA_STACK_VERSION o else LlamaStackVersion (Version (Status i))
               else LlamaStackVersion (Version (Status i)))).
  { intros j ->. rewrite OV1, LU1, LS1, OV, LU, LS. by repeat split. }
  destruct (workloadReady i (cluster s)) eqn:Hr; cbn [fst].
  - pose proof (performHealthChecks_keeps (updateDistributionConfig r i3) s3) as (Vh & _).
    cbn zeta in Vh. destruct (Vf _ (eq_trans Vh V4)) as (A & B & C).
    split; [exact A |]. split; [exact B |]. rewrite C.
    destruct (decide (LlamaStackVersion (Version (Status i)) = "")) as [E | N];
      [right; by repeat split | by left].
  - destruct (Vf (mapStatus (fun st =>
        setProviders [] (SetHealthCheckCondition K false "Deployment not ready" st))
        (updateDistributionConfig r i3)) V4) as (A & B & C).
    split; [exact A |]. split; [exact B |]. left. exact C.
Qed.

(** X11. The version fields of the status [updateStatus] leaves in hand.  The
    operator version is the one fetched, or, when that is empty, the value of
    OPERATOR_VERSION; a server version that is set is never changed, and the
    server version changes only in a pass without synchronization error that
    observed the workload ready, to the value of LLAMA_STACK_VERSION; the
    time stamp is the current time unless the evaluation exited early, in
    which case it is the one fetched. *)
Theorem versions_are_set_once i e s :
  let j := fst (fst (updateStatus K r o i e s)) in
  let v := Version (Status i) in
  let v' := Version (Status j) in
  OperatorVersion v'
  = (if decide (OperatorVersion v = "") then o_OPERATOR_VERSION o else OperatorVersion v) /\
  (LlamaStackVersion v <> "" -> LlamaStackVersion v' = LlamaStackVersion v) /\
  (LlamaStackVersion v' <> LlamaStackVersion v ->
     e = None /\ workloadReady i (cluster s) = true /\
     LlamaStackVersion v' = o_LLAMA_STACK_VERSION o) /\
  (e <> None \/ o_statusGetDeployment o = None -> LastUpdated v' = o_now o) /\
  (e = None -> o_statusGetDeployment o <> None -> LastUpdated v' = LastUpdated v).
Proof.
  cbn zeta. destruct (evaluateStatus_version i e s) as (OV & LU & LS).
  cbn zeta in *. rewrite updateStatus_run.
  assert (Hearly : match snd (fst (evaluateStatus K r o i e s)) with
                   | Some _ => e = None /\ o_statusGetDeployment o <> None
                   | None => e <> None \/ o_statusGetDeployment o = None
                   end).
  { destruct e as [e |].
    - destruct (evaluateStatus_syncError K r o i e s) as (i' & Hev & _). rewrite Hev.
      by left.
    - destruct (o_statusGetDeployment o) as [msg |] eqn:H.
      + rewrite (evaluateStatus_fault K r o i s msg H). by split.
      + destruct (evaluateStatus_availableReplicas K r o i s H) as (_ & -> & _). by right. }
  destruct (evaluateStatus K r o i e s) as [[i1 [err |]] s1]; cbn [fst snd] in *.
  - destruct Hearly as [He Hf]. split; [exact OV |].
    split; [intros Hne; destruct LS as [LS | (? & _)]; done |].
    split; [intros Hne; destruct LS as [LS | (_ & ? & ? & ?)]; done |].
    split; [intros [? | ?]; done | done].
  - cbn. split; [exact OV |].
    split; [intros Hne; destruct LS as [LS | (? & _)]; done |].
    split; [intros Hne; destruct LS as [LS | (_ & ? & ? & ?)]; done |].
    split; [done |]. intros He Hf. destruct Hearly; done.
Qed.

(** ** A synchronization error *)

(** X12. On a synchronization error the status computed has phase Failed and
    the workload condition false with the message "Resource reconciliation
    failed: " followed by the text of the error; every other condition, the
    replica count and the distribution summary are the ones fetched. *)
Theorem sync_error_touches_workload_condition_only i e s :
  let j := fst (fst (updateStatus K r o i (Some e) s)) in
  Phase (Status j) = PhaseFailed /\
  conditionOf DeploymentReady j
  = Some (mkCondition K DeploymentReady false
            ("Resource reconciliation failed: " +:+ Error e)) /\
  (forall b, b <> DeploymentReady -> conditionOf b j = conditionOf b i) /\
  AvailableReplicas (Status j) = AvailableReplicas (Status i) /\
  DistConfig (Status j) = DistConfig (Status i).
Proof.
  cbn zeta. destruct (updateStatus_keeps K r o i (Some e) s) as (_ & P & C & A & D).
  cbn zeta in *. unfold conditionOf. rewrite P, C, A, D.
  destruct (evaluateStatus_syncError K r o i e s) as (i' & Hev & _ & P' & C' & A' & D').
  assert (Hi' : i' = fst (fst (evaluateStatus K r o i (Some e) s))) by (by rewrite Hev).
  rewrite <- Hi'. split; [exact P' |]. split; [exact C' |].
  split; [| by split].
  intros b Hb. subst i'. cbn.
  destruct (initOperatorVersion_frame o i) as (_ & _ & _ & _ & C0).
  rewrite findCondition_upsert_other by done. by rewrite C0.
Qed.

(** ** The probes *)

(** X13. The provider listing returns a list exactly when the server answers
    200 with a body that can be read and decoded, and the list is then the
    [data] array as decoded, empty or not.  Any other status is an error that
    names the status code, whatever the body. *)
Theorem provider_listing_needs_200 i s :
  (forall ps,
     fst (getProviderInfo K o i s) = inl ps
     <-> o_providers o = Responded 200 (BodyData ps)) /\
  (forall code body,
     o_providers o = Responded code body -> code <> 200 ->
     fst (getProviderInfo K o i s)
     = inr (ErrorsNew ("failed to query providers endpoint: returned status code "
                       +:+ fmt_d code))).
Proof.
  unfold getProviderInfo. split.
  - intros ps. destruct (o_providers o) as [e | e | code body]; cbn [fst ret].
    + split; discriminate.
    + unfold bind, record. cbn. split; discriminate.
    + unfold bind, record. cbn -[Z.eqb].
      destruct (code =? StatusOK)%Z eqn:Ec; cbn [negb].
      * apply Z.eqb_eq in Ec. subst code. unfold StatusOK.
        destruct body; cbn; split; intros [=]; subst; reflexivity.
      * cbn. split; [discriminate |]. intros [= -> _]. discriminate.
  - intros code body -> Hne. unfold bind, record. cbn -[Z.eqb].
    replace (code =? StatusOK)%Z with false by (symmetry; by apply Z.eqb_neq).
    reflexivity.
Qed.

Lemma getServerURL_same i j path :
  sameResource i j -> getServerURL K j path = getServerURL K i path.
Proof.
  intros (En & Ens & Esp). unfold getServerURL, GetServiceName, GetServicePort.
  by rewrite En, Ens, Esp.
Qed.

(** X14. The requests [performHealthChecks] sends, in order: the health
    request, unless it could not be built, then the providers request, unless
    it could not be built.  The providers request is sent whatever the health
    probe answered, failure included, and both go to the address of the same
    service and port, with the paths /v1/health and /v1/providers. *)
Theorem probes_are_sent_in_order i s :
  since s (snd (performHealthChecks K o i s))
  = match o_health o with
    | RequestRejected _ => []
    | _ => [HttpGet (getServerURL K i "/v1/health")]
    end
    ++ match o_providers o with
       | RequestRejected _ => []
       | _ => [HttpGet (getServerURL K i "/v1/providers")]
       end.
Proof.
  unfold performHealthChecks, bind, since.
  assert (Hh : exists b e, checkHealth K o i s
                 = ((b, e),
                    {| cluster := cluster s;
                       calls := calls s ++ match o_health o with
                                           | RequestRejected _ => []
                                           | _ => [HttpGet (getServerURL K i "/v1/health")]
                                           end |})).
  { unfold checkHealth. destruct (o_health o) as [e | e | code body]; eexists _, _.
    - cbn. rewrite app_nil_r. by destruct s.
    - reflexivity.
    - reflexivity. }
  destruct Hh as (b & e & ->).
  set (s1 := {| cluster := cluster s; calls := _ |}).
  set (j := match e with Some _ => _ | None => _ end).
  assert (Sj : sameResource i j) by (subst j; destruct e; [| destruct b]; by repeat split).
  assert (Hp : exists res, getProviderInfo K o j s1
                 = (res,
                    {| cluster := cluster s1;
                       calls := calls s1 ++ match o_providers o with
                                            | RequestRejected _ => []
                                            | _ => [HttpGet (getServerURL K i "/v1/providers")]
                                            end |})).
  { unfold getProviderInfo. rewrite (getServerURL_same i j _ Sj).
    destruct (o_providers o) as [e' | e' | code body].
    - eexists. subst s1. cbn. by rewrite app_nil_r.
    - eexists. reflexivity.
    - unfold bind, record. cbn -[Z.eqb].
      destruct (negb (code =? StatusOK)%Z); [| destruct body]; eexists; reflexivity. }
  destruct Hp as (res & ->).
  destruct res as [ps | e']; cbn [snd ret calls]; subst s1; cbn [calls];
    rewrite <- app_assoc; by rewrite drop_app_length.
Qed.

(** ** The distribution summary *)

(** X15. In a status evaluation without synchronization error that read the
    workload, the active distribution reported is the distribution name when
    one is given, also when an image is given as well; otherwise "custom"
    when an image is given, otherwise empty.  The available distributions
    reported are the image map of the reconciler. *)
Theorem active_distribution_reported i s :
  o_statusGetDeployment o = None ->
  let j := fst (fst (updateStatus K r o i None s)) in
  let d := Distribution (Server (Spec i)) in
  (dist_Name d <> "" -> ActiveDistribution (DistConfig (Status j)) = dist_Name d) /\
  (dist_Name d = "" -> dist_Image d <> "" ->
     ActiveDistribution (DistConfig (Status j)) = "custom") /\
  (dist_Name d = "" -> dist_Image d = "" ->
     ActiveDistribution (DistConfig (Status j)) = "") /\
  AvailableDistributions (DistConfig (Status j)) = DistributionImages r.
Proof.
  intros H. cbn zeta.
  destruct (updateStatus_keeps K r o i None s) as (_ & _ & _ & _ & D).
  cbn zeta in D. rewrite D. rewrite (evaluateStatus_steps i s H). cbn zeta.
  destruct (workload_step_same i s H) as (S1 & _). cbn zeta in S1.
  set (i1 := fst (fst (fst (updateDeploymentStatus K o (initOperatorVersion o i) s)))) in *.
  set (s1 := logged (ApiCall VGet KDeployment (Namespace i, Name i)) s).
  destruct (updateStorageStatus_frame K o i1 s1) as ((S2 & _) & _).
  set (i2 := fst (updateStorageStatus K o i1 s1)) in *.
  set (s2 := snd (updateStorageStatus K o i1 s1)).
  destruct (updateServiceStatus_frame K o i2 s2) as ((S3 & _) & _).
  set (i3 := fst (updateServiceStatus K o i2 s2)) in *.
  set (s3 := snd (updateServiceStatus K o i2 s2)).
  destruct (sameResource_trans _ _ _ (sameResource_trans _ _ _ S1 S2) S3) as (_ & _ & Esp).
  assert (Hd : forall j,
            ActiveDistribution (DistConfig (Status j))
            = ActiveDistribution (DistConfig (Status (updateDistributionConfig r i3))) ->
            AvailableDistributions (DistConfig (Status j))
            = AvailableDistributions (DistConfig (Status (updateDistributionConfig r i3))) ->
            (dist_Name (Distribution (Server (Spec i))) <> "" ->
             ActiveDistribution (DistConfig (Status j))
             = dist_Name (Distribution (Server (Spec i)))) /\
            (dist_Name (Distribution (Server (Spec i))) = "" ->
             dist_Image (Distribution (Server (Spec i))) <> "" ->
             ActiveDistribution (DistConfig (Status j)) = "custom") /\
            (dist_Name (Distribution (Server (Spec i))) = "" ->
             dist_Image (Distribution (Server (Spec i))) = "" ->
             ActiveDistribution (DistConfig (Status j)) = "") /\
            AvailableDistributions (DistConfig (Status j)) = DistributionImages r).
  { intros j -> ->. cbn. rewrite Esp.
    destruct (decide (dist_Name (Distribution (Server (Spec i))) = "")) as [En | Nn];
      [destruct (decide (dist_Image (Distribution (Server (Spec i))) = "")) as [Ei | Ni] |];
      repeat split; intros; congruence. }
  destruct (workloadReady i (cluster s)); cbn [fst].
  - pose proof (performHealthChecks_keeps (updateDistributionConfig r i3) s3) as (_ & A & B).
    by apply Hd.
  - by apply Hd.
Qed.

End Status.

(** * Further properties: what is not requested is not touched *)

Section Unrequested.

Variable K : Constants.
Variable r : Reconciler.
Variable o : Oracle.

Lemma updateStorageStatus_calls i s :
  (Storage (Server (Spec i)) = None -> snd (updateStorageStatus K o i s) = s) /\
  extends (onKind KPVC) s (snd (updateStorageStatus K o i s)).
Proof.
  unfold updateStorageStatus.
  destruct (Storage (Server (Spec i))) as [st |].
  - split; [discriminate |]. unfold bind. rewrite clientGet_run.
    destruct (o_statusGetPVC o); [| destruct (objects pvcStore _ !! _)];
      apply (extends_onKind_get pvcStore).
  - split; [reflexivity | apply extends_refl].
Qed.

Lemma updateServiceStatus_calls i s :
  (HasPorts i = false -> snd (updateServiceStatus K o i s) = s) /\
  extends (onKind KService) s (snd (updateServiceStatus K o i s)).
Proof.
  unfold updateServiceStatus.
  destruct (HasPorts i); cbn [negb].
  - split; [discriminate |]. unfold bind. rewrite clientGet_run.
    destruct (o_statusGetService o); [| destruct (objects serviceStore _ !! _)];
      apply (extends_onKind_get serviceStore).
  - split; [reflexivity | apply extends_refl].
Qed.

(** The calls of the evaluation, by kind: the workload is read; the claim is
    read only if storage is requested, the endpoint only if ports are
    declared; the rest are probes. *)
Lemma evaluateStatus_kinds (p : Call -> bool) i e s :
  (forall c, onKind KDeployment c = true -> p c = true) ->
  (Storage (Server (Spec i)) <> None -> forall c, onKind KPVC c = true -> p c = true) ->
  (HasPorts i = true -> forall c, onKind KService c = true -> p c = true) ->
  (forall c, isProbe c = true -> p c = true) ->
  extends p s (snd (evaluateStatus K r o i e s)).
Proof.
  intros Pd Pp Ps Pr.
  destruct e as [e |].
  { destruct (evaluateStatus_syncError K r o i e s) as (i' & Hev & _). rewrite Hev.
    apply extends_refl. }
  destruct (o_statusGetDeployment o) as [msg |] eqn:H.
  { rewrite (evaluateStatus_fault K r o i s msg H). apply extends_logged. by apply Pd. }
  rewrite (evaluateStatus_steps K r o i s H). cbn zeta.
  destruct (workload_step_same K o i s H) as (S1 & _). cbn zeta in S1.
  set (i1 := fst (fst (fst (updateDeploymentStatus K o (initOperatorVersion o i) s)))) in *.
  set (s1 := logged (ApiCall VGet KDeployment (Namespace i, Name i)) s).
  assert (E1 : extends p s s1) by (apply extends_logged; by apply Pd).
  destruct (updateStorageStatus_frame K o i1 s1) as ((S2 & _) & _).
  destruct (updateStorageStatus_calls i1 s1) as [N2 X2].
  set (i2 := fst (updateStorageStatus K o i1 s1)) in *.
  set (s2 := snd (updateStorageStatus K o i1 s1)) in *.
  assert (E2 : extends p s s2).
  { destruct S1 as (_ & _ & Esp). rewrite Esp in N2.
    destruct (Storage (Server (Spec i))) as [st |] eqn:Hst.
    - eapply extends_trans; [exact E1 |]. eapply extends_weaken; [| exact X2].
      by apply Pp.
    - by rewrite (N2 eq_refl). }
  destruct (updateServiceStatus_calls i2 s2) as [N3 X3].
  set (i3 := fst (updateServiceStatus K o i2 s2)) in *.
  set (s3 := snd (updateServiceStatus K o i2 s2)) in *.
  assert (E3 : extends p s s3).
  { assert (Hp : HasPorts i2 = HasPorts i).
    { destruct (sameResource_trans _ _ _ S1 S2) as (_ & _ & Esp). unfold HasPorts.
      by rewrite Esp. }
    rewrite Hp in N3. destruct (HasPorts i) eqn:Hports.
    - eapply extends_trans; [exact E2 |]. eapply extends_weaken; [| exact X3].
      by apply Ps.
    - by rewrite (N3 eq_refl). }
  destruct (workloadReady i (cluster s)); cbn [snd]; [| exact E3].
  pose proof (performHealthChecks_run K o (updateDistributionConfig r i3) s3)
    as (_ & _ & _ & _ & _ & _ & _ & _ & Hex).
  eapply extends_trans; [exact E3 |]. eapply extends_weaken; [exact Pr | exact Hex].
Qed.

(** The calls of [updateStatus], likewise, with the write of the status. *)
Lemma updateStatus_kinds (p : Call -> bool) i e s :
  (forall c, onKind KDeployment c = true -> p c = true) ->
  (Storage (Server (Spec i)) <> None -> forall c, onKind KPVC c = true -> p c = true) ->
  (HasPorts i = true -> forall c, onKind KService c = true -> p c = true) ->
  (forall c, isProbe c = true -> p c = true) ->
  (forall c, isStatusWrite c = true -> p c = true) ->
  extends p s (snd (updateStatus K r o i e s)).
Proof.
  intros Pd Pp Ps Pr Pw. rewrite updateStatus_run.
  pose proof (evaluateStatus_kinds p i e s Pd Pp Ps Pr) as Ex.
  destruct (evaluateStatus K r o i e s) as [[i1 [err |]] s1]; cbn [fst snd] in *;
    [exact Ex |].
  cbn zeta. cbn [snd].
  pose proof (statusUpdate_run o (touchLastUpdated o i1) s1) as (Hc & _). cbn zeta in Hc.
  eapply extends_trans; [exact Ex |]. eexists. split; [exact Hc |].
  cbn. rewrite andb_true_r. by apply Pw.
Qed.

(** Without ports the synchronization makes no call on an endpoint. *)
Lemma reconcileResources_no_ports i s :
  HasPorts i = false ->
  services (cluster (snd (reconcileResources K r o i s))) = services (cluster s) /\
  extends (fun c => negb (onKind KService c)) s (snd (reconcileResources K r o i s)).
Proof.
  intros Hp. unfold reconcileResources, bind. rewrite Hp.
  set (p := fun c => negb (onKind KService c)).
  assert (W : forall k, sameKind KService k = false ->
                forall c, onKind k c = true -> p c = true).
  { intros k Hk [[] kc ? | ?] Hc; try done; unfold p; cbn in *;
      destruct k, kc; done. }
  assert (H1 : services (cluster (snd (match Storage (Server (Spec i)) with
                                       | Some storage => reconcilePVC K o i storage
                                       | None => ret None
                                       end s))) = services (cluster s) /\
               extends p s (snd (match Storage (Server (Spec i)) with
                                 | Some storage => reconcilePVC K o i storage
                                 | None => ret None
                                 end s))).
  { destruct (Storage (Server (Spec i))) as [st |].
    - destruct (reconcilePVC_frame K o services i st s) as [P E]; [reflexivity |].
      split; [exact P |]. eapply extends_weaken; [| exact E]. by apply W.
    - unchanged. }
  destruct (match Storage (Server (Spec i)) with
            | Some storage => reconcilePVC K o i storage
            | None => ret None
            end s) as [pvcErr s1].
  cbn [fst snd] in H1. destruct H1 as [P1 E1].
  destruct pvcErr as [e1 |]; [split; [exact P1 | exact E1] |].
  destruct (reconcileNetworkPolicy_frame K r o services i s1) as [P2 E2]; [reflexivity |].
  destruct (reconcileNetworkPolicy K r o i s1) as [npErr s2]. cbn [fst snd] in *.
  assert (E2' : extends p s s2).
  { eapply extends_trans; [exact E1 |]. eapply extends_weaken; [| exact E2]. by apply W. }
  destruct npErr as [e2 |]; [split; [cbn; congruence | exact E2'] |].
  destruct (reconcileDeployment_frame K r o services i s2) as [P3 E3]; [reflexivity |].
  destruct (reconcileDeployment K r o i s2) as [depErr s3]. cbn [fst snd] in *.
  assert (E3' : extends p s s3).
  { eapply extends_trans; [exact E2' |]. eapply extends_weaken; [| exact E3]. by apply W. }
  destruct depErr as [e3 |]; (split; [cbn; congruence | exact E3']).
Qed.

(** X16. What the spec does not request, the pass does not touch.  For a
    resource that was fetched: when no storage is requested the pass makes no
    call on a claim, not even a read, and the stored claims are as they were;
    when no port is declared the pass makes no call on an endpoint, and the
    stored endpoints are as they were. *)
Theorem unrequested_aspects_are_not_touched req i s :
  o_getInstance o = None ->
  distributions (cluster s) !! req = Some i ->
  let s' := snd (Reconcile K r o req s) in
  (Storage (Server (Spec i)) = None ->
     forallb (fun c => negb (onKind KPVC c)) (since s s') = true /\
     pvcs (cluster s') = pvcs (cluster s)) /\
  (HasPorts i = false ->
     forallb (fun c => negb (onKind KService c)) (since s s') = true /\
     services (cluster s') = services (cluster s)).
Proof.
  intros Ho Hi. cbn zeta. rewrite (Reconcile_state K r o req i s Ho Hi). cbn zeta.
  set (s1 := logged (ApiCall VGet KDistribution req) s).
  set (s2 := snd (reconcileResources K r o i s1)).
  destruct (updateStatus_frame K r o i (fst (reconcileResources K r o i s1)) s2)
    as (Pu & _ & Su & _ & _).
  cbn zeta in Pu, Su.
  split.
  - intros Hst.
    destruct (reconcileResources_frame K r o pvcs (fun c => negb (onKind KPVC c)) i s1)
      as [P E]; try (intros; reflexivity);
      try (intros [[] [] ? | ?]; done).
    { intros st Hst'. congruence. }
    fold s2 in P, E. split; [| by rewrite Pu, P].
    apply extends_since.
    eapply extends_trans; [apply (extends_logged _ (ApiCall VGet KDistribution req)); done |].
    fold s1. eapply extends_trans; [exact E |].
    apply updateStatus_kinds; try (intros [[] [] ? | ?]; done).
    + intros Hne. done.
    + intros _ [[] [] ? | ?]; done.
  - intros Hp.
    destruct (reconcileResources_no_ports i s1 Hp) as [P E]. fold s2 in P, E.
    split; [| by rewrite Su, P].
    apply extends_since.
    eapply extends_trans; [apply (extends_logged _ (ApiCall VGet KDistribution req)); done |].
    fold s1. eapply extends_trans; [exact E |].
    apply updateStatus_kinds; try (intros [[] [] ? | ?]; done).
    + intros _ [[] [] ? | ?]; done.
    + intros Hne. congruence.
Qed.

End Unrequested.

(** * Further properties: the resources built *)

Section Built.

Variable K : Constants.
Variable r : Reconciler.

(** X17. The child resources are built to fit each other.  When the
    distribution reference is valid and resolves, the workload handed to
    ApplyDeployment is named after the resource, asks for the replicas of the
    spec, and has its selector equal to the labels of its pod template; the
    endpoint handed to ApplyService selects by the same labels, is
    cluster-internal, and exposes and targets the resolved port; and, the
    feature being enabled, the policy handed to ApplyNetworkPolicy selects
    the same labels, is for ingress only, and has two rules, both on that
    port.  The service account of the pod is the override when one is given
    and not empty. *)
Theorem child_resources_fit_together i image :
  validateDistribution r i = None ->
  resolveImage r (Distribution (Server (Spec i))) = inl image ->
  exists d svc,
    (forall o s, reconcileDeployment K r o i s = ApplyDeployment o i d s) /\
    (forall o s, reconcileService K o i s = ApplyService o i svc s) /\
    dep_Name d = Name i /\ dep_Namespace d = Namespace i /\
    dep_Replicas d = Replicas (Spec i) /\
    dep_Selector d = dep_TemplateLabels d /\
    (forall ov, Overrides (Server (Spec i)) = Some ov -> ServiceAccountName ov <> "" ->
       pod_ServiceAccountName (dep_PodSpec d) = ServiceAccountName ov) /\
    svc_Selector svc = dep_Selector d /\
    svc_Type svc = ClusterIP /\
    svc_Port svc = GetServicePort K i /\ svc_TargetPort svc = GetServicePort K i /\
    (EnableNetworkPolicy r = true ->
     forall ns, exists np,
       (forall o s, o_operatorNamespace o = inl ns ->
          reconcileNetworkPolicy K r o i s = ApplyNetworkPolicy o i np s) /\
       np_PodSelector np = dep_Selector d /\
       np_PolicyTypes np = [PolicyTypeIngress] /\
       map rule_Port (np_Ingress np) = [GetServicePort K i; GetServicePort K i]).
Proof.
  intros Hv Hr. eexists _, _.
  split.
  { intros o s. unfold reconcileDeployment. rewrite Hv, Hr. reflexivity. }
  split; [intros o s; reflexivity |].
  split; [reflexivity |]. split; [reflexivity |]. split; [reflexivity |].
  split; [reflexivity |].
  split.
  { intros ov Hov Hne. cbn. rewrite Hov. by rewrite decide_False. }
  split; [reflexivity |]. split; [reflexivity |]. split; [reflexivity |].
  split; [reflexivity |].
  intros He ns. eexists. split.
  { intros o s Hns. unfold reconcileNetworkPolicy. rewrite He, Hns. reflexivity. }
  by repeat split.
Qed.

End Built.

(** * Further properties: the stored resources *)

Section Stored.

Variable K : Constants.
Variable r : Reconciler.
Variable o : Oracle.

(** X18. A pass changes nothing of a stored resource but its status, and
    neither creates nor deletes one: under every key, the name, the namespace
    and the spec stored after the pass are the ones stored before. *)
Theorem pass_writes_status_only req s k :
  let identity := fun j : LlamaStackDistribution => (Name j, Namespace j, Spec j) in
  identity <$> distributions (cluster (snd (Reconcile K r o req s))) !! k
  = identity <$> distributions (cluster s) !! k.
Proof.
  cbn zeta.
  destruct (o_getInstance o) as [msg |] eqn:Ho.
  { unfold Reconcile, fetchInstance, bind. rewrite clientGet_run, Ho. reflexivity. }
  destruct (distributions (cluster s) !! req) as [i |] eqn:Hi.
  2: { unfold Reconcile, fetchInstance, bind. rewrite clientGet_run, Ho.
       cbn [objects distributionStore]. rewrite Hi. reflexivity. }
  rewrite (Reconcile_state K r o req i s Ho Hi). cbn zeta.
  set (s1 := logged (ApiCall VGet KDistribution req) s).
  destruct (reconcileResources_frame K r o distributions (fun _ => true) i s1)
    as [P _]; try (intros; reflexivity).
  { intros st _. destruct (reconcilePVC_frame K o distributions i st s1) as [P E];
      [reflexivity |]. split; [exact P |].
    eapply extends_weaken; [| exact E]. done. }
  set (s2 := snd (reconcileResources K r o i s1)) in *.
  change (distributions (cluster s1)) with (distributions (cluster s)) in P.
  rewrite <- P. rewrite updateStatus_run.
  destruct (evaluateStatus_frame K r o i (fst (reconcileResources K r o i s1)) s2) as [Cl _].
  destruct (evaluateStatus K r o i _ s2) as [[i1 [err |]] s3]; cbn [fst snd] in *.
  { by rewrite Cl. }
  cbn zeta. cbn [snd].
  pose proof (statusUpdate_run o (touchLastUpdated o i1) s3) as (_ & _ & _ & _ & _ & Hok & Hko).
  cbn zeta in Hok, Hko.
  destruct (fst (statusUpdate o (touchLastUpdated o i1) s3)) as [e |] eqn:Hres.
  { rewrite Hko by done. by rewrite Cl. }
  destruct (Hok eq_refl) as (stored & Hs & Hd). rewrite Hd, <- Cl.
  destruct (decide (objKey (touchLastUpdated o i1) = k)) as [<- | Hne].
  - rewrite lookup_insert_eq, Hs. reflexivity.
  - by rewrite lookup_insert_ne.
Qed.

End Stored.

(** * The constructor and the change predicate *)

Section Boot.

Variable F : FlagsPackage.

(** X19. The ConfigMap that [createDefaultConfigMap] builds carries the name
    and namespace it was asked for, and [parseFeatureFlags] reads its data
    back, without an error, as the default value of the network policy flag,
    provided the YAML library reads back what it wrote. *)
Theorem default_config_map_reads_back (key : Key) (cm : ConfigMap) :
  yamlRoundTrip F ->
  createDefaultConfigMap F key = inl cm ->
  (cm_Namespace cm, cm_Name cm) = key /\
  parseFeatureFlags F (cm_Data cm) = (NetworkPolicyDefaultValue F, None).
Proof.
  intros Hrt. unfold createDefaultConfigMap.
  destruct (yamlMarshal F _) as [y | e] eqn:Ey; [| done].
  intros [= <-]. cbn. split; [by destruct key |].
  unfold parseFeatureFlags. rewrite lookup_singleton_eq.
  by rewrite (Hrt _ _ Ey).
Qed.

(** X20. On a cluster without the operator's ConfigMap the constructor looks
    it up, creates it with the marshalled default flags under the name
    "llama-stack-operator-config" in the operator's namespace, and returns a
    reconciler whose network policy flag is the default value: two calls, one
    object added. *)
Theorem constructor_creates_default_config_map (b : BootOracle)
    (images : gmap string string) (s : BootSys) (ns text : string) :
  yamlRoundTrip F ->
  b_operatorNamespace b = inl ns ->
  b_getConfigMap b = None ->
  b_createConfigMap b = None ->
  configMaps s !! (ns, "llama-stack-operator-config") = None ->
  yamlMarshal F (defaultFlags F) = inl text ->
  NewLlamaStackDistributionReconciler F b images s =
    (inl {| EnableNetworkPolicy := NetworkPolicyDefaultValue F;
            DistributionImages := images |},
     {| configMaps :=
          <[(ns, "llama-stack-operator-config") :=
              {| cm_Name := "llama-stack-operator-config"; cm_Namespace := ns;
                 cm_Data := {[ FeatureFlagsKey F := text ]} |}]> (configMaps s);
        bootCalls := bootCalls s ++
          [GetConfigMap (ns, "llama-stack-operator-config");
           CreateConfigMap (ns, "llama-stack-operator-config")] |}).
Proof.
  intros Hrt Hns Hget Hcreate Habsent Hy.
  unfold NewLlamaStackDistributionReconciler, operatorConfigData.
  rewrite Hns, Hget. cbn [configMaps bootCalls]. rewrite Habsent. cbn [IsNotFound negb].
  unfold createDefaultConfigMap. fold (defaultFlags F). rewrite Hy, Hcreate.
  cbn [cm_Data fst snd]. unfold parseFeatureFlags. rewrite lookup_singleton_eq.
  rewrite (Hrt _ _ Hy). cbn. by rewrite <- app_assoc.
Qed.

(** X21. The constructor never overwrites or removes a ConfigMap: every
    ConfigMap of the cluster is there unchanged afterwards.  It sends a create
    only for "llama-stack-operator-config" in the operator's namespace, and
    only when its lookup succeeded in finding nothing; and the ConfigMaps
    change only when it sent one. *)
Theorem constructor_keeps_existing_config_maps (b : BootOracle)
    (images : gmap string string) (s : BootSys) :
  (forall k cm, configMaps s !! k = Some cm ->
     configMaps (snd (NewLlamaStackDistributionReconciler F b images s)) !! k = Some cm) /\
  (forall k,
     In (CreateConfigMap k)
        (bootSince s (snd (NewLlamaStackDistributionReconciler F b images s))) ->
     b_operatorNamespace b = inl (fst k) /\ snd k = "llama-stack-operator-config" /\
     b_getConfigMap b = None /\ configMaps s !! k = None) /\
  (configMaps (snd (NewLlamaStackDistributionReconciler F b images s)) <> configMaps s ->
   exists k,
     In (CreateConfigMap k)
        (bootSince s (snd (NewLlamaStackDistributionReconciler F b images s)))).
Proof.
  unfold NewLlamaStackDistributionReconciler, bootSince, operatorConfigData.
  destruct (b_operatorNamespace b) as [ns | e] eqn:Ens.
  2:{ cbn. rewrite drop_all. split; [done | split; [intros k [] | done]]. }
  destruct (b_getConfigMap b) as [msg | ] eqn:Eget.
  { cbn. rewrite drop_app_length. split; [done | split; [| done]].
    intros k [Hk | []]. discriminate. }
  cbn [configMaps bootCalls].
  destruct (configMaps s !! (ns, "llama-stack-operator-config")) as [cm0 | ] eqn:Ecm.
  { destruct (parseFeatureFlags F (cm_Data cm0)) as [flag [e | ]];
      cbn; rewrite drop_app_length; (split; [done | split; [| done]]);
      intros k [Hk | []]; discriminate. }
  cbn [IsNotFound negb].
  destruct (createDefaultConfigMap F _) as [cm | e] eqn:Edef.
  2:{ cbn. rewrite drop_app_length. split; [done | split; [| done]].
      intros k [Hk | []]. discriminate. }
  assert (Hcreated : forall k,
    In (CreateConfigMap k)
       [GetConfigMap (ns, "llama-stack-operator-config");
        CreateConfigMap (ns, "llama-stack-operator-config")] ->
    inl ns = inl (A := string) (B := error) (fst k) /\
    snd k = "llama-stack-operator-config" /\
    None = None (A := string) /\ configMaps s !! k = None).
  { intros k [Hk | [Hk | []]]; [discriminate |]. injection Hk as <-. by cbn. }
  assert (Hkept : forall k cm', configMaps s !! k = Some cm' ->
    <[(ns, "llama-stack-operator-config") := cm]> (configMaps s) !! k = Some cm').
  { intros k cm' Hk. rewrite lookup_insert_ne; [done |]. intros <-. congruence. }
  destruct (b_createConfigMap b) as [msg | ] eqn:Ecreate.
  { cbn. rewrite <- app_assoc, drop_app_length. cbn.
    split; [done | split; [exact Hcreated | done]]. }
  destruct (parseFeatureFlags F (cm_Data cm)) as [flag [e | ]];
    cbn; rewrite <- app_assoc, drop_app_length; cbn;
    (split; [exact Hkept | split; [exact Hcreated |]]);
    intros _; exists (ns, "llama-stack-operator-config"); by right; left.
Qed.

(** X22. Constructing the reconciler again after a construction that
    succeeded, in the same operator namespace and with a lookup that does not
    fail, gives the same reconciler, sends the lookup and nothing else, and
    leaves the ConfigMaps as they are: the ConfigMap is created once. *)
Theorem constructor_twice (b b2 : BootOracle) (images : gmap string string)
    (s s1 : BootSys) (rec : Reconciler) :
  NewLlamaStackDistributionReconciler F b images s = (inl rec, s1) ->
  b_operatorNamespace b2 = b_operatorNamespace b ->
  b_getConfigMap b2 = None ->
  exists ns,
    b_operatorNamespace b = inl ns /\
    NewLlamaStackDistributionReconciler F b2 images s1 =
      (inl rec,
       {| configMaps := configMaps s1;
          bootCalls := bootCalls s1 ++ [GetConfigMap (ns, "llama-stack-operator-config")] |}).
Proof.
  intros Hfirst Hns2 Hget2.
  unfold NewLlamaStackDistributionReconciler, operatorConfigData in *.
  rewrite Hns2, Hget2.
  destruct (b_operatorNamespace b) as [ns | e]; [| done].
  exists ns. split; [done |].
  assert (Hparse : forall cm st,
    match parseFeatureFlags F (cm_Data cm) with
    | (_, Some err) => (inr (Errorf "failed to parse feature flags" err), st)
    | (enableNetworkPolicy, None) =>
        (inl {| EnableNetworkPolicy := enableNetworkPolicy;
                DistributionImages := images |}, st)
    end = (inl rec, s1) ->
    configMaps s1 !! (ns, "llama-stack-operator-config") = Some cm ->
    match configMaps s1 !! (ns, "llama-stack-operator-config") with
    | Some configMap =>
        match parseFeatureFlags F (cm_Data configMap) with
        | (_, Some err) =>
            (inr (Errorf "failed to parse feature flags" err),
             {| configMaps := configMaps s1;
                bootCalls := bootCalls s1 ++
                  [GetConfigMap (ns, "llama-stack-operator-config")] |})
        | (enableNetworkPolicy, None) =>
            (inl {| EnableNetworkPolicy := enableNetworkPolicy;
                    DistributionImages := images |},
             {| configMaps := configMaps s1;
                bootCalls := bootCalls s1 ++
                  [GetConfigMap (ns, "llama-stack-operator-config")] |})
        end
    | None => (inr (ErrorsNew ""), s1)
    end =
    (inl rec,
     {| configMaps := configMaps s1;
        bootCalls := bootCalls s1 ++
          [GetConfigMap (ns, "llama-stack-operator-config")] |})).
  { intros cm st Hp Hl. rewrite Hl.
    destruct (parseFeatureFlags F (cm_Data cm)) as [flag [e | ]]; [done |].
    by injection Hp as <- _. }
  destruct (b_getConfigMap b) as [msg | ]; [done |].
  cbn [configMaps bootCalls] in *.
  destruct (configMaps s !! (ns, "llama-stack-operator-config")) as [cm0 | ] eqn:Ecm.
  - assert (Hl : configMaps s1 !! (ns, "llama-stack-operator-config") = Some cm0).
    { destruct (parseFeatureFlags F (cm_Data cm0)) as [flag [e | ]]; [done |].
      injection Hfirst as _ <-. done. }
    specialize (Hparse cm0 _ Hfirst Hl). rewrite Hl in *. exact Hparse.
  - cbn [IsNotFound negb] in Hfirst.
    destruct (createDefaultConfigMap F _) as [cm | e]; [| done].
    destruct (b_createConfigMap b) as [msg | ]; [done |].
    assert (Hl : configMaps s1 !! (ns, "llama-stack-operator-config") = Some cm).
    { destruct (parseFeatureFlags F (cm_Data cm)) as [flag [e | ]]; [done |].
      injection Hfirst as _ <-. cbn. by rewrite lookup_insert_eq. }
    specialize (Hparse cm _ Hfirst Hl). rewrite Hl in *. exact Hparse.
Qed.

End Boot.

Section Watch.

Variable Diff : LlamaStackDistributionSpec -> LlamaStackDistributionSpec -> string.

(** X23. The update predicate lets every update of a distribution through,
    whether or not its spec changed, and holds back exactly the events whose
    old or new object is of another kind.  Comparing the specs only decides
    what is written: nothing when they are equal, a log line and the
    difference when they are not (given that [cmp.Diff] is empty exactly on
    equal values). *)
Theorem every_distribution_update_passes (ObjectOld ObjectNew : Object) :
  (forall a b, Diff a b = "" <-> a = b) ->
  (fst (UpdateFunc Diff ObjectOld ObjectNew) = true <->
   exists oldObj newObj,
     ObjectOld = DistributionObject oldObj /\ ObjectNew = DistributionObject newObj) /\
  (forall oldObj newObj,
     ObjectOld = DistributionObject oldObj -> ObjectNew = DistributionObject newObj ->
     (snd (UpdateFunc Diff ObjectOld ObjectNew) = [] <-> Spec oldObj = Spec newObj)) /\
  (fst (UpdateFunc Diff ObjectOld ObjectNew) = false ->
   snd (UpdateFunc Diff ObjectOld ObjectNew) = []).
Proof.
  intros Hdiff. unfold UpdateFunc.
  destruct ObjectOld as [a | ka], ObjectNew as [b' | kb]; cbn.
  - assert (Hboth : exists oldObj newObj,
      DistributionObject a = DistributionObject oldObj /\
      DistributionObject b' = DistributionObject newObj) by (by exists a, b').
    destruct (decide (Diff (Spec a) (Spec b') = "")) as [E | E]; cbn.
    + split; [done |]. split; [| done].
      intros a' b'' [= <-] [= <-]. split; [| done]. intros _. by apply Hdiff.
    + split; [done |]. split; [| done].
      intros a' b'' [= <-] [= <-]. split; [done |]. intros Heq. by apply Hdiff in Heq.
  - split; [| done]. split; [done |]. by intros (? & ? & ? & ?).
  - split; [| done]. split; [done |]. by intros (? & ? & ? & ?).
  - split; [| done]. split; [done |]. by intros (? & ? & ? & ?).
Qed.

End Watch.

(** * The added statements on concrete passes *)

(** The read of "demo" times out: the pass stops there. *)
Lemma fetch_failure_is_returned_witness :
  Reconcile constants reconciler fetchFails req (running 3)
  = ((emptyResult,
      Some (Errorf "failed to fetch LlamaStackDistribution"
              (ApiFailure "etcdserver: request timed out"))),
     logged (ApiCall VGet KDistribution req) (running 3)).
Proof.
  exact (fetch_failure_is_returned constants reconciler fetchFails req (running 3) _ eq_refl).
Defined.

(** The lookup of the claim times out: only the claim was called. *)
Lemma first_failure_ends_synchronization_witness :
  let s0 := runningWithStorage 3 in
  let out := reconcileResources constants reconciler syncFails resized s0 in
  forallb (onKind KPVC) (since s0 (snd out)) = true /\
  deployments (cluster (snd out)) = deployments (cluster s0).
Proof.
  destruct (proj1 (first_failure_ends_synchronization constants reconciler syncFails resized
                     (runningWithStorage 3))
              (Errorf "failed to fetch PVC" (ApiFailure "etcdserver: request timed out"))
              ltac:(vm_compute; reflexivity)) as (H1 & _ & H2 & _).
  exact (conj H1 H2).
Defined.

(** A claim of 5Gi exists: the lookup, and success. *)
Lemma reconcilePVC_outcomes_witness :
  let s0 := start (clusterOf resized None (Some (claim "5Gi"))) in
  reconcilePVC constants allWell resized {| Size := Some "20Gi"; MountPath := "/data" |} s0
  = (None, logged (ApiCall VGet KPVC ("default", "demo-pvc")) s0).
Proof.
  exact (proj1 (proj2 (proj2 (reconcilePVC_outcomes constants allWell resized
                                {| Size := Some "20Gi"; MountPath := "/data" |}
                                (start (clusterOf resized None (Some (claim "5Gi")))))))
           (claim "5Gi") eq_refl eq_refl ltac:(vm_compute; reflexivity)).
Defined.

(** The claim is created at 20Gi; asking for 50Gi afterwards changes nothing. *)
Lemma reconcilePVC_twice_witness :
  let s1 := snd (reconcilePVC constants allWell resized
                   {| Size := Some "20Gi"; MountPath := "/data" |} (runningWithStorage 3)) in
  let s2 := snd (reconcilePVC constants allWell resized
                   {| Size := Some "50Gi"; MountPath := "/data" |} s1) in
  cluster s2 = cluster s1 /\ forallb isRead (since s1 s2) = true.
Proof.
  exact (proj2 (reconcilePVC_twice constants allWell resized
                  {| Size := Some "20Gi"; MountPath := "/data" |} (runningWithStorage 3)
                  allWell {| Size := Some "50Gi"; MountPath := "/data" |}
                  ltac:(vm_compute; reflexivity))).
Defined.

(** One of three replicas ready: Initializing, and run again in ten seconds. *)
Lemma requeue_exactly_when_initializing_witness :
  fst (fst (Reconcile constants reconciler allWell req (running 1)))
  = {| Requeue := false; RequeueAfter := 10 * Second |}.
Proof.
  apply (proj1 (requeue_exactly_when_initializing constants reconciler allWell req three
                  (running 1) eq_refl ltac:(vm_compute; reflexivity))).
  vm_compute. repeat split.
Defined.

(** No workload stored: Pending. *)
Lemma workload_absent_is_pending_witness :
  let s0 := start (clusterOf three None None) in
  Phase (Status (fst (fst (updateStatus constants reconciler allWell three None s0))))
  = PhasePending.
Proof.
  exact (proj1 (workload_absent_is_pending constants reconciler allWell three
                  (start (clusterOf three None None)) eq_refl
                  ltac:(vm_compute; reflexivity))).
Defined.

(** A bound claim: the storage condition is true. *)
Lemma storage_condition_follows_claim_witness :
  let s0 := start (clusterOf resized (Some (workload 3 3)) (Some (claim "5Gi"))) in
  conditionOf StorageReady
    (fst (fst (updateStatus constants reconciler allWell resized None s0)))
  = Some (mkCondition constants StorageReady true "Storage is ready").
Proof.
  exact (proj1 (proj2 (storage_condition_follows_claim constants reconciler allWell resized
                         (start (clusterOf resized (Some (workload 3 3))
                                   (Some (claim "5Gi")))) eq_refl)
                  ltac:(vm_compute; discriminate))
           (claim "5Gi") eq_refl ltac:(vm_compute; reflexivity) eq_refl).
Defined.

(** No endpoint stored: the endpoint condition is false. *)
Lemma endpoint_condition_follows_existence_witness :
  exists msg,
    conditionOf ServiceReady
      (fst (fst (updateStatus constants reconciler allWell three None (running 3))))
    = Some (mkCondition constants ServiceReady false msg).
Proof.
  destruct (endpoint_condition_follows_existence constants reconciler allWell three
              (running 3) eq_refl) as [_ H].
  apply H; [vm_compute; reflexivity | right; vm_compute; reflexivity].
Defined.

(** The same workload with and without a claim stored: the same phase. *)
Lemma phase_ignores_storage_and_endpoint_witness :
  let s2 := start (clusterOf three (Some (workload 3 3)) (Some (claim "5Gi"))) in
  Phase (Status (fst (fst (updateStatus constants reconciler allWell three None (running 3)))))
  = Phase (Status (fst (fst (updateStatus constants reconciler writeConflicts three None s2)))).
Proof.
  exact (proj1 (phase_ignores_storage_and_endpoint constants reconciler allWell three
                  writeConflicts
                  (running 3)
                  (start (clusterOf three (Some (workload 3 3)) (Some (claim "5Gi"))))
                  eq_refl eq_refl ltac:(vm_compute; reflexivity))).
Defined.

(** The operator version was empty: it is taken from the environment. *)
Lemma versions_are_set_once_witness :
  OperatorVersion
    (Version (Status (fst (fst (updateStatus constants reconciler allWell three None
                                  (running 3))))))
  = "v0.1.0".
Proof.
  exact (proj1 (versions_are_set_once constants reconciler allWell three None (running 3))).
Defined.

(** After a synchronization error the health condition is the one fetched. *)
Lemma sync_error_touches_workload_condition_only_witness :
  let j := fst (fst (updateStatus constants reconciler allWell three
                       (Some (ErrorsNew "boom")) (running 3))) in
  Phase (Status j) = PhaseFailed /\ conditionOf HealthCheck j = conditionOf HealthCheck three.
Proof.
  destruct (sync_error_touches_workload_condition_only constants reconciler allWell three
              (ErrorsNew "boom") (running 3)) as (H1 & _ & H2 & _).
  exact (conj H1 (H2 HealthCheck ltac:(discriminate))).
Defined.

(** The server answers 200 with one provider. *)
Lemma provider_listing_needs_200_witness :
  fst (getProviderInfo constants allWell three (running 3)) = inl someProviders.
Proof.
  exact (proj2 (proj1 (provider_listing_needs_200 constants allWell three (running 3))
                  someProviders) eq_refl).
Defined.

(** The distribution is named "ollama". *)
Lemma active_distribution_reported_witness :
  ActiveDistribution
    (DistConfig (Status (fst (fst (updateStatus constants reconciler allWell three None
                                     (running 3))))))
  = "ollama".
Proof.
  exact (proj1 (active_distribution_reported constants reconciler allWell three (running 3)
                  eq_refl) ltac:(vm_compute; discriminate)).
Defined.

(** No storage requested: no call on a claim. *)
Lemma unrequested_aspects_are_not_touched_witness :
  let s' := snd (Reconcile constants reconciler allWell req (running 3)) in
  forallb (fun c => negb (onKind KPVC c)) (since (running 3) s') = true /\
  pvcs (cluster s') = pvcs (cluster (running 3)).
Proof.
  exact (proj1 (unrequested_aspects_are_not_touched constants reconciler allWell req three
                  (running 3) eq_refl ltac:(vm_compute; reflexivity)) eq_refl).
Defined.

(** The children built for "demo". *)
Lemma child_resources_fit_together_witness :
  exists d svc,
    (forall o s, reconcileDeployment constants reconciler o three s
                 = ApplyDeployment o three d s) /\
    (forall o s, reconcileService constants o three s = ApplyService o three svc s) /\
    dep_Name d = "demo" /\ svc_Selector svc = dep_Selector d.
Proof.
  destruct (child_resources_fit_together constants reconciler three
              "docker.io/llamastack/distribution-ollama:latest"
              ltac:(vm_compute; reflexivity) ltac:(vm_compute; reflexivity))
    as (d & svc & Hd & Hs & Hn & _ & _ & _ & _ & Hsel & _).
  exists d, svc. exact (conj Hd (conj Hs (conj Hn Hsel))).
Defined.

Lemma flagsPackage_round_trip : yamlRoundTrip flagsPackage.
Proof. intros [[[]]] text [= <-]; reflexivity. Qed.

Lemma specDiff_empty a b : specDiff a b = "" <-> a = b.
Proof. unfold specDiff. destruct (decide (a = b)); split; done. Qed.

(** The default ConfigMap of the two-document library. *)
Lemma default_config_map_reads_back_witness :
  parseFeatureFlags flagsPackage
    {[ "featureFlags" := "enableNetworkPolicy: {enabled: false}" ]}
  = (false, None).
Proof.
  exact (proj2 (default_config_map_reads_back flagsPackage operatorConfigKey
                  {| cm_Name := "llama-stack-operator-config";
                     cm_Namespace := "llama-stack-operator-system";
                     cm_Data := {[ "featureFlags" := "enableNetworkPolicy: {enabled: false}" ]} |}
                  flagsPackage_round_trip eq_refl)).
Defined.

(** A cluster without ConfigMaps: the default one is created. *)
Lemma constructor_creates_default_config_map_witness :
  let out := NewLlamaStackDistributionReconciler flagsPackage bootWell
               (DistributionImages reconciler) freshBoot in
  fst out = inl {| EnableNetworkPolicy := false;
                   DistributionImages := DistributionImages reconciler |} /\
  bootCalls (snd out) = [GetConfigMap operatorConfigKey; CreateConfigMap operatorConfigKey].
Proof.
  cbv zeta.
  rewrite (constructor_creates_default_config_map flagsPackage bootWell
             (DistributionImages reconciler) freshBoot
             "llama-stack-operator-system" "enableNetworkPolicy: {enabled: false}"
             flagsPackage_round_trip eq_refl eq_refl eq_refl
             ltac:(vm_compute; reflexivity) eq_refl).
  split; reflexivity.
Defined.

(** The administrator's ConfigMap survives the constructor. *)
Lemma constructor_keeps_existing_config_maps_witness :
  configMaps (snd (NewLlamaStackDistributionReconciler flagsPackage bootWell
                     (DistributionImages reconciler) configured)) !! operatorConfigKey
  = Some policyOn.
Proof.
  exact (proj1 (constructor_keeps_existing_config_maps flagsPackage bootWell
                  (DistributionImages reconciler) configured)
           operatorConfigKey policyOn ltac:(vm_compute; reflexivity)).
Defined.

(** The constructor run twice on a cluster without ConfigMaps. *)
Lemma constructor_twice_witness :
  let first := NewLlamaStackDistributionReconciler flagsPackage bootWell
                 (DistributionImages reconciler) freshBoot in
  let second := NewLlamaStackDistributionReconciler flagsPackage bootWell
                  (DistributionImages reconciler) (snd first) in
  fst second = fst first /\
  configMaps (snd second) = configMaps (snd first) /\
  bootCalls (snd second) = bootCalls (snd first) ++ [GetConfigMap operatorConfigKey].
Proof.
  cbv zeta.
  destruct (constructor_twice flagsPackage bootWell bootWell (DistributionImages reconciler)
              freshBoot
              (snd (NewLlamaStackDistributionReconciler flagsPackage bootWell
                      (DistributionImages reconciler) freshBoot))
              {| EnableNetworkPolicy := false;
                 DistributionImages := DistributionImages reconciler |}
              ltac:(vm_compute; reflexivity) eq_refl eq_refl) as (ns & Hns & H).
  injection Hns as <-. rewrite H. repeat split.
Defined.

(** A change of status alone passes the predicate, and writes nothing. *)
Lemma every_distribution_update_passes_witness :
  let changed := mapStatus (setPhase PhaseReady) three in
  UpdateFunc specDiff (DistributionObject three) (DistributionObject changed) = (true, []).
Proof.
  cbv zeta.
  destruct (every_distribution_update_passes specDiff (DistributionObject three)
              (DistributionObject (mapStatus (setPhase PhaseReady) three)) specDiff_empty)
    as (Hpass & Hquiet & _).
  rewrite (surjective_pairing (UpdateFunc _ _ _)).
  rewrite (proj2 Hpass ltac:(by eexists _, _)).
  rewrite (proj2 (Hquiet _ _ eq_refl eq_refl) eq_refl).
  reflexivity.
Defined.
